(** * Voice sentiment analysis backend: audio utilities and model services

    A shallow embedding of [backend/app/utils/audio_utils.py],
    [backend/app/services/whisper_service.py] and
    [backend/app/services/sentiment_service.py], followed by the
    properties of the design document that were checked against it.

    Conventions of the embedding.
    - A Python [int] is a [Z]; a finite Python [float] is a rational [Q]
      with exact arithmetic (rounding, infinities and NaN are not
      represented); [int(x)] truncates towards zero.
    - A one-dimensional [numpy] array of samples is a [list] of samples.
    - A Python [str] is a [string] whose characters are code points below
      256.
    - Code that can raise returns a [result]; methods that update [self]
      take the object and return the new object with the result.
    - What the code obtains from outside (the file system, the transcoder
      process, [soundfile], [scipy], [torch], the model libraries) is an
      explicit environment argument. *)

From Stdlib Require Import QArith Qabs ZArith Lia Ascii String DecimalString.
From stdpp Require Import gmap strings list fin_maps.

Local Open Scope Z_scope.

(** ** Python values *)

Module Py.

(** Classes of the exceptions that occur in the sources; every one of
    them is a subclass of [Exception]. *)
Inductive exn_class :=
| ImportError
| FileNotFoundError
| TimeoutExpired
| IndexError
| KeyError
| TypeError
| ZeroDivisionError
| ValueError
| RuntimeError
| AudioProcessingError
| OtherException.

(** An exception object: its class and [str(e)]. *)
Record exn := Exn { exn_class_of : exn_class; str_of : string }.

Inductive result (A : Type) :=
| Ok (a : A)
| Raise (e : exn).
Arguments Ok {A} a.
Arguments Raise {A} e.

Definition is_class (c : exn_class) (e : exn) : bool :=
  match c, exn_class_of e with
  | ImportError, ImportError
  | FileNotFoundError, FileNotFoundError
  | TimeoutExpired, TimeoutExpired
  | IndexError, IndexError
  | KeyError, KeyError
  | TypeError, TypeError
  | ZeroDivisionError, ZeroDivisionError
  | ValueError, ValueError
  | RuntimeError, RuntimeError
  | AudioProcessingError, AudioProcessingError
  | OtherException, OtherException => true
  | _, _ => false
  end.

(** [bind] sequences two statements; an exception skips the second. *)
Definition bind {A B} (r : result A) (k : A -> result B) : result B :=
  match r with
  | Ok a => k a
  | Raise e => Raise e
  end.

(** [int(x)] on a finite float. *)
Definition int (x : Q) : Z := Z.quot (Qnum x) (Zpos (Qden x)).

(** [float(n)] and the implicit conversion of an [int] operand. *)
Definition float (n : Z) : Q := inject_Z n.

Definition len {A} (l : list A) : Z := Z.of_nat (length l).

(** Normalisation of one bound of a slice of a sequence of length [n]:
    a negative bound counts from the end, and both are clipped. *)
Definition slice_index (n i : Z) : Z :=
  if i <? 0 then Z.max 0 (n + i) else Z.min i n.

(** [l[start:stop]]. *)
Definition slice {A} (l : list A) (start stop : Z) : list A :=
  let lo := slice_index (len l) start in
  let hi := slice_index (len l) stop in
  take (Z.to_nat (hi - lo)) (drop (Z.to_nat lo) l).

(** [l[start:]]. *)
Definition slice_from {A} (l : list A) (start : Z) : list A :=
  drop (Z.to_nat (slice_index (len l) start)) l.

(** [str(n)] for an [int]. *)
Definition str_int (n : Z) : string := NilZero.string_of_int (Z.to_int n).

End Py.

(** ** [AudioBuffer]: the ring buffer of [audio_utils.py] *)

Definition sample := Q.

Module AudioBuffer.

Record t := mk {
  sample_rate : Z;
  max_samples : Z;
  buffer : list sample;
  _lock : bool
}.

Definition set_buffer (self : t) (b : list sample) : t :=
  {| sample_rate := sample_rate self;
     max_samples := max_samples self;
     buffer := b;
     _lock := _lock self |}.

Definition __init__ (sample_rate : Z) (max_duration : Q) : t :=
  {| sample_rate := sample_rate;
     max_samples := Py.int (Py.float sample_rate * max_duration);
     buffer := [];
     _lock := false |}.

Definition append (self : t) (data : list sample) : t :=
  if _lock self then self
  else
    let b := buffer self ++ data in
    if Py.len b >? max_samples self
    then set_buffer self (Py.slice_from b (- max_samples self))
    else set_buffer self b.

Definition start_of (self : t) (start_offset : Q) : Z :=
  Py.int (Py.float (Py.len (buffer self))
          - start_offset * Py.float (sample_rate self)).

Definition end_of (self : t) (start_offset duration : Q) : Z :=
  Py.int (Py.float (start_of self start_offset)
          + duration * Py.float (sample_rate self)).

Definition get_chunk (self : t) (start_offset duration : Q) : list sample :=
  let start_sample := start_of self start_offset in
  let end_sample := end_of self start_offset duration in
  let start_sample := Z.max 0 start_sample in
  let end_sample := Z.min (Py.len (buffer self)) end_sample in
  if start_sample >=? end_sample then []
  else Py.slice (buffer self) start_sample end_sample.

Definition clear (self : t) : t := set_buffer self [].

Definition get_all (self : t) : list sample := buffer self.

Definition is_empty (self : t) : bool := Py.len (buffer self) =? 0.


(** The buffer after a sequence of [append] calls. *)
Definition appends (self : t) (chunks : list (list sample)) : t :=
  foldl append self chunks.

End AudioBuffer.

(** ** Effectful code: a state threaded through calls that can raise *)

Module Eff.

(** A computation over a state [S] (the log of the process, or the
    attributes of [self]): it returns or raises, and either way leaves a
    state behind. *)
Definition M (S A : Type) : Type := S -> Py.result A * S.

Definition ret {S A} (a : A) : M S A := fun s => (Py.Ok a, s).

Definition raise {S A} (e : Py.exn) : M S A := fun s => (Py.Raise e, s).

Definition bind {S A B} (m : M S A) (k : A -> M S B) : M S B :=
  fun s =>
    match m s with
    | (Py.Ok a, s') => k a s'
    | (Py.Raise e, s') => (Py.Raise e, s')
    end.

(** A call of an outside function, which returns or raises. *)
Definition call {S A} (r : Py.result A) : M S A := fun s => (r, s).

Definition get {S} : M S S := fun s => (Py.Ok s, s).

Definition modify {S} (f : S -> S) : M S unit := fun s => (Py.Ok tt, f s).

(** [try: body  except C as e: handler e]. *)
Definition try_except {S A} (body : M S A) (c : Py.exn_class)
    (handler : Py.exn -> M S A) : M S A :=
  fun s =>
    match body s with
    | (Py.Ok a, s') => (Py.Ok a, s')
    | (Py.Raise e, s') =>
        if Py.is_class c e then handler e s' else (Py.Raise e, s')
    end.

(** [try: body  except Exception as e: handler e]. *)
Definition try_except_Exception {S A} (body : M S A)
    (handler : Py.exn -> M S A) : M S A :=
  fun s =>
    match body s with
    | (Py.Ok a, s') => (Py.Ok a, s')
    | (Py.Raise e, s') => handler e s'
    end.

End Eff.

Notation "'do' x <- m ; k" := (Eff.bind m (fun x => k))
  (at level 10, x pattern, m at level 100, k at level 200,
   format "'[v' 'do'  x  <-  m ; '/' k ']'").
Notation "'exec' m ; k" := (Eff.bind m (fun _ => k))
  (at level 10, m at level 100, k at level 200,
   format "'[v' 'exec'  m ; '/' k ']'").

(** ** Strings and paths *)

Module Str.

Local Open Scope N_scope.

(** [c.isspace()] for a code point below 256. *)
Definition isspace (c : ascii) : bool :=
  let n := N_of_ascii c in
  ((9 <=? n) && (n <=? 13)) || ((28 <=? n) && (n <=? 32))
  || (n =? 133) || (n =? 160).

(** [c.lower()] for a code point below 256. *)
Definition lower_char (c : ascii) : ascii :=
  let n := N_of_ascii c in
  if ((65 <=? n) && (n <=? 90))
     || ((192 <=? n) && (n <=? 222) && negb (n =? 215))
  then ascii_of_N (n + 32)
  else c.

Fixpoint lower (s : string) : string :=
  match s with
  | EmptyString => EmptyString
  | String c s' => String (lower_char c) (lower s')
  end.

Fixpoint lstrip (s : string) : string :=
  match s with
  | EmptyString => EmptyString
  | String c s' => if isspace c then lstrip s' else s
  end.

Fixpoint rstrip (s : string) : string :=
  match s with
  | EmptyString => EmptyString
  | String c s' =>
      match rstrip s' with
      | EmptyString => if isspace c then EmptyString else String c EmptyString
      | r => String c r
      end
  end.

(** [s.strip()]. *)
Definition strip (s : string) : string := rstrip (lstrip s).

(** Truth value of a string: [not s] holds of the empty string only. *)
Definition not_ (s : string) : bool :=
  match s with EmptyString => true | String _ _ => false end.

Local Open Scope Z_scope.

(** [s.rfind(c)] counted from position [i] of the first character:
    the position of the last occurrence, or [-1]. *)
Fixpoint rfind_from (c : ascii) (s : string) (i : Z) : Z :=
  match s with
  | EmptyString => -1
  | String a s' =>
      let r := rfind_from c s' (i + 1) in
      if r >=? 0 then r
      else if Ascii.eqb a c then i else -1
  end.

Definition rfind (c : ascii) (s : string) : Z := rfind_from c s 0.

Definition len (s : string) : Z := Z.of_nat (String.length s).

(** [s[i:]] and [s[:i]] for [0 <= i]. *)
Definition from (s : string) (i : Z) : string :=
  substring (Z.to_nat i) (String.length s - Z.to_nat i) s.

Definition upto (s : string) (i : Z) : string :=
  substring 0 (Z.to_nat i) s.

(** The components of a path, separated by [/]. *)
Fixpoint split_slash (s : string) : list string :=
  match s with
  | EmptyString => [EmptyString]
  | String c s' =>
      if Ascii.eqb c "/" then EmptyString :: split_slash s'
      else
        match split_slash s' with
        | h :: t => String c h :: t
        | [] => [String c EmptyString]
        end
  end.

(** [Path(p).name]: the last component, empty components and [.] aside. *)
Definition name (p : string) : string :=
  List.last
    (List.filter (fun c => negb (String.eqb c EmptyString || String.eqb c "."))
       (split_slash p))
    EmptyString.

(** [Path(p).suffix]: the name from its last dot on, when that dot is
    neither the first nor the last character of the name. *)
Definition suffix (p : string) : string :=
  let name := name p in
  let i := rfind "." name in
  if (0 <? i) && (i <? len name - 1) then from name i else EmptyString.

(** [Path(p).stem]. *)
Definition stem (p : string) : string :=
  let name := name p in
  let i := rfind "." name in
  if (0 <? i) && (i <? len name - 1) then upto name i else name.

(** [repr(s)] for a string of printable characters without quote or
    backslash. *)
Definition repr (s : string) : string := "'" +:+ s +:+ "'".

Fixpoint join (sep : string) (l : list string) : string :=
  match l with
  | [] => EmptyString
  | [s] => s
  | s :: l' => s +:+ sep +:+ join sep l'
  end.

(** [repr(l)] for a list of strings. *)
Definition repr_list (l : list string) : string :=
  "[" +:+ join ", " (List.map repr l) +:+ "]".

(** Rounding of a non-negative rational to the nearest integer, ties to
    the even one. *)
Definition round_half_even (q : Q) : Z :=
  let n := Qnum q in
  let d := Zpos (Qden q) in
  let fl := n / d in
  let r := n mod d in
  match 2 * r ?= d with
  | Lt => fl
  | Gt => fl + 1
  | Eq => if Z.even fl then fl else fl + 1
  end.

(** [f"{x:.1f}"]. *)
Definition format_1f (x : Q) : string :=
  let neg := Qnum x <? 0 in
  let t := round_half_even (Qabs x * 10) in
  (if neg then "-" else EmptyString)
  +:+ Py.str_int (t / 10) +:+ "." +:+ Py.str_int (t mod 10).

End Str.

(** ** [audio_utils.py]: validation, conversion, duration, trimming *)

Module AudioUtils.

Definition AUDIO_FORMATS : list (string * string) :=
  [ (".wav", "audio/wav");
    (".mp3", "audio/mpeg");
    (".webm", "audio/webm");
    (".ogg", "audio/ogg");
    (".flac", "audio/flac");
    (".m4a", "audio/mp4") ].

Definition TARGET_SAMPLE_RATE : Z := 16000.

(** The file system seen by [validate_audio_file] is the size in bytes
    of every path that exists; a path is a string in the form in which
    [Path] prints it, and every path can be examined. *)
Definition validate_audio_file (fs : gmap string Z) (file_path : string)
    (max_size_mb : Z) (allowed_formats : option (list string))
    : bool * string :=
  let allowed_formats :=
    match allowed_formats with
    | None => List.map fst AUDIO_FORMATS
    | Some l => l
    end in
  match fs !! file_path with
  | None => (false, "File not found: " +:+ file_path)
  | Some st_size =>
      let suffix := Str.lower (Str.suffix file_path) in
      if negb (bool_decide (suffix ∈ allowed_formats)) then
        (false,
         "Unsupported format: " +:+ suffix +:+ ". Allowed: "
         +:+ Str.repr_list allowed_formats)
      else
        let file_size_mb := (Py.float st_size / Py.float (1024 * 1024))%Q in
        if Qlt_le_dec (Py.float max_size_mb) file_size_mb then
          (false,
           "File too large: " +:+ Str.format_1f file_size_mb +:+ "MB > "
           +:+ Py.str_int max_size_mb +:+ "MB limit")
        else (true, EmptyString)
  end.

(** What the process leaves behind: log records and calls to the
    outside, oldest first. *)
Inductive level := INFO | WARNING | ERROR.

Inductive event :=
| Logged (l : level) (msg : string)
| Spawned (cmd : list string) (timeout : Z)
| SfRead (path : string)
| SfInfo (path : string)
| SfWrite (path : string) (rate : Z)
| WavRead (path : string).

Definition trace := list event.

Definition emit (e : event) : Eff.M trace unit :=
  Eff.modify (fun t => t ++ [e]).

(** An array of samples: one channel, or rows of one value per channel. *)
Inductive ndarray :=
| Array1 (l : list Q)
| Array2 (rows : list (list Q)).

(** How a command behaves when it is started: the program is missing,
    or it runs for some seconds and exits. *)
Inductive process_behaviour :=
| NoSuchProgram
| Exits (seconds : Q) (returncode : Z) (stderr : string).

Record Env := {
  gettempdir : string;
  process : list string -> process_behaviour;
  soundfile_importable : bool;
  librosa_importable : bool;
  sf_read : string -> Py.result (ndarray * Z);
  sf_info_duration : string -> Py.result Q;
  sf_write : string -> ndarray -> Z -> Py.result unit;
  librosa_resample : ndarray -> Z -> Z -> Py.result ndarray;
  wav_read : string -> Py.result (Z * Z)
}.

(** [import m]. *)
Definition import (available : bool) (m : string) : Eff.M trace unit :=
  if available then Eff.ret tt
  else Eff.raise (Py.Exn Py.ImportError ("No module named " +:+ Str.repr m)).

(** [subprocess.run(cmd, capture_output=True, text=True, timeout=t)]:
    the return code and the captured error output. *)
Definition subprocess_run (env : Env) (cmd : list string) (timeout : Z)
    : Eff.M trace (Z * string) :=
  exec emit (Spawned cmd timeout);
  match process env cmd with
  | NoSuchProgram =>
      Eff.raise (Py.Exn Py.FileNotFoundError
                   ("[Errno 2] No such file or directory: "
                    +:+ Str.repr (List.hd EmptyString cmd)))
  | Exits seconds returncode stderr =>
      if Qlt_le_dec (Py.float timeout) seconds then
        Eff.raise (Py.Exn Py.TimeoutExpired
                     ("Command " +:+ Str.repr_list cmd +:+ " timed out after "
                      +:+ Py.str_int timeout +:+ " seconds"))
      else Eff.ret (returncode, stderr)
  end.

Definition ndim (a : ndarray) : Z :=
  match a with Array1 _ => 1 | Array2 _ => 2 end.

Definition Qsum (l : list Q) : Q := List.fold_right Qplus 0%Q l.

(** [np.mean(a, axis=1)]. *)
Definition mean_axis1 (a : ndarray) : ndarray :=
  match a with
  | Array1 l => Array1 l
  | Array2 rows =>
      Array1 (List.map (fun r => (Qsum r / Py.float (Py.len r))%Q) rows)
  end.

Definition flat (a : ndarray) : list Q :=
  match a with
  | Array1 l => l
  | Array2 rows => List.concat rows
  end.

Definition Qmax (x y : Q) : Q := if Qlt_le_dec x y then y else x.

(** [a.max()]; it raises on an array without elements. *)
Definition ndarray_max (a : ndarray) : Py.result Q :=
  match flat a with
  | [] =>
      Py.Raise
        (Py.Exn Py.ValueError
           "zero-size array to reduction operation maximum has no identity")
  | x :: l => Py.Ok (List.fold_left Qmax l x)
  end.

(** [a / m]. *)
Definition ndarray_div (a : ndarray) (m : Q) : ndarray :=
  match a with
  | Array1 l => Array1 (List.map (fun x => (x / m)%Q) l)
  | Array2 rows =>
      Array2 (List.map (List.map (fun x => (x / m)%Q)) rows)
  end.

Definition _convert_with_scipy (env : Env) (input_path output_path : string)
    (sample_rate : Z) (mono : bool) : Eff.M trace unit :=
  Eff.try_except_Exception
    (exec import (soundfile_importable env) "soundfile";
     exec import (librosa_importable env) "librosa";
     exec emit (SfRead input_path);
     do (audio, orig_sr) <- Eff.call (sf_read env input_path);
     do audio <-
       (if negb (orig_sr =? sample_rate)
        then Eff.call (librosa_resample env audio orig_sr sample_rate)
        else Eff.ret audio);
     let audio :=
       if mono && (ndim audio >? 1) then mean_axis1 audio else audio in
     do m <- Eff.call (ndarray_max audio);
     let audio :=
       if Qlt_le_dec 0 m then ndarray_div audio m else audio in
     exec emit (SfWrite output_path sample_rate);
     Eff.call (sf_write env output_path audio sample_rate))
    (fun e =>
       Eff.raise (Py.Exn Py.AudioProcessingError
                    ("Scipy conversion failed: " +:+ Py.str_of e))).

Definition get_audio_duration (env : Env) (file_path : string)
    : Eff.M trace Q :=
  Eff.try_except_Exception
    (do found <-
       Eff.try_except
         (exec import (soundfile_importable env) "soundfile";
          exec emit (SfInfo file_path);
          do duration <- Eff.call (sf_info_duration env file_path);
          Eff.ret (Some duration))
         Py.ImportError
         (fun _ => Eff.ret None);
     match found with
     | Some duration => Eff.ret duration
     | None =>
         exec emit (WavRead file_path);
         do (sample_rate, len_data) <- Eff.call (wav_read env file_path);
         if sample_rate =? 0
         then Eff.raise (Py.Exn Py.ZeroDivisionError "division by zero")
         else Eff.ret (Py.float len_data / Py.float sample_rate)%Q
     end)
    (fun e =>
       exec emit (Logged WARNING
                    ("Could not get audio duration: " +:+ Py.str_of e));
       Eff.ret 0%Q).

Definition ffmpeg_cmd (input_path output_path : string) (sample_rate : Z)
    (mono : bool) : list string :=
  [ "ffmpeg"; "-y";
    "-i"; input_path;
    "-ar"; Py.str_int sample_rate;
    "-ac"; if mono then "1" else "2";
    "-codec:pcm_s16le";
    output_path ].

Definition convert_to_wav (env : Env) (input_path : string)
    (output_path : option string) (sample_rate : Z) (mono : bool)
    : Eff.M trace (string * Q) :=
  let output_path :=
    match output_path with
    | None =>
        gettempdir env +:+ "/" +:+ Str.stem input_path +:+ "_converted.wav"
    | Some p => p
    end in
  exec
    Eff.try_except_Exception
      (Eff.try_except
         (let cmd := ffmpeg_cmd input_path output_path sample_rate mono in
          do (returncode, stderr) <- subprocess_run env cmd 60;
          if negb (returncode =? 0)
          then Eff.raise (Py.Exn Py.AudioProcessingError
                            ("FFmpeg error: " +:+ stderr))
          else Eff.ret tt)
         Py.FileNotFoundError
         (fun _ =>
            exec emit (Logged WARNING
                         "FFmpeg not found, using scipy for conversion");
            _convert_with_scipy env input_path output_path sample_rate mono))
      (fun e =>
         exec emit (Logged ERROR
                      ("Audio conversion failed: " +:+ Py.str_of e));
         Eff.raise (Py.Exn Py.AudioProcessingError
                      ("Failed to convert audio: " +:+ Py.str_of e)));
  do duration <- get_audio_duration env output_path;
  Eff.ret (output_path, duration).

(** *** [remove_silence]

    The numerical routines of [numpy] and [scipy] are arguments: the
    median filter, the analytic signal with its complex values and their
    magnitude, and the power function. *)
Section RemoveSilence.

Variable complex : Type.
Variable medfilt : list Q -> Z -> list Q.
Variable hilbert : list Q -> list complex.
Variable abs_complex : complex -> Q.
Variable pow : Q -> Q -> Q.

(** [np.where(mask)[0]]: the positions where the mask holds. *)
Fixpoint np_where_from (mask : list bool) (i : Z) : list Z :=
  match mask with
  | [] => []
  | b :: mask' =>
      if b then i :: np_where_from mask' (i + 1)
      else np_where_from mask' (i + 1)
  end.

Definition np_where (mask : list bool) : list Z := np_where_from mask 0.

(** [x > threshold], elementwise in [envelope > threshold]. *)
Definition exceeds (threshold x : Q) : bool :=
  if Qlt_le_dec threshold x then true else false.

Definition envelope_of (audio_data : list sample) : list Q :=
  List.map abs_complex (hilbert (medfilt (List.map Qabs audio_data) 101)).

Definition remove_silence (audio_data : list sample) (sample_rate : Z)
    (threshold_db : Q) (frame_length hop_length : Z) : list sample :=
  let threshold := pow 10 (threshold_db / 20) in
  let envelope := envelope_of audio_data in
  let non_silent := List.map (exceeds threshold) envelope in
  let indices := np_where non_silent in
  if Py.len indices =? 0 then audio_data
  else
    let start := Z.max 0 (List.hd 0 indices - frame_length) in
    let end_ :=
      Z.min (Py.len audio_data) (List.last indices 0 + frame_length) in
    Py.slice audio_data start end_.

End RemoveSilence.

End AudioUtils.

(** ** [whisper_service.py]: the transcription service

    The attributes of the one [WhisperService] object are the state of
    the methods.  Log statements of the services are not represented. *)

Module WhisperService.

(** The loaded model, as far as the service looks into it. *)
Record Whisper := { num_parameters : Z }.

(** Keyword arguments of [whisper.load_model]. *)
Record kwargs := {
  kw_model : string;
  kw_device : string;
  kw_download_root : string;
  kw_compute_type : option string
}.

(** The configuration and the libraries, at the time of one call. *)
Record Env := {
  WHISPER_MODEL_SIZE : string;
  WHISPER_DEVICE : string;
  WHISPER_COMPUTE_TYPE : string;
  MODEL_CACHE_DIR_ABSOLUTE : string;
  cuda_is_available : bool;
  cuda_device : string * Q;
  whisper_load_model : kwargs -> Py.result Whisper;
  elapsed : Q
}.

Record t := mk {
  model : option Whisper;
  model_size : string;
  device : string;
  _load_time : option Q;
  _model_loaded : bool
}.

Definition set_model (m : option Whisper) (self : t) : t :=
  mk m (model_size self) (device self) (_load_time self) (_model_loaded self).
Definition set_device (d : string) (self : t) : t :=
  mk (model self) (model_size self) d (_load_time self) (_model_loaded self).
Definition set_load_time (x : option Q) (self : t) : t :=
  mk (model self) (model_size self) (device self) x (_model_loaded self).
Definition set_model_loaded (b : bool) (self : t) : t :=
  mk (model self) (model_size self) (device self) (_load_time self) b.

(** [__init__] runs on the object that [__new__] returns: [None] stands
    for the object just created, whose [_initialized] is false, and
    [Some self] for the singleton that an earlier call has initialized. *)
Definition __init__ (env : Env) (existing : option t) : t :=
  match existing with
  | Some self => self
  | None =>
      {| model := None;
         model_size := WHISPER_MODEL_SIZE env;
         device := WHISPER_DEVICE env;
         _load_time := None;
         _model_loaded := false |}
  end.

Definition load_model (env : Env) (force_reload : bool) : Eff.M t unit :=
  do self <- Eff.get;
  if _model_loaded self && negb force_reload then Eff.ret tt
  else
    Eff.try_except_Exception
      (exec
         (if String.eqb (device self) "auto"
          then Eff.modify
                 (set_device (if cuda_is_available env then "cuda" else "cpu"))
          else Eff.ret tt);
       do self <- Eff.get;
       let compute_type :=
         if String.eqb (device self) "cuda" then
           let compute_type := WHISPER_COMPUTE_TYPE env in
           Some (if String.eqb compute_type "default"
                 then (if cuda_is_available env then "float16" else "float32")
                 else compute_type)
         else None in
       let model_kwargs :=
         {| kw_model := model_size self;
            kw_device := device self;
            kw_download_root := MODEL_CACHE_DIR_ABSOLUTE env;
            kw_compute_type := compute_type |} in
       do m <- Eff.call (whisper_load_model env model_kwargs);
       exec Eff.modify (set_model (Some m));
       exec Eff.modify (set_load_time (Some (elapsed env)));
       Eff.modify (set_model_loaded true))
      (fun e =>
         Eff.raise (Py.Exn Py.RuntimeError
                      ("Whisper model loading failed: " +:+ Py.str_of e))).

(** The dictionary returned by [get_model_info]. *)
Inductive model_info :=
| status_not_loaded
| info (model_size device : string) (is_loaded : bool)
    (load_time_seconds : option Q) (num_parameters : option Z)
    (gpu : option (string * Q)).

Definition get_model_info (env : Env) (self : t) : model_info :=
  if negb (_model_loaded self) then status_not_loaded
  else
    info (model_size self) (device self) (_model_loaded self)
      (_load_time self)
      (match model self with
       | Some m => Some (num_parameters m)
       | None => None
       end)
      (if cuda_is_available env then Some (cuda_device env) else None).

Definition unload_model : Eff.M t unit :=
  do self <- Eff.get;
  match model self with
  | Some _ =>
      exec Eff.modify (set_model None);
      Eff.modify (set_model_loaded false)
  | None => Eff.ret tt
  end.

End WhisperService.

(** ** [sentiment_service.py]: the classification service *)

Module SentimentService.

(** Modelled from the spec: the enumeration [SentimentLabel] is declared
    in [models/schemas.py], which is not among the sources.  Its members
    are the closed set of the data model, {joy, sadness, anger, fear,
    love, surprise, neutral}; the service names each of them. *)
Inductive SentimentLabel :=
| JOY | SADNESS | ANGER | FEAR | LOVE | SURPRISE | NEUTRAL.

(** [for label in SentimentLabel]. *)
Definition all_labels : list SentimentLabel :=
  [JOY; SADNESS; ANGER; FEAR; LOVE; SURPRISE; NEUTRAL].

#[global] Instance SentimentLabel_eq_dec : EqDecision SentimentLabel.
Proof. solve_decision. Defined.

#[global] Instance SentimentLabel_countable : Countable SentimentLabel.
Proof.
  refine (inj_countable'
            (fun l => match l with
                      | JOY => 0%nat | SADNESS => 1%nat | ANGER => 2%nat
                      | FEAR => 3%nat | LOVE => 4%nat | SURPRISE => 5%nat
                      | NEUTRAL => 6%nat
                      end)
            (fun n => match n with
                      | 0%nat => JOY | 1%nat => SADNESS | 2%nat => ANGER
                      | 3%nat => FEAR | 4%nat => LOVE | 5%nat => SURPRISE
                      | _ => NEUTRAL
                      end) _).
  intros []; reflexivity.
Defined.

(** Modelled from the spec: [SentimentResult] of [models/schemas.py], one
    label with its score. *)
Record SentimentResult := { label : SentimentLabel; score : Q }.

Definition EMOTION_MAPPING : gmap string SentimentLabel :=
  list_to_map
    [ ("joy", JOY);
      ("sadness", SADNESS);
      ("anger", ANGER);
      ("fear", FEAR);
      ("love", LOVE);
      ("surprise", SURPRISE) ].

(** One dictionary of the classifier's answer; a key can be missing. *)
Record raw := { raw_label : option string; raw_score : option Q }.

(** The answer of the text-classification pipeline for one text: a list
    of dictionaries, or a list holding such a list. *)
Inductive output :=
| Flat (l : list raw)
| Nested (l : list (list raw)).

Definition Classifier := string -> Py.result output.

Record Tokenizer := { tokenizer_name : string }.
Record Model := { id2label_values : list string }.

(** The [device] argument of [pipeline]: a device name, or an index. *)
Inductive pipeline_device :=
| device_name (d : string)
| device_index (i : Z).

Record Env := {
  SENTIMENT_MODEL_NAME : string;
  SENTIMENT_DEVICE : string;
  cuda_is_available : bool;
  cuda_total_memory : Q;
  tokenizer_from_pretrained : string -> Py.result Tokenizer;
  model_from_pretrained : string -> Py.result Model;
  model_to : Model -> string -> Py.result unit;
  pipeline : Model -> Tokenizer -> pipeline_device -> Py.result Classifier;
  elapsed : Q
}.

Record t := mk {
  model_name : string;
  device : string;
  tokenizer : option Tokenizer;
  model : option Model;
  classifier : option Classifier;
  _load_time : option Q;
  _model_loaded : bool;
  _labels : list string
}.

Definition set_device (d : string) (self : t) : t :=
  mk (model_name self) d (tokenizer self) (model self) (classifier self)
    (_load_time self) (_model_loaded self) (_labels self).
Definition set_tokenizer (x : option Tokenizer) (self : t) : t :=
  mk (model_name self) (device self) x (model self) (classifier self)
    (_load_time self) (_model_loaded self) (_labels self).
Definition set_model (x : option Model) (self : t) : t :=
  mk (model_name self) (device self) (tokenizer self) x (classifier self)
    (_load_time self) (_model_loaded self) (_labels self).
Definition set_classifier (x : option Classifier) (self : t) : t :=
  mk (model_name self) (device self) (tokenizer self) (model self) x
    (_load_time self) (_model_loaded self) (_labels self).
Definition set_load_time (x : option Q) (self : t) : t :=
  mk (model_name self) (device self) (tokenizer self) (model self)
    (classifier self) x (_model_loaded self) (_labels self).
Definition set_model_loaded (b : bool) (self : t) : t :=
  mk (model_name self) (device self) (tokenizer self) (model self)
    (classifier self) (_load_time self) b (_labels self).
Definition set_labels (l : list string) (self : t) : t :=
  mk (model_name self) (device self) (tokenizer self) (model self)
    (classifier self) (_load_time self) (_model_loaded self) l.

(** [__init__] runs on the object that [__new__] returns: [None] stands
    for the object just created, whose [_initialized] is false, and
    [Some self] for the singleton that an earlier call has initialized. *)
Definition __init__ (env : Env) (existing : option t) : t :=
  match existing with
  | Some self => self
  | None =>
      {| model_name := SENTIMENT_MODEL_NAME env;
         device := SENTIMENT_DEVICE env;
         tokenizer := None;
         model := None;
         classifier := None;
         _load_time := None;
         _model_loaded := false;
         _labels := [] |}
  end.

Definition load_model (env : Env) (force_reload : bool) : Eff.M t unit :=
  do self <- Eff.get;
  if _model_loaded self && negb force_reload then Eff.ret tt
  else
    Eff.try_except_Exception
      (exec
         (if String.eqb (device self) "auto"
          then Eff.modify
                 (set_device (if cuda_is_available env then "cuda" else "cpu"))
          else Eff.ret tt);
       do self <- Eff.get;
       do tok <- Eff.call (tokenizer_from_pretrained env (model_name self));
       exec Eff.modify (set_tokenizer (Some tok));
       do m <- Eff.call (model_from_pretrained env (model_name self));
       exec Eff.modify (set_model (Some m));
       exec Eff.call (model_to env m (device self));
       exec Eff.modify (set_labels (id2label_values m));
       do c <-
         Eff.call
           (pipeline env m tok
              (if negb (String.eqb (device self) "cpu")
               then device_name (device self)
               else device_index (-1)));
       exec Eff.modify (set_classifier (Some c));
       exec Eff.modify (set_load_time (Some (elapsed env)));
       Eff.modify (set_model_loaded true))
      (fun e =>
         Eff.raise (Py.Exn Py.RuntimeError
                      ("Sentiment model loading failed: " +:+ Py.str_of e))).

(** [self.classifier(text)]; calling [None] raises. *)
Definition call_classifier (text : string) : Eff.M t output :=
  do self <- Eff.get;
  match classifier self with
  | Some c => Eff.call (c text)
  | None =>
      Eff.raise (Py.Exn Py.TypeError "'NoneType' object is not callable")
  end.

(** [not text or not text.strip()]. *)
Definition is_blank (text : string) : bool :=
  Str.not_ text || Str.not_ (Str.strip text).

(** A dictionary with string keys in insertion order. *)
Definition dict := list (string * Q).

Fixpoint dict_set (d : dict) (k : string) (v : Q) : dict :=
  match d with
  | [] => [(k, v)]
  | (k', v') :: d' =>
      if String.eqb k' k then (k', v) :: d' else (k', v') :: dict_set d' k v
  end.

(** [r["score"]] and [r["label"]]. *)
Definition item_score (r : raw) : Py.result Q :=
  match raw_score r with
  | Some x => Py.Ok x
  | None => Py.Raise (Py.Exn Py.KeyError "'score'")
  end.

Definition item_label (r : raw) : Py.result string :=
  match raw_label r with
  | Some x => Py.Ok x
  | None => Py.Raise (Py.Exn Py.KeyError "'label'")
  end.

(** The keys of every element, in order; the first failure raises. *)
Fixpoint keys_of (l : list raw) : Py.result (list (Q * raw)) :=
  match l with
  | [] => Py.Ok []
  | r :: l' =>
      Py.bind (item_score r) (fun k =>
      Py.bind (keys_of l') (fun ks => Py.Ok ((k, r) :: ks)))
  end.

(** Stable insertion for a descending order of the keys. *)
Fixpoint insert_desc (x : Q * raw) (l : list (Q * raw)) : list (Q * raw) :=
  match l with
  | [] => [x]
  | y :: l' =>
      if Qlt_le_dec (fst x) (fst y) then y :: insert_desc x l' else x :: l
  end.

(** [sorted(results, key=lambda x: x["score"], reverse=True)]. *)
Definition sorted_by_score (l : list raw) : Py.result (list raw) :=
  Py.bind (keys_of l) (fun ks =>
  Py.Ok (List.map snd (List.fold_right insert_desc [] ks))).

(** [{r["label"]: r["score"] for r in rs}]. *)
Fixpoint scores_of (rs : list raw) (d : dict) : Py.result dict :=
  match rs with
  | [] => Py.Ok d
  | r :: rs' =>
      Py.bind (item_label r) (fun k =>
      Py.bind (item_score r) (fun v => scores_of rs' (dict_set d k v)))
  end.

(** [max(scores, key=scores.get)] with its value: the first key, in
    insertion order, whose value is maximal. *)
Fixpoint dict_max (d : dict) (best : string * Q) : string * Q :=
  match d with
  | [] => best
  | (k, v) :: d' =>
      if Qlt_le_dec (snd best) v then dict_max d' (k, v) else dict_max d' best
  end.

(** [EMOTION_MAPPING.get(label, SentimentLabel.NEUTRAL)]. *)
Definition map_label (raw_label : string) : SentimentLabel :=
  default NEUTRAL (EMOTION_MAPPING !! raw_label).

(** The scores that [analyze] extracts from the classifier's answer. *)
Definition extract_scores (results : output) : Py.result dict :=
  let with_first (results : list raw) : Py.result dict :=
    match results with
    | [] => Py.Raise (Py.Exn Py.IndexError "list index out of range")
    | first :: _ =>
        match raw_score first with
        | Some _ =>
            Py.bind (sorted_by_score results) (fun rs => scores_of rs [])
        | None => Py.Ok []
        end
    end in
  match results with
  | Flat [] | Nested [] => Py.Ok []
  | Nested (results :: _) => with_first results
  | Flat results => with_first results
  end.

Definition analyze (env : Env) (text : string) (return_all_scores : bool)
    : Eff.M t SentimentResult :=
  do self <- Eff.get;
  exec (if negb (_model_loaded self) then load_model env false
        else Eff.ret tt);
  if is_blank text then
    Eff.raise (Py.Exn Py.ValueError "Input text cannot be empty")
  else
    Eff.try_except_Exception
      (do results <- call_classifier text;
       do scores <- Eff.call (extract_scores results);
       let '(dominant_label, dominant_score) :=
         match scores with
         | [] => ("neutral", 1%Q)
         | first :: rest => dict_max rest first
         end in
       let mapped_label := map_label dominant_label in
       Eff.ret {| label := mapped_label; score := dominant_score |})
      (fun e =>
         Eff.raise (Py.Exn Py.RuntimeError
                      ("Sentiment analysis error: " +:+ Py.str_of e))).

(** The loop over the dictionaries that fills [all_scores]. *)
Definition add_score (all_scores : gmap SentimentLabel Q) (result : raw)
    : gmap SentimentLabel Q :=
  let label := default "unknown" (raw_label result) in
  let score := default 0%Q (raw_score result) in
  let mapped := map_label label in
  <[mapped := score]> all_scores.

(** [for label in SentimentLabel: if label not in d: d[label] = 0.0]. *)
Definition ensure_all_labels (all_scores : gmap SentimentLabel Q)
    : gmap SentimentLabel Q :=
  foldl (fun d label =>
           match d !! label with
           | None => <[label := 0%Q]> d
           | Some _ => d
           end)
    all_scores all_labels.

(** [{label: 0.0 for label in SentimentLabel}]. *)
Definition all_zero : gmap SentimentLabel Q :=
  list_to_map (List.map (fun label => (label, 0%Q)) all_labels).

(** What the loop [for result in results] receives after
    [results = results[0]]: the inner list of dictionaries; for a flat
    answer, the keys of its first dictionary, which are strings, and a
    string has no [get]. *)
Definition first_of (results : output) : Py.result (list raw) :=
  match results with
  | Flat [] | Nested [] =>
      Py.Raise (Py.Exn Py.IndexError "list index out of range")
  | Nested (results :: _) => Py.Ok results
  | Flat (first :: _) =>
      match raw_label first, raw_score first with
      | None, None => Py.Ok []
      | _, _ =>
          Py.Raise (Py.Exn Py.OtherException
                      "'str' object has no attribute 'get'")
      end
  end.

Definition analyze_with_all_scores (env : Env) (text : string)
    : Eff.M t (gmap SentimentLabel Q) :=
  do self <- Eff.get;
  exec (if negb (_model_loaded self) then load_model env false
        else Eff.ret tt);
  if is_blank text then Eff.ret all_zero
  else
    Eff.try_except_Exception
      (do results <- call_classifier text;
       do results <- Eff.call (first_of results);
       let all_scores := foldl add_score ∅ results in
       Eff.ret (ensure_all_labels all_scores))
      (fun e =>
         Eff.raise (Py.Exn Py.RuntimeError
                      ("Full sentiment analysis error: " +:+ Py.str_of e))).

Definition analyze_complete (env : Env) (text : string)
    : Eff.M t (SentimentResult * gmap SentimentLabel Q) :=
  do dominant <- analyze env text true;
  do all_scores <- analyze_with_all_scores env text;
  Eff.ret (dominant, all_scores).

(** The dictionary returned by [get_model_info]. *)
Inductive model_info :=
| status_not_loaded
| info (model_name device : string) (is_loaded : bool)
    (load_time_seconds : option Q) (labels : list string)
    (gpu_memory_mb : option Q).

Definition get_model_info (env : Env) (self : t) : model_info :=
  if negb (_model_loaded self) then status_not_loaded
  else
    info (model_name self) (device self) (_model_loaded self)
      (_load_time self) (_labels self)
      (if cuda_is_available env
       then Some (cuda_total_memory env / Py.float (1024 ^ 2))%Q
       else None).

Definition unload_model : Eff.M t unit :=
  do self <- Eff.get;
  match model self with
  | Some _ =>
      exec Eff.modify (set_model None);
      exec Eff.modify (set_tokenizer None);
      exec Eff.modify (set_classifier None);
      Eff.modify (set_model_loaded false)
  | None => Eff.ret tt
  end.

End SentimentService.

(** ** Two threads on one service

    Both services take the singleton object from [__new__] and load the
    model in [load_model] with the same statements.  Two threads run the
    same method; a schedule says which thread executes its next statement.
    A thread that waits for the lock, or has returned, does nothing when
    it is scheduled. *)

Module Threads.

Inductive tid := T1 | T2.

#[global] Instance tid_eq_dec : EqDecision tid.
Proof. solve_decision. Defined.

(** *** [__new__]: creation of the singleton *)

Module New.

(** The statement a thread executes next. *)
Inductive pc :=
| check          (* if cls._instance is None: *)
| acquire        (*   with cls._lock: *)
| recheck        (*     if cls._instance is None: *)
| create         (*       cls._instance = super().__new__(cls) ... *)
| release        (*   leaving the with block *)
| return_        (* return cls._instance *)
| returned (obj : option nat).

(** The class attributes, and the number of objects created so far;
    an object is named by its number. *)
Record state := mk {
  pc1 : pc;
  pc2 : pc;
  _instance : option nat;
  _lock : option tid;
  created : nat
}.

Definition pc_of (t : tid) (s : state) : pc :=
  match t with T1 => pc1 s | T2 => pc2 s end.

Definition goto (t : tid) (p : pc) (s : state) : state :=
  match t with
  | T1 => mk p (pc2 s) (_instance s) (_lock s) (created s)
  | T2 => mk (pc1 s) p (_instance s) (_lock s) (created s)
  end.

Definition set_lock (l : option tid) (s : state) : state :=
  mk (pc1 s) (pc2 s) (_instance s) l (created s).

Definition new_object (s : state) : state :=
  mk (pc1 s) (pc2 s) (Some (created s)) (_lock s) (S (created s)).

Definition step (t : tid) (s : state) : state :=
  match pc_of t s with
  | check =>
      match _instance s with
      | None => goto t acquire s
      | Some _ => goto t return_ s
      end
  | acquire =>
      match _lock s with
      | None => goto t recheck (set_lock (Some t) s)
      | Some _ => s
      end
  | recheck =>
      match _instance s with
      | None => goto t create s
      | Some _ => goto t release s
      end
  | create => goto t release (new_object s)
  | release => goto t return_ (set_lock None s)
  | return_ => goto t (returned (_instance s)) s
  | returned _ => s
  end.

Definition initial : state :=
  {| pc1 := check; pc2 := check; _instance := None; _lock := None;
     created := 0 |}.

Definition run (schedule : list tid) (s : state) : state :=
  foldl (fun s t => step t s) s schedule.


End New.

(** *** [load_model], entered from an inference method *)

Module LoadModel.

Inductive pc :=
| call_check     (* if not self._model_loaded: self.load_model() *)
| load_check     (* if self._model_loaded and not force_reload: return *)
| select_device  (* if self.device == "auto": ...; logger.info("Loading ...") *)
| instantiate    (* self.model = whisper.load_model(...) *)
| record_time    (* self._load_time = ...; self._model_loaded = True *)
| done.

(** The attributes of the service, and how often each part of the load
    sequence has run. *)
Record state := mk {
  pc1 : pc;
  pc2 : pc;
  device : string;
  _model_loaded : bool;
  loading_logs : nat;
  instantiations : nat;
  load_times_recorded : nat
}.

Definition pc_of (t : tid) (s : state) : pc :=
  match t with T1 => pc1 s | T2 => pc2 s end.

Definition goto (t : tid) (p : pc) (s : state) : state :=
  match t with
  | T1 => mk p (pc2 s) (device s) (_model_loaded s) (loading_logs s)
            (instantiations s) (load_times_recorded s)
  | T2 => mk (pc1 s) p (device s) (_model_loaded s) (loading_logs s)
            (instantiations s) (load_times_recorded s)
  end.

Definition step (cuda_is_available force_reload : bool) (t : tid)
    (s : state) : state :=
  match pc_of t s with
  | call_check =>
      if negb (_model_loaded s) then goto t load_check s else goto t done s
  | load_check =>
      if _model_loaded s && negb force_reload then goto t done s
      else goto t select_device s
  | select_device =>
      goto t instantiate
        (mk (pc1 s) (pc2 s)
           (if String.eqb (device s) "auto"
            then (if cuda_is_available then "cuda" else "cpu")
            else device s)
           (_model_loaded s) (S (loading_logs s)) (instantiations s)
           (load_times_recorded s))
  | instantiate =>
      goto t record_time
        (mk (pc1 s) (pc2 s) (device s) (_model_loaded s) (loading_logs s)
           (S (instantiations s)) (load_times_recorded s))
  | record_time =>
      goto t done
        (mk (pc1 s) (pc2 s) (device s) true (loading_logs s)
           (instantiations s) (S (load_times_recorded s)))
  | done => s
  end.

(** An unloaded service on which both threads make their first call. *)
Definition initial (device : string) : state :=
  {| pc1 := call_check; pc2 := call_check; device := device;
     _model_loaded := false; loading_logs := 0; instantiations := 0;
     load_times_recorded := 0 |}.

Definition run (cuda_is_available : bool) (schedule : list tid) (s : state)
    : state :=
  foldl (fun s t => step cuda_is_available false t s) s schedule.

End LoadModel.

End Threads.

(** ** [audio_utils.py], continued: normalisation, preprocessing, chunks *)

Module Preprocessing.

(** [np.max(a)] of a one-dimensional array; it raises on an empty one. *)
Definition np_max (a : list Q) : Py.result Q :=
  AudioUtils.ndarray_max (AudioUtils.Array1 a).

Definition normalize_audio (audio_data : list sample)
    : Py.result (list sample) :=
  Py.bind (np_max (List.map Qabs audio_data)) (fun max_val =>
  if Qlt_le_dec 0 max_val
  then Py.Ok (List.map (fun x => (x / max_val)%Q) audio_data)
  else Py.Ok audio_data).

(** The libraries that [preprocess_audio] calls; [librosa.resample] is
    applied to one channel and returns one channel. *)
Record Env := {
  soundfile_importable : bool;
  librosa_importable : bool;
  sf_read : string -> Py.result (AudioUtils.ndarray * Z);
  wav_read : string -> Py.result (Z * AudioUtils.ndarray);
  librosa_resample : list Q -> Z -> Z -> Py.result (list Q)
}.

(** The numerical routines of [remove_silence]. *)
Record Signal := {
  complex : Type;
  medfilt : list Q -> Z -> list Q;
  hilbert : list Q -> list complex;
  abs_complex : complex -> Q;
  pow : Q -> Q -> Q
}.

(** The one channel that [np.mean(audio_data, axis=1)] leaves, or the
    array itself when it has one dimension. *)
Definition to_mono (audio_data : AudioUtils.ndarray) : list sample :=
  AudioUtils.flat
    (if AudioUtils.ndim audio_data >? 1
     then AudioUtils.mean_axis1 audio_data
     else audio_data).

Definition preprocess_audio (env : Env) (sig : Signal) (file_path : string)
    (target_sample_rate : Z) (normalize remove_silence_flag : bool)
    : Eff.M AudioUtils.trace (list sample * Z) :=
  Eff.try_except_Exception
    (do (audio_data, sample_rate) <-
       Eff.try_except
         (exec AudioUtils.import (soundfile_importable env) "soundfile";
          exec AudioUtils.emit (AudioUtils.SfRead file_path);
          Eff.call (sf_read env file_path))
         Py.ImportError
         (fun _ =>
            exec AudioUtils.emit (AudioUtils.WavRead file_path);
            do (sample_rate, audio_data) <- Eff.call (wav_read env file_path);
            Eff.ret (audio_data, sample_rate));
     let audio_data := to_mono audio_data in
     do (audio_data, sample_rate) <-
       (if negb (sample_rate =? target_sample_rate)
        then
          exec AudioUtils.import (librosa_importable env) "librosa";
          do audio_data <-
            Eff.call (librosa_resample env audio_data sample_rate
                        target_sample_rate);
          Eff.ret (audio_data, target_sample_rate)
        else Eff.ret (audio_data, sample_rate));
     do audio_data <-
       (if normalize then Eff.call (normalize_audio audio_data)
        else Eff.ret audio_data);
     let audio_data :=
       if remove_silence_flag
       then AudioUtils.remove_silence (complex sig) (medfilt sig)
              (hilbert sig) (abs_complex sig) (pow sig) audio_data
              sample_rate (-40) 2048 512
       else audio_data in
     Eff.ret (audio_data, sample_rate))
    (fun e =>
       exec AudioUtils.emit
              (AudioUtils.Logged AudioUtils.ERROR
                 ("Audio preprocessing failed: " +:+ Py.str_of e));
       Eff.raise (Py.Exn Py.AudioProcessingError
                    ("Failed to preprocess audio: " +:+ Py.str_of e))).

(** [range(0, stop, step)]. *)
Definition range0 (stop step : Z) : Py.result (list Z) :=
  if step =? 0 then
    Py.Raise (Py.Exn Py.ValueError "range() arg 3 must not be zero")
  else
    let count :=
      if 0 <? step then (stop + step - 1) / step
      else (stop + step + 1) / step in
    Py.Ok (List.map (fun k => Z.of_nat k * step)
             (List.seq 0 (Z.to_nat count))).

(** [np.pad(chunk, (0, k))]. *)
Definition np_pad_end (chunk : list sample) (k : Z) : list sample :=
  chunk ++ replicate (Z.to_nat k) 0%Q.

Definition chunk_samples_of (sample_rate chunk_duration_ms : Z) : Z :=
  Py.int (Py.float (sample_rate * chunk_duration_ms) / 1000).

Definition chunk_audio (audio_data : list sample)
    (sample_rate chunk_duration_ms : Z) : Py.result (list (list sample)) :=
  let chunk_samples := chunk_samples_of sample_rate chunk_duration_ms in
  Py.bind (range0 (Py.len audio_data) chunk_samples) (fun indices =>
  Py.Ok
    (foldl
       (fun chunks i =>
          let chunk := Py.slice audio_data i (i + chunk_samples) in
          if Py.len chunk >? 0 then
            let chunk :=
              if Py.len chunk <? chunk_samples
              then np_pad_end chunk (chunk_samples - Py.len chunk)
              else chunk in
            chunks ++ [chunk]
          else chunks)
       [] indices)).

End Preprocessing.

(** ** [whisper_service.py]: transcription

    [transcribe] and [transcribe_numpy] work on the service and on the
    file system, which is the set of the paths that exist; a path is a
    string in the form in which [Path] prints it.  The model's own
    [transcribe], the staging of a temporary file and the writing of a
    WAV file belong to the environment. *)

Module Transcription.

(** Modelled from the spec: [TranscriptionResult] of
    [models/schemas.py], which is not among the sources: the text, the
    language, and the optional confidence and duration that the service
    passes to its constructor. *)
Record TranscriptionResult := {
  text : string;
  language : string;
  confidence : option Q;
  duration : option Q
}.

(** The dictionary that the model returns; a key can be missing, and
    [log_probs] can be [None], which the service treats alike. *)
Record raw := {
  raw_text : option string;
  raw_language : option string;
  raw_log_probs : option (list Q);
  raw_duration : option Q
}.

Record Env := {
  whisper : WhisperService.Env;
  (** [model.transcribe(path, verbose=verbose, **options)], with the
      [language] option when it is given. *)
  model_transcribe :
    WhisperService.Whisper -> string -> bool -> option string
    -> Py.result raw;
  (** [float(np.exp(np.mean(log_probs)))]. *)
  exp_mean : list Q -> Q;
  (** The name of the file that [NamedTemporaryFile(suffix=".wav",
      delete=False)] creates beside the existing ones. *)
  temporary_name : gset string -> Py.result string;
  (** [wavfile.write(path, rate, data)] on an existing file. *)
  wavfile_write : string -> Z -> AudioUtils.ndarray -> Py.result unit
}.

Record state := mk {
  service : WhisperService.t;
  files : gset string
}.

(** A method of the service, run on the service of the state. *)
Definition on_service {A} (m : Eff.M WhisperService.t A) : Eff.M state A :=
  fun s =>
    let '(r, self') := m (service s) in
    (r, {| service := self'; files := files s |}).

(** [try: body  finally: final]. *)
Definition try_finally {S A} (body : Eff.M S A) (final : Eff.M S unit)
    : Eff.M S A :=
  fun s =>
    let '(r, s') := body s in
    match final s' with
    | (Py.Ok _, s'') => (r, s'')
    | (Py.Raise e, s'') => (Py.Raise e, s'')
    end.

(** The truth value of an optional string: [None] and the empty string
    are false. *)
Definition given (language : option string) : option string :=
  match language with
  | Some l => if Str.not_ l then None else Some l
  | None => None
  end.

Definition transcribe (env : Env) (audio_path : string)
    (language : option string) (verbose : bool)
    : Eff.M state TranscriptionResult :=
  do s <- Eff.get;
  exec (if negb (WhisperService._model_loaded (service s))
        then on_service (WhisperService.load_model (whisper env) false)
        else Eff.ret tt);
  do s <- Eff.get;
  if negb (bool_decide (audio_path ∈ files s)) then
    Eff.raise (Py.Exn Py.FileNotFoundError
                 ("Audio file not found: " +:+ audio_path))
  else
    Eff.try_except_Exception
      (let options := given language in
       do model <-
         match WhisperService.model (service s) with
         | Some m => Eff.ret m
         | None =>
             Eff.raise
               (Py.Exn Py.OtherException
                  "'NoneType' object has no attribute 'transcribe'")
         end;
       do result <-
         Eff.call (model_transcribe env model audio_path verbose options);
       let text := Str.strip (default EmptyString (raw_text result)) in
       let language_detected :=
         default (default "unknown" (given language))
           (raw_language result) in
       let confidence :=
         match raw_log_probs result with
         | Some log_probs => Some (exp_mean env log_probs)
         | None => None
         end in
       Eff.ret {| text := text;
                  language := language_detected;
                  confidence := confidence;
                  duration := raw_duration result |})
      (fun e =>
         Eff.raise (Py.Exn Py.RuntimeError
                      ("Transcription error: " +:+ Py.str_of e))).

(** [with tempfile.NamedTemporaryFile(...) as tmp_file:
       temp_path = tmp_file.name]. *)
Definition NamedTemporaryFile (env : Env) : Eff.M state string :=
  do s <- Eff.get;
  do name <- Eff.call (temporary_name env (files s));
  exec Eff.modify (fun s => {| service := service s;
                               files := {[name]} ∪ files s |});
  Eff.ret name.

(** [os.remove(path)] of a file that exists. *)
Definition os_remove (path : string) : Eff.M state unit :=
  Eff.modify (fun s => {| service := service s;
                          files := files s ∖ {[path]} |}).

Definition transcribe_numpy (env : Env) (audio_data : AudioUtils.ndarray)
    (sample_rate : Z) (language : option string)
    : Eff.M state TranscriptionResult :=
  do s <- Eff.get;
  exec (if negb (WhisperService._model_loaded (service s))
        then on_service (WhisperService.load_model (whisper env) false)
        else Eff.ret tt);
  Eff.try_except_Exception
    (do temp_path <- NamedTemporaryFile env;
     try_finally
       (exec Eff.call (wavfile_write env temp_path sample_rate audio_data);
        do result <- transcribe env temp_path language false;
        Eff.ret result)
       (do s <- Eff.get;
        if bool_decide (temp_path ∈ files s) then os_remove temp_path
        else Eff.ret tt))
    (fun e =>
       Eff.raise (Py.Exn Py.RuntimeError
                    ("NumPy transcription error: " +:+ Py.str_of e))).

End Transcription.

(** * Vocabulary of the properties *)

(** ** The ring buffer *)


(** The last [n] elements of a list, or all of it. *)
Definition last_n {A} (n : nat) (l : list A) : list A :=
  drop (length l - n) l.

(** Four samples at two samples per second. *)
Definition two_seconds : AudioBuffer.t :=
  {| AudioBuffer.sample_rate := 2;
     AudioBuffer.max_samples := 20;
     AudioBuffer.buffer := [1 # 2; 1 # 4; -1 # 4; 1 # 8];
     AudioBuffer._lock := false |}.

(** ** Validation *)

Definition MB : Z := 1024 * 1024.




Definition disk : gmap string Z :=
  {[ "big.txt" := 100 * MB; "big.wav" := 100 * MB; "ok.WAV" := 3 * MB ]}.

(** ** Conversion and duration *)

Definition output_path_of (env : AudioUtils.Env) (input_path : string)
    (output_path : option string) : string :=
  match output_path with
  | None =>
      AudioUtils.gettempdir env +:+ "/" +:+ Str.stem input_path
      +:+ "_converted.wav"
  | Some p => p
  end.

(** The audio at a path cannot be measured: [soundfile] fails on it, or
    [soundfile] is missing and [scipy] fails on it or reports a sample
    rate of zero. *)
Definition unreadable (env : AudioUtils.Env) (file_path : string) : Prop :=
  (AudioUtils.soundfile_importable env = true
   /\ exists e, AudioUtils.sf_info_duration env file_path = Py.Raise e
                /\ Py.is_class Py.ImportError e = false)
  \/ ((AudioUtils.soundfile_importable env = false
       \/ exists e, AudioUtils.sf_info_duration env file_path = Py.Raise e
                    /\ Py.is_class Py.ImportError e = true)
      /\ ((exists e, AudioUtils.wav_read env file_path = Py.Raise e)
          \/ exists n, AudioUtils.wav_read env file_path = Py.Ok (0, n))).

Definition broken_file : Py.exn :=
  Py.Exn Py.OtherException "Error opening file".

(** A machine on which every command behaves as [p], [soundfile] reads
    and writes, and no written file can be measured. *)
Definition env_of (p : AudioUtils.process_behaviour) : AudioUtils.Env :=
  {| AudioUtils.gettempdir := "/tmp";
     AudioUtils.process := fun _ => p;
     AudioUtils.soundfile_importable := true;
     AudioUtils.librosa_importable := true;
     AudioUtils.sf_read := fun _ =>
       Py.Ok (AudioUtils.Array2 [[1 # 2; 1 # 4]; [-1 # 2; 0 # 1]], 16000);
     AudioUtils.sf_info_duration := fun _ => Py.Raise broken_file;
     AudioUtils.sf_write := fun _ _ _ => Py.Ok tt;
     AudioUtils.librosa_resample := fun a _ _ => Py.Ok a;
     AudioUtils.wav_read := fun _ => Py.Raise broken_file |}.

(** ** Silence trimming *)

(** Sample [i] of the envelope exceeds the threshold. *)
Definition above {complex : Type} (medfilt : list Q -> Z -> list Q)
    (hilbert : list Q -> list complex) (abs_complex : complex -> Q)
    (pow : Q -> Q -> Q) (audio_data : list sample) (threshold_db : Q)
    (i : nat) : Prop :=
  exists x,
    AudioUtils.envelope_of complex medfilt hilbert abs_complex audio_data !! i
    = Some x
    /\ (pow 10 (threshold_db / 20) < x)%Q.

(** Stand-ins for the numerical routines in the examples: no filtering,
    a real envelope, and a threshold of one hundredth. *)
Definition medfilt0 (x : list Q) (kernel : Z) : list Q := x.
Definition hilbert0 (x : list Q) : list Q := x.
Definition pow0 (base exponent : Q) : Q := 1 # 100.

Definition speech : list sample :=
  [0 # 1; 0 # 1; 1 # 2; 1 # 4; 0 # 1; 0 # 1; 0 # 1].

(** ** The services *)

(** Environments in which every step of a load succeeds. *)
Definition whisper_loadable (env : WhisperService.Env) : Prop :=
  forall k, exists m, WhisperService.whisper_load_model env k = Py.Ok m.

Definition sentiment_loadable (env : SentimentService.Env) : Prop :=
  (forall n, exists tok,
     SentimentService.tokenizer_from_pretrained env n = Py.Ok tok)
  /\ (forall n, exists m,
        SentimentService.model_from_pretrained env n = Py.Ok m)
  /\ (forall m d, SentimentService.model_to env m d = Py.Ok tt)
  /\ (forall m tok d, exists c,
        SentimentService.pipeline env m tok d = Py.Ok c).

(** A text without a character that is not white space. *)
Fixpoint whitespace_only (s : string) : bool :=
  match s with
  | EmptyString => true
  | String c s' => Str.isspace c && whitespace_only s'
  end.

(** The load that both entry points of the classification service make
    first when the model is not loaded. *)
Definition ensure_loaded (env : SentimentService.Env)
    (self : SentimentService.t) : Py.result unit * SentimentService.t :=
  if negb (SentimentService._model_loaded self)
  then SentimentService.load_model env false self
  else (Py.Ok tt, self).

(** The label and the score that the loop of [analyze_with_all_scores]
    stores for one dictionary. *)
Definition mapped (r : SentimentService.raw)
    : SentimentService.SentimentLabel :=
  SentimentService.map_label
    (default "unknown" (SentimentService.raw_label r)).

Definition score_of (r : SentimentService.raw) : Q :=
  default 0%Q (SentimentService.raw_score r).

(** The score of the last dictionary mapped to a label, or zero. *)
Definition last_score (l : SentimentService.SentimentLabel)
    (results : list SentimentService.raw) : Q :=
  foldl (fun acc r => if decide (mapped r = l) then score_of r else acc)
    0%Q results.

(** Example environments: the model can be fetched, or it cannot. *)
Definition whisper_env (available : bool) : WhisperService.Env :=
  {| WhisperService.WHISPER_MODEL_SIZE := "base";
     WhisperService.WHISPER_DEVICE := "auto";
     WhisperService.WHISPER_COMPUTE_TYPE := "default";
     WhisperService.MODEL_CACHE_DIR_ABSOLUTE := "/models";
     WhisperService.cuda_is_available := false;
     WhisperService.cuda_device := ("cpu", 0%Q);
     WhisperService.whisper_load_model := fun _ =>
       if available
       then Py.Ok {| WhisperService.num_parameters := 71825920 |}
       else Py.Raise (Py.Exn Py.OtherException "download failed");
     WhisperService.elapsed := 3 # 2 |}.

Definition joy_and_disgust : list SentimentService.raw :=
  [ {| SentimentService.raw_label := Some "joy";
       SentimentService.raw_score := Some (9 # 10) |};
    {| SentimentService.raw_label := Some "disgust";
       SentimentService.raw_score := Some (1 # 10) |} ].

Definition sentiment_env (available : bool) : SentimentService.Env :=
  {| SentimentService.SENTIMENT_MODEL_NAME :=
       "j-hartmann/emotion-english-distilroberta-base";
     SentimentService.SENTIMENT_DEVICE := "cpu";
     SentimentService.cuda_is_available := false;
     SentimentService.cuda_total_memory := 0%Q;
     SentimentService.tokenizer_from_pretrained := fun n =>
       if available then Py.Ok {| SentimentService.tokenizer_name := n |}
       else Py.Raise (Py.Exn Py.OtherException "download failed");
     SentimentService.model_from_pretrained := fun _ =>
       Py.Ok {| SentimentService.id2label_values := ["joy"; "disgust"] |};
     SentimentService.model_to := fun _ _ => Py.Ok tt;
     SentimentService.pipeline := fun _ _ _ =>
       Py.Ok (fun _ => Py.Ok (SentimentService.Nested [joy_and_disgust]));
     SentimentService.elapsed := 5 # 2 |}.

(** The services after a first successful load. *)
Definition whisper_loaded : WhisperService.t :=
  snd (WhisperService.load_model (whisper_env true) false
         (WhisperService.__init__ (whisper_env true) None)).

Definition sentiment_loaded : SentimentService.t :=
  snd (SentimentService.load_model (sentiment_env true) false
         (SentimentService.__init__ (sentiment_env true) None)).

(** ** Two threads *)








(** ** Preprocessing and chunks *)

(** Example routines and decoders for [preprocess_audio]: the filters
    leave the signal as it is, the threshold is 1/100, and every file
    holds the same audio at the same rate, or cannot be decoded. *)
Definition signal0 : Preprocessing.Signal :=
  {| Preprocessing.complex := Q;
     Preprocessing.medfilt := medfilt0;
     Preprocessing.hilbert := hilbert0;
     Preprocessing.abs_complex := Qabs;
     Preprocessing.pow := pow0 |}.

Definition stereo : AudioUtils.ndarray :=
  AudioUtils.Array2 [[1 # 2; 1 # 4]; [-1 # 2; 0 # 1]; [1 # 8; 1 # 8]].

Definition decoder (audio : AudioUtils.ndarray) (rate : Z) (readable : bool)
    : Preprocessing.Env :=
  {| Preprocessing.soundfile_importable := true;
     Preprocessing.librosa_importable := true;
     Preprocessing.sf_read := fun _ =>
       if readable then Py.Ok (audio, rate) else Py.Raise broken_file;
     Preprocessing.wav_read := fun _ => Py.Raise broken_file;
     Preprocessing.librosa_resample := fun a _ _ => Py.Ok a |}.

(** One round of the loop of [chunk_audio]. *)
Definition chunk_at (audio_data : list sample) (chunk_samples i : Z)
    : list (list sample) :=
  let chunk := Py.slice audio_data i (i + chunk_samples) in
  if Py.len chunk >? 0 then
    [if Py.len chunk <? chunk_samples
     then Preprocessing.np_pad_end chunk (chunk_samples - Py.len chunk)
     else chunk]
  else [].

(** A piece of [n] samples, filled with zeros when the array ends. *)
Definition piece (n : nat) (l : list sample) : list sample :=
  take n l ++ replicate (n - length (take n l)) 0%Q.

(** ** The life of a service *)

(** The calls that change a transcription service, and the services
    that a sequence of such calls makes of a new one. *)
Inductive whisper_call :=
| whisper_load (env : WhisperService.Env) (force_reload : bool)
| whisper_unload.

Definition whisper_after (self : WhisperService.t) (c : whisper_call)
    : WhisperService.t :=
  match c with
  | whisper_load env force_reload =>
      snd (WhisperService.load_model env force_reload self)
  | whisper_unload => snd (WhisperService.unload_model self)
  end.

Inductive whisper_reachable : WhisperService.t -> Prop :=
| whisper_new env : whisper_reachable (WhisperService.__init__ env None)
| whisper_next self c :
    whisper_reachable self -> whisper_reachable (whisper_after self c).

Inductive sentiment_call :=
| sentiment_load (env : SentimentService.Env) (force_reload : bool)
| sentiment_unload.

Definition sentiment_after (self : SentimentService.t) (c : sentiment_call)
    : SentimentService.t :=
  match c with
  | sentiment_load env force_reload =>
      snd (SentimentService.load_model env force_reload self)
  | sentiment_unload => snd (SentimentService.unload_model self)
  end.

Inductive sentiment_reachable : SentimentService.t -> Prop :=
| sentiment_new env : sentiment_reachable (SentimentService.__init__ env None)
| sentiment_next self c :
    sentiment_reachable self -> sentiment_reachable (sentiment_after self c).

(** The device that a load leaves in the service. *)
Definition resolved_device (cuda_is_available : bool) (device : string)
    : string :=
  if String.eqb device "auto"
  then (if cuda_is_available then "cuda" else "cpu")
  else device.

(** ** The answer of the classifier *)

(** The list of dictionaries that [analyze] works on: the flat answer,
    or the first element of a nested one. *)
Definition answer_of (out : SentimentService.output)
    : option (list SentimentService.raw) :=
  match out with
  | SentimentService.Flat rs => Some rs
  | SentimentService.Nested (rs :: _) => Some rs
  | SentimentService.Nested [] => None
  end.

(** The entry that the dictionary comprehension of [analyze] makes of
    one dictionary of the answer. *)
Definition entry_of (r : SentimentService.raw) : string * Q :=
  (default "unknown" (SentimentService.raw_label r), score_of r).

Definition complete (r : SentimentService.raw) : Prop :=
  is_Some (SentimentService.raw_label r)
  /\ is_Some (SentimentService.raw_score r).

(** A classifier that always answers with the same output. *)
Definition answering (out : SentimentService.output)
    : SentimentService.t :=
  SentimentService.set_classifier (Some (fun _ => Py.Ok out))
    sentiment_loaded.

(** ** Transcription *)

(** The load that both entry points of the transcription service make
    first when the model is not loaded. *)
Definition whisper_ensure_loaded (env : WhisperService.Env)
    (self : WhisperService.t) : Py.result unit * WhisperService.t :=
  if negb (WhisperService._model_loaded self)
  then WhisperService.load_model env false self
  else (Py.Ok tt, self).

(** An example: a model that hears one sentence in every file and
    reports no language, on a machine that stages into [/tmp]. *)
Definition heard : Transcription.raw :=
  {| Transcription.raw_text := Some " hello world ";
     Transcription.raw_language := None;
     Transcription.raw_log_probs := None;
     Transcription.raw_duration := Some (3 # 2) |}.

Definition transcription_env (works : bool) : Transcription.Env :=
  {| Transcription.whisper := whisper_env true;
     Transcription.model_transcribe := fun _ _ _ _ =>
       if works then Py.Ok heard
       else Py.Raise (Py.Exn Py.OtherException "cannot decode");
     Transcription.exp_mean := fun _ => 1%Q;
     Transcription.temporary_name := fun _ => Py.Ok "/tmp/tmp0.wav";
     Transcription.wavfile_write := fun _ _ _ => Py.Ok tt |}.

Definition studio : Transcription.state :=
  {| Transcription.service := whisper_loaded;
     Transcription.files := {[ "talk.wav" ]} |}.

(** * Properties *)

(** ** Strings and paths *)

Example suffix_last_dot : Str.suffix "dir/a.b/c.tar.GZ" = ".GZ".
Proof. reflexivity. Qed.

Example suffix_hidden_file : Str.suffix "dir/.bashrc" = EmptyString.
Proof. reflexivity. Qed.

Example suffix_trailing_dot : Str.suffix "dir/x." = EmptyString.
Proof. reflexivity. Qed.

Example stem_of_directory_path : Str.stem "dir/song.mp3/" = "song".
Proof. reflexivity. Qed.

Example lower_mixed_case : Str.lower "A.WaV" = "a.wav".
Proof. reflexivity. Qed.

Example strip_both_ends : Str.strip "  a b  " = "a b".
Proof. reflexivity. Qed.

Example format_1f_ties_to_even :
  Str.format_1f (5 # 100) = "0.0" /\ Str.format_1f (15 # 100) = "0.2"
  /\ Str.format_1f (52428801 # 1048576) = "50.0".
Proof. vm_compute. repeat split. Qed.

Example repr_list_of_extensions :
  Str.repr_list [".wav"; ".mp3"] = "['.wav', '.mp3']".
Proof. reflexivity. Qed.

(** ** The ring buffer *)

Section RingBuffer.

Import AudioBuffer.










Lemma last_n_length {A} (n : nat) (l : list A) :
  length (last_n n l) = Nat.min n (length l).
Proof. unfold last_n. rewrite length_drop. lia. Qed.

(** Keeping the last [n] of a buffer that already holds the last [n] of
    what came before loses nothing. *)
Lemma last_n_app {A} (n : nat) (pre d : list A) :
  last_n n (last_n n pre ++ d) = last_n n (pre ++ d).
Proof.
  unfold last_n. rewrite !length_app, length_drop.
  destruct (Nat.le_gt_cases (length pre) n) as [Hle|Hgt].
  - replace (length pre - n)%nat with 0%nat by lia.
    rewrite drop_0. f_equal. lia.
  - replace (length pre - (length pre - n) + length d - n)%nat
      with (length d) by lia.
    destruct (Nat.le_gt_cases (length d) n) as [Hd|Hd].
    + rewrite drop_app_le by (rewrite length_drop; lia).
      rewrite drop_app_le by lia.
      rewrite drop_drop. do 2 f_equal. lia.
    + rewrite drop_app_ge by (rewrite length_drop; lia).
      rewrite drop_app_ge by lia.
      rewrite length_drop. f_equal. lia.
Qed.

(** With a positive capacity, one [append] keeps the last [max_samples]
    of the old buffer followed by the new data. *)
Lemma append_last_n (self : t) (data : list sample) :
  _lock self = false -> 0 < max_samples self ->
  buffer (append self data)
  = last_n (Z.to_nat (max_samples self)) (buffer self ++ data).
Proof.
  intros Hl Hc. unfold append. rewrite Hl.
  destruct (Z.gtb_spec (Py.len (buffer self ++ data)) (max_samples self))
    as [H|H]; simpl; unfold last_n.
  - unfold Py.slice_from, Py.slice_index.
    destruct (Z.ltb_spec (- max_samples self) 0); [|lia].
    f_equal. unfold Py.len in *. lia.
  - replace (length (buffer self ++ data) - Z.to_nat (max_samples self))%nat
      with 0%nat by (unfold Py.len in H; lia).
    reflexivity.
Qed.

Lemma append_preserves (self : t) (data : list sample) :
  _lock (append self data) = _lock self
  /\ max_samples (append self data) = max_samples self.
Proof.
  unfold append. destruct (_lock self) eqn:E; [by rewrite E|].
  destruct (_ >? _); simpl; auto.
Qed.

Lemma appends_last_n (chunks : list (list sample)) (self : t)
    (pre : list sample) :
  _lock self = false -> 0 < max_samples self ->
  buffer self = last_n (Z.to_nat (max_samples self)) pre ->
  buffer (appends self chunks)
  = last_n (Z.to_nat (max_samples self)) (pre ++ concat chunks).
Proof.
  revert self pre.
  induction chunks as [|d chunks IH]; intros self pre Hl Hc Hb.
  - simpl. by rewrite app_nil_r.
  - destruct (append_preserves self d) as [Hl' Hc'].
    change (appends self (d :: chunks)) with (appends (append self d) chunks).
    simpl concat. rewrite (IH (append self d) (pre ++ d)).
    + rewrite Hc'. by rewrite <- app_assoc.
    + congruence.
    + lia.
    + rewrite Hc', append_last_n, Hb by done. apply last_n_app.
Qed.

(** With a positive capacity [C] the ring buffer is bounded: after any
    sequence of [append] calls on a new buffer its length is at most [C],
    and once more than [C] samples were appended it holds exactly the
    last [C] of them, in order. *)
Lemma append_positive_capacity (sample_rate : Z) (max_duration : Q)
    (chunks : list (list sample)) :
  let self := __init__ sample_rate max_duration in
  let C := max_samples self in
  let all := concat chunks in
  0 < C ->
  Py.len (buffer (appends self chunks)) <= C
  /\ (Py.len all > C ->
      Py.len (buffer (appends self chunks)) = C
      /\ buffer (appends self chunks) = Py.slice_from all (- C)).
Proof.
  intros self C all HC.
  assert (Hb : buffer (appends self chunks) = last_n (Z.to_nat C) all).
  { apply (appends_last_n chunks self []); done. }
  rewrite Hb. unfold Py.len. rewrite last_n_length. split; [lia|].
  intros Hall. split; [unfold Py.len in Hall; lia|].
  unfold Py.slice_from, Py.slice_index, last_n.
  destruct (Z.ltb_spec (- C) 0); [|lia].
  f_equal. unfold Py.len in *. lia.
Qed.

(** C4 fails on the code for a capacity of zero.
    [AudioBuffer(sample_rate=16000, max_duration=0.0)] has
    [max_samples = 0]; [append] of three samples finds the length above
    the capacity and keeps [buffer[-0:]], which is the whole buffer: all
    three samples stay and the length exceeds the capacity. *)
Theorem append_zero_capacity :
  let self := __init__ 16000 0 in
  let data := [1 # 2; 1 # 4; 1 # 8] in
  max_samples self = 0
  /\ buffer (append self data) = data
  /\ Py.len (buffer (append self data)) > max_samples self
  /\ Py.len (buffer (appends self [data; data])) = 6.
Proof. vm_compute. repeat split. Qed.

End RingBuffer.

(** ** Validation *)

Section Validation.

Import AudioUtils.



(** The allowed list is compared as it is given: an upper-case entry
    matches no file, since the extension of the file is lower-cased. *)
Lemma validate_upper_case_allowed :
  validate_audio_file disk "ok.WAV" 50 (Some [".WAV"])
  = (false, "Unsupported format: .wav. Allowed: ['.WAV']").
Proof. vm_compute. reflexivity. Qed.



End Validation.

(** ** Conversion and duration *)

Section Conversion.

Import AudioUtils.

Ltac run_eff :=
  unfold Eff.try_except_Exception, Eff.try_except, Eff.bind, emit,
    Eff.modify, Eff.call, Eff.ret, Eff.raise, Eff.get.

(** The handler of [get_audio_duration] turns every exception into a
    returned value. *)
Lemma get_audio_duration_total (env : Env) (file_path : string) (tr : trace) :
  exists d tr', get_audio_duration env file_path tr = (Py.Ok d, tr').
Proof.
  unfold get_audio_duration, Eff.try_except_Exception.
  destruct (Eff.bind _ _ tr) as [[d|e] tr'] eqn:E; eauto.
Qed.

Lemma get_audio_duration_unreadable (env : Env) (file_path : string)
    (tr : trace) :
  unreadable env file_path ->
  exists tr', get_audio_duration env file_path tr = (Py.Ok 0%Q, tr')
              /\ exists msg, last tr' = Some (Logged WARNING msg).
Proof.
  unfold get_audio_duration, import. run_eff.
  intros [(Hi & e & He & Hc) | (H1 & H2)].
  - rewrite Hi, He, Hc. eexists. split; [reflexivity|].
    eexists. by rewrite last_snoc.
  - destruct (soundfile_importable env) eqn:Hs.
    + destruct H1 as [? | (e & He & Hc)]; [discriminate|].
      rewrite He, Hc.
      destruct H2 as [(e' & ->) | (n & ->)]; simpl;
        (eexists; split; [reflexivity|]; eexists; by rewrite last_snoc).
    + destruct H2 as [(e' & ->) | (n & ->)]; simpl;
        (eexists; split; [reflexivity|]; eexists; by rewrite last_snoc).
Qed.

(** C9.  In [convert_to_wav], when the transcoder exits with a non-zero
    code or runs beyond the 60 seconds, the call raises a conversion
    error and leaves nothing behind but the start of the process and the
    error record: the fallback is not entered.  When the transcoder
    program is missing, the call logs the warning and continues with
    [_convert_with_scipy]: it returns the output path and the measured
    duration when the fallback succeeds, and raises a conversion error
    only when the fallback does. *)
Theorem convert_to_wav_transcoder (env : Env) (input_path : string)
    (output_path : option string) (sample_rate : Z) (mono : bool)
    (tr : trace) :
  let out := output_path_of env input_path output_path in
  let cmd := ffmpeg_cmd input_path out sample_rate mono in
  (forall seconds returncode stderr,
     process env cmd = Exits seconds returncode stderr ->
     returncode <> 0 \/ (60 < seconds)%Q ->
     exists msg,
       convert_to_wav env input_path output_path sample_rate mono tr
       = (Py.Raise (Py.Exn Py.AudioProcessingError
                      ("Failed to convert audio: " +:+ msg)),
          tr ++ [Spawned cmd 60;
                 Logged ERROR ("Audio conversion failed: " +:+ msg)]))
  /\ (process env cmd = NoSuchProgram ->
      let tr1 :=
        tr ++ [Spawned cmd 60;
               Logged WARNING "FFmpeg not found, using scipy for conversion"] in
      convert_to_wav env input_path output_path sample_rate mono tr
      = match _convert_with_scipy env input_path out sample_rate mono tr1 with
        | (Py.Ok _, tr2) =>
            let '(r, tr3) := get_audio_duration env out tr2 in
            (Py.bind r (fun d => Py.Ok (out, d)), tr3)
        | (Py.Raise e, tr2) =>
            (Py.Raise (Py.Exn Py.AudioProcessingError
                         ("Failed to convert audio: " +:+ Py.str_of e)),
             tr2 ++ [Logged ERROR
                       ("Audio conversion failed: " +:+ Py.str_of e)])
        end).
Proof.
  intros out cmd. split.
  - intros seconds returncode stderr Hp Hfail.
    unfold convert_to_wav. fold (output_path_of env input_path output_path).
    fold out. fold cmd. unfold subprocess_run. run_eff. rewrite Hp.
    destruct (Qlt_le_dec (Py.float 60) seconds) as [Hlate|Hin].
    + eexists. simpl. rewrite <- app_assoc. reflexivity.
    + destruct Hfail as [Hrc|Hlate].
      * apply Z.eqb_neq in Hrc. rewrite Hrc. simpl.
        eexists. rewrite <- app_assoc. reflexivity.
      * exfalso. apply (Qlt_not_le _ _ Hlate). exact Hin.
  - intros Hp tr1.
    unfold convert_to_wav. fold (output_path_of env input_path output_path).
    fold out. fold cmd. unfold subprocess_run. run_eff. rewrite Hp. simpl.
    rewrite <- app_assoc. simpl. fold tr1.
    destruct (_convert_with_scipy env input_path out sample_rate mono tr1)
      as [[[]|e] tr2]; [|reflexivity].
    destruct (get_audio_duration env out tr2) as [[d|e] tr3]; reflexivity.
Qed.

(** C9, on three machines: the transcoder exits with code 1, it runs for
    61 seconds, and it is missing while [soundfile] converts. *)
Lemma convert_to_wav_transcoder_witness :
  (exists msg,
     convert_to_wav (env_of (Exits 2 1 "Invalid data")) "a.mp3" None 16000
       true []
     = (Py.Raise (Py.Exn Py.AudioProcessingError
                    ("Failed to convert audio: " +:+ msg)),
        [Spawned (ffmpeg_cmd "a.mp3" "/tmp/a_converted.wav" 16000 true) 60;
         Logged ERROR ("Audio conversion failed: " +:+ msg)]))
  /\ (exists msg,
        convert_to_wav (env_of (Exits 61 0 "slow")) "a.mp3" None 16000 true []
        = (Py.Raise (Py.Exn Py.AudioProcessingError
                       ("Failed to convert audio: " +:+ msg)),
           [Spawned (ffmpeg_cmd "a.mp3" "/tmp/a_converted.wav" 16000 true) 60;
            Logged ERROR ("Audio conversion failed: " +:+ msg)]))
  /\ fst (convert_to_wav (env_of NoSuchProgram) "a.mp3" None 16000 true [])
     = Py.Ok ("/tmp/a_converted.wav", 0%Q).
Proof.
  split; [|split].
  - destruct (convert_to_wav_transcoder (env_of (Exits 2 1 "Invalid data"))
                "a.mp3" None 16000 true []) as [H _].
    apply (H 2%Q 1 "Invalid data"); [reflexivity | left; discriminate].
  - destruct (convert_to_wav_transcoder (env_of (Exits 61 0 "slow"))
                "a.mp3" None 16000 true []) as [H _].
    apply (H 61%Q 0 "slow"); [reflexivity | right; reflexivity].
  - destruct (convert_to_wav_transcoder (env_of NoSuchProgram)
                "a.mp3" None 16000 true []) as [_ H].
    rewrite H; reflexivity.
Defined.

(** C10.  [get_audio_duration] returns on every path and in every
    environment; when the audio cannot be measured it returns [0.0] and
    leaves only a warning in the log.  Hence [convert_to_wav], after a
    transcoder run that exits with code 0 in time, returns the output
    path with a duration of [0.0] when the produced file cannot be
    measured. *)
Theorem get_audio_duration_never_raises (env : Env) (file_path : string)
    (tr : trace) :
  (exists d tr', get_audio_duration env file_path tr = (Py.Ok d, tr'))
  /\ (unreadable env file_path ->
      exists tr', get_audio_duration env file_path tr = (Py.Ok 0%Q, tr')
                  /\ exists msg, last tr' = Some (Logged WARNING msg))
  /\ (forall input_path sample_rate mono seconds stderr,
        process env (ffmpeg_cmd input_path file_path sample_rate mono)
        = Exits seconds 0 stderr ->
        (seconds <= 60)%Q ->
        unreadable env file_path ->
        exists tr',
          convert_to_wav env input_path (Some file_path) sample_rate mono tr
          = (Py.Ok (file_path, 0%Q), tr')).
Proof.
  split; [apply get_audio_duration_total|].
  split; [apply get_audio_duration_unreadable|].
  intros input_path sample_rate mono seconds stderr Hp Hs Hu.
  unfold convert_to_wav, subprocess_run. run_eff. rewrite Hp.
  destruct (Qlt_le_dec (Py.float 60) seconds) as [Hlate|_].
  { exfalso. apply (Qlt_not_le _ _ Hlate). exact Hs. }
  simpl.
  destruct (get_audio_duration_unreadable env file_path
              (tr ++ [Spawned (ffmpeg_cmd input_path file_path sample_rate
                                 mono) 60]) Hu)
    as (tr' & -> & _).
  by exists tr'.
Qed.

(** C10, on a machine where the transcoder succeeds and the produced
    file cannot be opened. *)
Lemma get_audio_duration_never_raises_witness :
  (exists tr',
     get_audio_duration (env_of (Exits 2 0 "done")) "out.wav" []
     = (Py.Ok 0%Q, tr')
     /\ exists msg, last tr' = Some (Logged WARNING msg))
  /\ exists tr',
       convert_to_wav (env_of (Exits 2 0 "done")) "a.mp3" (Some "out.wav")
         16000 true []
       = (Py.Ok ("out.wav", 0%Q), tr').
Proof.
  destruct (get_audio_duration_never_raises (env_of (Exits 2 0 "done"))
              "out.wav" []) as (_ & H1 & H2).
  split.
  - apply H1. left. split; [reflexivity|].
    exists broken_file. split; reflexivity.
  - apply (H2 "a.mp3" 16000 true 2%Q "done"); [reflexivity | discriminate |].
    left. split; [reflexivity|].
    exists broken_file. split; reflexivity.
Defined.

End Conversion.

(** ** Silence trimming *)

Section Silence.

Import AudioUtils.

Lemma np_where_none (mask : list bool) (k : Z) :
  (forall j, mask !! j <> Some true) -> np_where_from mask k = [].
Proof.
  revert k. induction mask as [|b mask IH]; intros k H; [reflexivity|].
  simpl. destruct b.
  - exfalso. by apply (H 0%nat).
  - apply IH. intros j. apply (H (S j)).
Qed.

Lemma np_where_some (mask : list bool) (k : Z) (j : nat) :
  mask !! j = Some true -> np_where_from mask k <> [].
Proof.
  revert k j. induction mask as [|b mask IH]; intros k j H; [done|].
  simpl. destruct b; [done|].
  destruct j as [|j]; [done|]. by apply (IH _ j).
Qed.


Lemma last_cons_ne {A} (x d : A) (l : list A) :
  l <> [] -> List.last (x :: l) d = List.last l d.
Proof. by destruct l. Qed.

(** The last position found is the greatest one where the mask holds. *)
Lemma np_where_last (mask : list bool) (k : Z) (last : nat) :
  mask !! last = Some true ->
  (forall j, mask !! j = Some true -> (j <= last)%nat) ->
  List.last (np_where_from mask k) 0 = k + Z.of_nat last.
Proof.
  revert k last.
  induction mask as [|b mask IH]; intros k last H Hmax; [done|].
  simpl. destruct last as [|last].
  - simpl in H. injection H as ->.
    rewrite (np_where_none mask (k + 1)); [simpl; lia|].
    intros j Hj. specialize (Hmax (S j) Hj). lia.
  - assert (Hrest : List.last (np_where_from mask (k + 1)) 0
                    = k + Z.of_nat (S last)).
    { rewrite (IH (k + 1) last); [lia|done|].
      intros j Hj. specialize (Hmax (S j) Hj). lia. }
    destruct b; [|done].
    rewrite last_cons_ne; [done|]. by apply (np_where_some _ _ last).
Qed.

Variable complex : Type.
Variable medfilt : list Q -> Z -> list Q.
Variable hilbert : list Q -> list complex.
Variable abs_complex : complex -> Q.
Variable pow : Q -> Q -> Q.

Lemma above_mask (audio_data : list sample) (threshold_db : Q) (i : nat) :
  List.map (exceeds (pow 10 (threshold_db / 20)))
    (envelope_of complex medfilt hilbert abs_complex audio_data) !! i
  = Some true
  <-> above medfilt hilbert abs_complex pow audio_data threshold_db i.
Proof.
  unfold above. change (@List.map Q bool) with (@fmap list _ Q bool).
  rewrite list_lookup_fmap.
  destruct (envelope_of _ _ _ _ _ !! i) as [x|]; simpl.
  - unfold exceeds. destruct (Qlt_le_dec _ _) as [H|H]; split.
    + intros _. by exists x.
    + done.
    + done.
    + intros (y & [= <-] & Hy). exfalso. by apply (Qlt_not_le _ _ Hy).
  - split; [done|]. by intros (y & ? & _).
Qed.


End Silence.


(** ** Loading a model *)

Ltac run_service :=
  unfold Eff.try_except_Exception, Eff.try_except, Eff.bind,
    Eff.modify, Eff.call, Eff.ret, Eff.raise, Eff.get.

Lemma whisper_load_failure (env : WhisperService.Env) (force_reload : bool)
    (self self' : WhisperService.t) (e : Py.exn) :
  WhisperService.load_model env force_reload self = (Py.Raise e, self') ->
  Py.exn_class_of e = Py.RuntimeError
  /\ WhisperService._model_loaded self' = WhisperService._model_loaded self.
Proof.
  unfold WhisperService.load_model. run_service.
  destruct (WhisperService._model_loaded self && negb force_reload);
    [discriminate|].
  destruct (String.eqb (WhisperService.device self) "auto"); simpl;
    destruct (WhisperService.whisper_load_model env _); simpl;
    try discriminate; intros [= <- <-]; split; reflexivity.
Qed.

Lemma whisper_load_success (env : WhisperService.Env)
    (self : WhisperService.t) :
  whisper_loadable env -> WhisperService._model_loaded self = false ->
  exists self', WhisperService.load_model env false self = (Py.Ok tt, self')
                /\ WhisperService._model_loaded self' = true.
Proof.
  intros Hok Hun. unfold WhisperService.load_model. run_service.
  rewrite Hun. simpl.
  destruct (String.eqb (WhisperService.device self) "auto"); simpl;
    match goal with
    | |- context [WhisperService.whisper_load_model env ?k] =>
        destruct (Hok k) as [m ->]
    end; simpl; eexists; split; reflexivity.
Qed.

Lemma sentiment_load_failure (env : SentimentService.Env)
    (force_reload : bool) (self self' : SentimentService.t) (e : Py.exn) :
  SentimentService.load_model env force_reload self = (Py.Raise e, self') ->
  Py.exn_class_of e = Py.RuntimeError
  /\ SentimentService._model_loaded self'
     = SentimentService._model_loaded self.
Proof.
  unfold SentimentService.load_model. run_service.
  destruct (SentimentService._model_loaded self && negb force_reload);
    [discriminate|].
  destruct (String.eqb (SentimentService.device self) "auto"); simpl;
    (destruct (SentimentService.tokenizer_from_pretrained env _); simpl;
     [|intros [= <- <-]; split; reflexivity]);
    (destruct (SentimentService.model_from_pretrained env _) as [m|]; simpl;
     [|intros [= <- <-]; split; reflexivity]);
    (destruct (SentimentService.model_to env m _); simpl;
     [|intros [= <- <-]; split; reflexivity]);
    (destruct (SentimentService.pipeline env m _ _); simpl;
     [discriminate|intros [= <- <-]; split; reflexivity]).
Qed.

Lemma sentiment_load_success (env : SentimentService.Env)
    (self : SentimentService.t) :
  sentiment_loadable env -> SentimentService._model_loaded self = false ->
  exists self', SentimentService.load_model env false self = (Py.Ok tt, self')
                /\ SentimentService._model_loaded self' = true.
Proof.
  intros (Htok & Hm & Hto & Hp) Hun.
  unfold SentimentService.load_model. run_service.
  rewrite Hun. simpl.
  destruct (String.eqb (SentimentService.device self) "auto"); simpl;
    match goal with
    | |- context [SentimentService.tokenizer_from_pretrained env ?n] =>
        destruct (Htok n) as [tok ->]; destruct (Hm n) as [m ->]
    end; simpl; rewrite Hto; simpl;
    match goal with
    | |- context [SentimentService.pipeline env ?m' ?tok' ?d] =>
        destruct (Hp m' tok' d) as [c ->]
    end; simpl; eexists; split; reflexivity.
Qed.

(** C6, as stated, fails: a forced reload that fails on a loaded service
    leaves the loaded flag set, and [get_model_info] keeps reporting the
    model. *)
Lemma failed_reload_stays_loaded :
  ~ (forall (env : WhisperService.Env) force_reload self self' e,
       WhisperService.load_model env force_reload self = (Py.Raise e, self') ->
       WhisperService._model_loaded self' = false
       /\ WhisperService.get_model_info env self'
          = WhisperService.status_not_loaded).
Proof.
  intros H.
  destruct (H (whisper_env false) true whisper_loaded _ _ eq_refl) as [H1 _].
  discriminate H1.
Qed.

(** C6 (amended).  In both services, whenever [load_model] fails it
    raises a [RuntimeError] to the caller and leaves the loaded flag as
    it was.  On a service that was not loaded the flag therefore stays
    false, [get_model_info] reports [not_loaded], and a later
    [load_model] in an environment where the model can be instantiated
    succeeds and sets the flag. *)
Theorem load_model_failure :
  (forall (env : WhisperService.Env) force_reload self self' e,
     WhisperService.load_model env force_reload self = (Py.Raise e, self') ->
     Py.exn_class_of e = Py.RuntimeError
     /\ WhisperService._model_loaded self' = WhisperService._model_loaded self
     /\ (WhisperService._model_loaded self = false ->
         (forall env', WhisperService.get_model_info env' self'
                       = WhisperService.status_not_loaded)
         /\ forall env', whisper_loadable env' ->
              exists self'',
                WhisperService.load_model env' false self' = (Py.Ok tt, self'')
                /\ WhisperService._model_loaded self'' = true))
  /\ (forall (env : SentimentService.Env) force_reload self self' e,
        SentimentService.load_model env force_reload self
        = (Py.Raise e, self') ->
        Py.exn_class_of e = Py.RuntimeError
        /\ SentimentService._model_loaded self'
           = SentimentService._model_loaded self
        /\ (SentimentService._model_loaded self = false ->
            (forall env', SentimentService.get_model_info env' self'
                          = SentimentService.status_not_loaded)
            /\ forall env', sentiment_loadable env' ->
                 exists self'',
                   SentimentService.load_model env' false self'
                   = (Py.Ok tt, self'')
                   /\ SentimentService._model_loaded self'' = true)).
Proof.
  split.
  - intros env force_reload self self' e H.
    destruct (whisper_load_failure _ _ _ _ _ H) as [Hc Hl].
    split; [exact Hc|]. split; [exact Hl|]. intros Hun. split.
    + intros env'. unfold WhisperService.get_model_info. by rewrite Hl, Hun.
    + intros env' Hok. apply whisper_load_success; [done|congruence].
  - intros env force_reload self self' e H.
    destruct (sentiment_load_failure _ _ _ _ _ H) as [Hc Hl].
    split; [exact Hc|]. split; [exact Hl|]. intros Hun. split.
    + intros env'. unfold SentimentService.get_model_info.
      by rewrite Hl, Hun.
    + intros env' Hok. apply sentiment_load_success; [done|congruence].
Qed.

(** C6 (amended), on both services: the first load fails because the
    model cannot be fetched, the service reports [not_loaded], and the
    next load succeeds. *)
Lemma load_model_failure_witness :
  (let self' :=
     snd (WhisperService.load_model (whisper_env false) false
            (WhisperService.__init__ (whisper_env false) None)) in
   WhisperService._model_loaded self' = false
   /\ WhisperService.get_model_info (whisper_env true) self'
      = WhisperService.status_not_loaded
   /\ exists self'',
        WhisperService.load_model (whisper_env true) false self'
        = (Py.Ok tt, self'')
        /\ WhisperService._model_loaded self'' = true)
  /\ (let self' :=
        snd (SentimentService.load_model (sentiment_env false) false
               (SentimentService.__init__ (sentiment_env false) None)) in
      SentimentService._model_loaded self' = false
      /\ SentimentService.get_model_info (sentiment_env true) self'
         = SentimentService.status_not_loaded
      /\ exists self'',
           SentimentService.load_model (sentiment_env true) false self'
           = (Py.Ok tt, self'')
           /\ SentimentService._model_loaded self'' = true).
Proof.
  destruct load_model_failure as [HW HS]. split.
  - destruct (HW (whisper_env false) false
                (WhisperService.__init__ (whisper_env false) None) _ _ eq_refl)
      as (_ & Hl & Hu).
    destruct (Hu eq_refl) as [Hinfo Hretry].
    split; [exact Hl|]. split; [apply Hinfo|].
    apply Hretry. intros k. eexists. reflexivity.
  - destruct (HS (sentiment_env false) false
                (SentimentService.__init__ (sentiment_env false) None) _ _
                eq_refl)
      as (_ & Hl & Hu).
    destruct (Hu eq_refl) as [Hinfo Hretry].
    split; [exact Hl|]. split; [apply Hinfo|].
    apply Hretry. repeat split; intros; eexists; reflexivity.
Defined.

(** ** Classification *)

(** [text.strip()] is empty exactly for the texts of white space. *)
Lemma strip_blank (s : string) :
  Str.not_ (Str.rstrip (Str.lstrip s)) = whitespace_only s.
Proof.
  induction s as [|c s IH]; [reflexivity|].
  simpl. destruct (Str.isspace c) eqn:E; [exact IH|].
  simpl. destruct (Str.rstrip s); by rewrite ?E.
Qed.

Lemma is_blank_whitespace_only (text : string) :
  SentimentService.is_blank text = whitespace_only text.
Proof.
  unfold SentimentService.is_blank, Str.strip. rewrite strip_blank.
  destruct text; reflexivity.
Qed.

Lemma ensure_loaded_eq (env : SentimentService.Env)
    (self : SentimentService.t) :
  (if negb (SentimentService._model_loaded self)
   then SentimentService.load_model env false
   else Eff.ret tt) self
  = ensure_loaded env self.
Proof.
  unfold ensure_loaded.
  by destruct (negb (SentimentService._model_loaded self)).
Qed.

(** C5, as stated, fails: on a service that is not loaded and whose
    model cannot be loaded, [analyze_with_all_scores] of a blank text
    raises, since the load comes before the test of the text. *)
Lemma blank_text_load_failure :
  ~ (forall (env : SentimentService.Env) (self : SentimentService.t)
            (text : string),
       whitespace_only text = true ->
       exists d self',
         SentimentService.analyze_with_all_scores env text self
         = (Py.Ok d, self')).
Proof.
  intros H.
  destruct (H (sentiment_env false)
              (SentimentService.__init__ (sentiment_env false) None) "  "
              eq_refl)
    as (d & self' & Hd).
  discriminate Hd.
Qed.

(** C5 (amended).  Both entry points first load the model when it is not
    loaded, and a failure of that load is raised by both.  Otherwise, for
    every empty or white-space text, [analyze] raises the [ValueError]
    "Input text cannot be empty" and returns no result, while
    [analyze_with_all_scores] returns the distribution that maps every
    label to [0.0]. *)
Theorem blank_text_asymmetry (env : SentimentService.Env)
    (self : SentimentService.t) (text : string) (return_all_scores : bool) :
  whitespace_only text = true ->
  (forall label, SentimentService.all_zero !! label = Some 0%Q)
  /\ match ensure_loaded env self with
     | (Py.Ok _, self') =>
         SentimentService.analyze env text return_all_scores self
         = (Py.Raise (Py.Exn Py.ValueError "Input text cannot be empty"),
            self')
         /\ SentimentService.analyze_with_all_scores env text self
            = (Py.Ok SentimentService.all_zero, self')
     | (Py.Raise e, self') =>
         SentimentService.analyze env text return_all_scores self
         = (Py.Raise e, self')
         /\ SentimentService.analyze_with_all_scores env text self
            = (Py.Raise e, self')
     end.
Proof.
  intros Hb. rewrite <- is_blank_whitespace_only in Hb. split.
  - by intros [].
  - unfold SentimentService.analyze, SentimentService.analyze_with_all_scores.
    unfold Eff.bind at 1 3. unfold Eff.get.
    unfold Eff.bind. rewrite ensure_loaded_eq, Hb.
    destruct (ensure_loaded env self) as [[[]|e] self']; by split.
Qed.

(** C5 (amended), on the loaded service and a text of one space. *)
Lemma blank_text_asymmetry_witness :
  SentimentService.analyze (sentiment_env true) " " true sentiment_loaded
  = (Py.Raise (Py.Exn Py.ValueError "Input text cannot be empty"),
     sentiment_loaded)
  /\ SentimentService.analyze_with_all_scores (sentiment_env true) " "
       sentiment_loaded
     = (Py.Ok SentimentService.all_zero, sentiment_loaded).
Proof.
  destruct (blank_text_asymmetry (sentiment_env true) sentiment_loaded " "
              true eq_refl) as [_ H].
  exact H.
Defined.

(** The loop of [analyze_with_all_scores] leaves under each label the
    score of the last dictionary mapped to it. *)
Lemma add_score_lookup (results : list SentimentService.raw)
    (m : gmap SentimentService.SentimentLabel Q)
    (l : SentimentService.SentimentLabel) :
  default 0%Q (foldl SentimentService.add_score m results !! l)
  = foldl (fun acc r => if decide (mapped r = l) then score_of r else acc)
      (default 0%Q (m !! l)) results.
Proof.
  revert m. induction results as [|r results IH]; intros m; [reflexivity|].
  simpl. rewrite IH. f_equal. unfold SentimentService.add_score.
  fold (mapped r). fold (score_of r).
  destruct (decide (mapped r = l)) as [->|Hne].
  - by rewrite lookup_insert_eq.
  - by rewrite lookup_insert_ne.
Qed.

Lemma ensure_lookup (ls : list SentimentService.SentimentLabel)
    (m : gmap SentimentService.SentimentLabel Q)
    (l : SentimentService.SentimentLabel) :
  foldl (fun d label =>
           match d !! label with
           | None => <[label := 0%Q]> d
           | Some _ => d
           end) m ls !! l
  = match m !! l with
    | Some x => Some x
    | None => if decide (l ∈ ls) then Some 0%Q else None
    end.
Proof.
  revert m. induction ls as [|a ls IH]; intros m.
  - simpl. by destruct (m !! l).
  - simpl. rewrite IH. destruct (m !! a) eqn:Ea.
    + destruct (m !! l) eqn:El; [done|].
      destruct (decide (l ∈ ls)) as [Hin|Hin].
      * rewrite decide_True; [done|]. by right.
      * rewrite decide_False; [done|].
        intros [->|?]%elem_of_cons; [congruence|done].
    + destruct (decide (a = l)) as [->|Hne].
      * rewrite lookup_insert_eq, Ea. rewrite decide_True; [done|]. by left.
      * rewrite lookup_insert_ne by done. destruct (m !! l); [done|].
        destruct (decide (l ∈ ls)) as [Hin|Hin].
        -- rewrite decide_True; [done|]. by right.
        -- rewrite decide_False; [done|].
           intros [->|?]%elem_of_cons; done.
Qed.

Lemma all_labels_complete (l : SentimentService.SentimentLabel) :
  l ∈ SentimentService.all_labels.
Proof. destruct l; apply (bool_decide_unpack _); vm_compute; exact I. Qed.

Lemma ensure_all_labels_lookup (m : gmap SentimentService.SentimentLabel Q)
    (l : SentimentService.SentimentLabel) :
  SentimentService.ensure_all_labels m !! l = Some (default 0%Q (m !! l)).
Proof.
  unfold SentimentService.ensure_all_labels. rewrite ensure_lookup.
  destruct (m !! l); [done|].
  rewrite decide_True; [done|]. apply all_labels_complete.
Qed.

(** A dictionary with an entry for every label has seven keys. *)
Lemma total_map_size (d : gmap SentimentService.SentimentLabel Q) :
  (forall l, is_Some (d !! l)) -> size d = 7%nat.
Proof.
  intros H. rewrite <- size_dom.
  assert (Hdom : dom d = list_to_set SentimentService.all_labels).
  { apply set_eq. intros l. rewrite elem_of_dom, elem_of_list_to_set.
    split; [intros _; apply all_labels_complete | intros _; apply H]. }
  rewrite Hdom, size_list_to_set; [reflexivity|].
  apply (bool_decide_unpack _). vm_compute. exact I.
Qed.

Lemma last_score_bounds_from (l : SentimentService.SentimentLabel)
    (results : list SentimentService.raw) (acc : Q) :
  (forall r x, r ∈ results -> SentimentService.raw_score r = Some x ->
               (0 <= x <= 1)%Q) ->
  (0 <= acc <= 1)%Q ->
  (0 <= foldl (fun acc r => if decide (mapped r = l) then score_of r else acc)
          acc results <= 1)%Q.
Proof.
  revert acc. induction results as [|r results IH]; intros acc H Hacc;
    [exact Hacc|].
  simpl. apply IH.
  - intros r' x Hin. apply H. by right.
  - destruct (decide (mapped r = l)); [|exact Hacc].
    unfold score_of.
    destruct (SentimentService.raw_score r) as [x|] eqn:E; simpl.
    + apply (H r x); [by left|done].
    + split; discriminate.
Qed.

Lemma last_score_bounds (l : SentimentService.SentimentLabel)
    (results : list SentimentService.raw) :
  (forall r x, r ∈ results -> SentimentService.raw_score r = Some x ->
               (0 <= x <= 1)%Q) ->
  (0 <= last_score l results <= 1)%Q.
Proof.
  intros H. apply last_score_bounds_from; [exact H|]. split; discriminate.
Qed.

Lemma last_score_absent (l : SentimentService.SentimentLabel)
    (results : list SentimentService.raw) :
  (forall r, r ∈ results -> mapped r <> l) -> last_score l results = 0%Q.
Proof.
  unfold last_score. generalize 0%Q as acc.
  induction results as [|r results IH]; intros acc H; [reflexivity|].
  simpl. rewrite decide_False by (apply H; by left).
  apply IH. intros r' Hin. apply H. by right.
Qed.

(** C3, as stated, fails: the distribution has seven keys, one per
    member of [SentimentLabel]: the six mapped emotions and neutral. *)
Lemma distribution_has_seven_keys :
  ~ (forall (env : SentimentService.Env) (self self' : SentimentService.t)
            (text : string) (d : gmap SentimentService.SentimentLabel Q),
       whitespace_only text = false ->
       SentimentService.analyze_with_all_scores env text self
       = (Py.Ok d, self') ->
       size d = 6%nat).
Proof.
  intros H.
  specialize (H (sentiment_env true) sentiment_loaded sentiment_loaded
                "I am happy"
                (SentimentService.ensure_all_labels
                   (foldl SentimentService.add_score ∅ joy_and_disgust))
                eq_refl eq_refl).
  vm_compute in H. discriminate H.
Qed.

(** C3 (amended).  For every text that is not blank, on a service whose
    model is loaded, or loads, and whose classifier answers with a list
    that holds the list of dictionaries, [analyze_with_all_scores]
    returns a distribution with exactly seven keys, one per member of
    [SentimentLabel] (the six mapped emotions and neutral).  Each label
    carries the score of the last dictionary mapped to it; a raw label
    absent from [EMOTION_MAPPING] is mapped to neutral; a label to which
    no dictionary is mapped carries [0.0]; and all values lie in [0, 1]
    when the scores of the classifier do. *)
Theorem analyze_with_all_scores_distribution (env : SentimentService.Env)
    (self self' : SentimentService.t) (text : string)
    (c : SentimentService.Classifier) (results : list SentimentService.raw)
    (rest : list (list SentimentService.raw)) :
  whitespace_only text = false ->
  ensure_loaded env self = (Py.Ok tt, self') ->
  SentimentService.classifier self' = Some c ->
  c text = Py.Ok (SentimentService.Nested (results :: rest)) ->
  exists d,
    SentimentService.analyze_with_all_scores env text self = (Py.Ok d, self')
    /\ size d = 7%nat
    /\ (forall l, d !! l = Some (last_score l results))
    /\ (forall l, (forall r, r ∈ results -> mapped r <> l) ->
                  d !! l = Some 0%Q)
    /\ (forall s, SentimentService.EMOTION_MAPPING !! s = None ->
                  SentimentService.map_label s = SentimentService.NEUTRAL)
    /\ ((forall r x, r ∈ results -> SentimentService.raw_score r = Some x ->
                     (0 <= x <= 1)%Q) ->
        forall l x, d !! l = Some x -> (0 <= x <= 1)%Q).
Proof.
  intros Hb Hload Hc Hres. rewrite <- is_blank_whitespace_only in Hb.
  exists (SentimentService.ensure_all_labels
            (foldl SentimentService.add_score ∅ results)).
  assert (Hlookup : forall l,
            SentimentService.ensure_all_labels
              (foldl SentimentService.add_score ∅ results) !! l
            = Some (last_score l results)).
  { intros l. rewrite ensure_all_labels_lookup, add_score_lookup.
    by rewrite lookup_empty. }
  split_and!.
  - unfold SentimentService.analyze_with_all_scores.
    unfold Eff.bind at 1. unfold Eff.get.
    unfold Eff.bind at 1. rewrite ensure_loaded_eq, Hload, Hb.
    unfold SentimentService.call_classifier. run_service.
    rewrite Hc, Hres. reflexivity.
  - apply total_map_size. intros l. rewrite Hlookup. by eexists.
  - exact Hlookup.
  - intros l Hl. rewrite Hlookup. by rewrite last_score_absent.
  - intros s Hs. unfold SentimentService.map_label. by rewrite Hs.
  - intros H l x. rewrite Hlookup. intros [= <-].
    by apply last_score_bounds.
Qed.

(** C3 (amended), on the loaded service whose classifier reports joy and
    the unmapped label disgust: seven keys, joy with its score, neutral
    with the score of disgust, fear with zero. *)
Lemma analyze_with_all_scores_distribution_witness :
  exists d,
    SentimentService.analyze_with_all_scores (sentiment_env true)
      "I am happy" sentiment_loaded
    = (Py.Ok d, sentiment_loaded)
    /\ size d = 7%nat
    /\ d !! SentimentService.JOY = Some (9 # 10)
    /\ d !! SentimentService.NEUTRAL = Some (1 # 10)
    /\ d !! SentimentService.FEAR = Some 0%Q.
Proof.
  destruct (analyze_with_all_scores_distribution (sentiment_env true)
              sentiment_loaded sentiment_loaded "I am happy"
              (fun _ => Py.Ok (SentimentService.Nested [joy_and_disgust]))
              joy_and_disgust [] eq_refl eq_refl eq_refl eq_refl)
    as (d & Hd & Hsize & Hlookup & _).
  exists d. split_and!; [exact Hd | exact Hsize | | | ]; rewrite Hlookup;
    reflexivity.
Defined.

(** ** Two threads on one service *)

Section TwoThreads.

Import Threads.











End TwoThreads.

(** * Further properties of the code *)

(** ** The ring buffer, continued *)

Section RingBufferMore.

Import AudioBuffer.

(** What one [append] does to an open buffer whose capacity is not
    negative. *)
Lemma append_eq (self : t) (data : list sample) :
  _lock self = false -> 0 <= max_samples self ->
  append self data
  = set_buffer self
      (if max_samples self =? 0 then buffer self ++ data
       else last_n (Z.to_nat (max_samples self)) (buffer self ++ data)).
Proof.
  intros Hl Hc. unfold append. rewrite Hl.
  destruct (Z.eqb_spec (max_samples self) 0) as [E|E].
  - rewrite E. unfold Py.slice_from, Py.slice_index. simpl.
    rewrite Z.min_l by (unfold Py.len; lia). simpl. rewrite drop_0.
    by destruct (_ >? _).
  - destruct (Z.gtb_spec (Py.len (buffer self ++ data)) (max_samples self))
      as [H|H]; f_equal; unfold last_n.
    + unfold Py.slice_from, Py.slice_index.
      destruct (Z.ltb_spec (- max_samples self) 0); [|lia].
      f_equal. unfold Py.len in *. lia.
    + replace (length (buffer self ++ data) - Z.to_nat (max_samples self))%nat
        with 0%nat by (unfold Py.len in H; lia).
      reflexivity.
Qed.

(** Appending in two calls leaves the buffer that appending both parts
    in one call leaves. *)
Theorem append_app (self : t) (a b : list sample) :
  0 <= max_samples self ->
  append (append self a) b = append self (a ++ b).
Proof.
  intros Hc. destruct (_lock self) eqn:Hl.
  { unfold append. rewrite Hl. simpl. by rewrite Hl. }
  rewrite (append_eq self a), (append_eq self (a ++ b)) by done.
  rewrite append_eq by done. unfold set_buffer. simpl. f_equal.
  destruct (max_samples self =? 0).
  - by rewrite app_assoc.
  - rewrite last_n_app. by rewrite app_assoc.
Qed.

(** On a buffer of three samples that receives four, in two calls and in
    one. *)
Lemma append_app_witness :
  append (append (__init__ 2 (3 # 2)) [1 # 1; 2 # 1]) [3 # 1; 4 # 1]
  = append (__init__ 2 (3 # 2)) [1 # 1; 2 # 1; 3 # 1; 4 # 1].
Proof.
  apply (append_app (__init__ 2 (3 # 2)) [1 # 1; 2 # 1] [3 # 1; 4 # 1]).
  vm_compute. discriminate.
Defined.

(** [append] on a buffer of positive capacity keeps the newest samples:
    the buffer ends with the new data, or with the last [max_samples] of
    them when there are more. *)
Theorem append_keeps_newest (self : t) (data : list sample) :
  _lock self = false -> 0 < max_samples self ->
  exists older,
    buffer (append self data)
    = older ++ last_n (Z.to_nat (max_samples self)) data
    /\ Py.len (buffer (append self data))
       = Z.min (max_samples self) (Py.len (buffer self) + Py.len data).
Proof.
  intros Hl Hc. rewrite append_eq by (done || lia).
  destruct (Z.eqb_spec (max_samples self) 0); [lia|]. simpl.
  set (C := Z.to_nat (max_samples self)).
  assert (Hlen : Py.len (last_n C (buffer self ++ data))
                 = Z.min (max_samples self)
                     (Py.len (buffer self) + Py.len data)).
  { unfold Py.len. rewrite last_n_length, length_app. lia. }
  unfold last_n in Hlen |- *. rewrite length_app in Hlen |- *.
  destruct (Nat.le_gt_cases C (length data)) as [Hbig|Hsmall].
  - exists []. split; [|exact Hlen].
    rewrite drop_app_ge by lia. simpl. f_equal. lia.
  - exists (drop (length (buffer self) + length data - C) (buffer self)).
    split; [|exact Hlen].
    rewrite drop_app_le by lia.
    replace (length data - C)%nat with 0%nat by lia. by rewrite drop_0.
Qed.

(** On a buffer of three samples that receives four. *)
Lemma append_keeps_newest_witness :
  exists older,
    buffer (append (__init__ 2 (3 # 2)) [1 # 1; 2 # 1; 3 # 1; 4 # 1])
    = older ++ [2 # 1; 3 # 1; 4 # 1]
    /\ Py.len (buffer (append (__init__ 2 (3 # 2))
                         [1 # 1; 2 # 1; 3 # 1; 4 # 1]))
       = 3.
Proof.
  apply (append_keeps_newest (__init__ 2 (3 # 2))
           [1 # 1; 2 # 1; 3 # 1; 4 # 1]); reflexivity.
Defined.

Lemma int_float_minus_mul (n d r : Z) :
  Py.int (Py.float n - Py.float d * Py.float r) = n - d * r.
Proof.
  unfold Py.int, Py.float. simpl Qnum. simpl Qden.
  rewrite Z.quot_1_r. lia.
Qed.

Lemma int_float_plus_mul (n d r : Z) :
  Py.int (Py.float n + Py.float d * Py.float r) = n + d * r.
Proof.
  unfold Py.int, Py.float. simpl Qnum. simpl Qden.
  rewrite Z.quot_1_r. lia.
Qed.



(** For a whole number [d] of seconds that spans at least one sample,
    [get_chunk(start_offset=d, duration=d)] returns the most recent [d]
    seconds of the buffer, or all of it when it holds less. *)
Theorem get_chunk_most_recent (self : t) (d : Z) :
  0 < d * sample_rate self ->
  get_chunk self (Py.float d) (Py.float d)
  = last_n (Z.to_nat (d * sample_rate self)) (buffer self).
Proof.
  intros Hd. unfold get_chunk, end_of, start_of.
  rewrite int_float_minus_mul, int_float_plus_mul.
  replace (Py.len (buffer self) - d * sample_rate self
           + d * sample_rate self) with (Py.len (buffer self)) by lia.
  rewrite Z.min_id. unfold last_n.
  destruct (Z.geb_spec (Z.max 0 (Py.len (buffer self) - d * sample_rate self))
              (Py.len (buffer self))) as [H|H].
  - assert (buffer self = []) as ->; [|reflexivity].
    destruct (buffer self); [reflexivity|]. unfold Py.len in H.
    simpl in H. lia.
  - unfold Py.slice, Py.slice_index.
    assert (0 <= Py.len (buffer self)) by (unfold Py.len; lia).
    destruct (Z.ltb_spec (Z.max 0 (Py.len (buffer self)
                                   - d * sample_rate self)) 0); [lia|].
    destruct (Z.ltb_spec (Py.len (buffer self)) 0); [lia|].
    rewrite Z.min_id, Z.min_l by lia.
    rewrite take_ge.
    + f_equal. unfold Py.len. lia.
    + rewrite length_drop. unfold Py.len. lia.
Qed.

(** The last second of the buffer of two seconds. *)
Lemma get_chunk_most_recent_witness :
  get_chunk two_seconds 1 1 = [-1 # 4; 1 # 8].
Proof.
  apply (get_chunk_most_recent two_seconds 1). reflexivity.
Defined.

End RingBufferMore.

(** ** The seconds that the ring buffer holds *)

Section RingBufferSeconds.

Import AudioBuffer.





End RingBufferSeconds.

(** ** Normalisation *)

Section Normalisation.

Import Preprocessing.

Lemma Qmax_cases (x y : Q) :
  (AudioUtils.Qmax x y = x /\ (y <= x)%Q)
  \/ (AudioUtils.Qmax x y = y /\ (x <= y)%Q).
Proof.
  unfold AudioUtils.Qmax. destruct (Qlt_le_dec x y) as [H|H].
  - right. split; [reflexivity|]. by apply Qlt_le_weak.
  - left. by split.
Qed.

(** The running maximum is one of the values and bounds all of them. *)
Lemma fold_Qmax_spec (l : list Q) (x : Q) :
  let m := List.fold_left AudioUtils.Qmax l x in
  (m = x \/ m ∈ l)
  /\ (x <= m)%Q
  /\ (forall y, y ∈ l -> (y <= m)%Q).
Proof.
  revert x. induction l as [|a l IH]; intros x; simpl.
  - split; [by left|]. split; [apply Qle_refl|]. intros y Hy.
    by apply elem_of_nil in Hy.
  - destruct (IH (AudioUtils.Qmax x a)) as (Hin & Hge & Hall).
    destruct (Qmax_cases x a) as [[E Hle]|[E Hle]]; rewrite E in *.
    + split_and!.
      * destruct Hin as [->|Hin]; [by left|right; by right].
      * exact Hge.
      * intros y [->|Hy]%elem_of_cons; [|by apply Hall].
        by apply (Qle_trans _ x).
    + split_and!.
      * right. destruct Hin as [->|Hin]; [by left|by right].
      * by apply (Qle_trans _ a).
      * intros y [->|Hy]%elem_of_cons; [exact Hge|by apply Hall].
Qed.

(** [np.max] of a non-empty array: one of its values, above all. *)
Lemma np_max_spec (a : list Q) :
  a <> [] ->
  exists m, np_max a = Py.Ok m /\ m ∈ a /\ forall y, y ∈ a -> (y <= m)%Q.
Proof.
  destruct a as [|x l]; [done|]. intros _.
  unfold np_max, AudioUtils.ndarray_max. simpl.
  destruct (fold_Qmax_spec l x) as (Hin & Hge & Hall).
  eexists. split; [reflexivity|]. split.
  - destruct Hin as [->|Hin]; [by left|by right].
  - intros y [->|Hy]%elem_of_cons; [exact Hge|by apply Hall].
Qed.


Lemma elem_of_map_Q {A} (f : A -> Q) (l : list A) (y : Q) :
  y ∈ List.map f l <-> exists x, y = f x /\ x ∈ l.
Proof. change (List.map f l) with (f <$> l). apply list_elem_of_fmap. Qed.





(** [normalize_audio] returns an array of zeros as it is, and raises on
    an array without samples. *)
Theorem normalize_audio_silent (audio_data : list sample) :
  normalize_audio [] = Py.Raise
    (Py.Exn Py.ValueError
       "zero-size array to reduction operation maximum has no identity")
  /\ (audio_data <> [] ->
      (forall x, x ∈ audio_data -> (x == 0)%Q) ->
      normalize_audio audio_data = Py.Ok audio_data).
Proof.
  split; [reflexivity|]. intros Hne Hz.
  destruct (np_max_spec (List.map Qabs audio_data)) as (m & Hm & Hin & _).
  { by destruct audio_data. }
  unfold normalize_audio. rewrite Hm. simpl.
  destruct (Qlt_le_dec 0 m) as [H|_]; [|reflexivity].
  exfalso. apply elem_of_map_Q in Hin as (x & -> & Hx).
  rewrite (Hz x Hx) in H. by apply Qlt_irrefl in H.
Qed.

(** On three zeros. *)
Lemma normalize_audio_silent_witness :
  normalize_audio [0 # 1; 0 # 5; 0 # 1] = Py.Ok [0 # 1; 0 # 5; 0 # 1].
Proof.
  destruct (normalize_audio_silent [0 # 1; 0 # 5; 0 # 1]) as [_ H].
  apply H; [discriminate|].
  intros x Hx. repeat (apply elem_of_cons in Hx as [->|Hx]; [reflexivity|]).
  by apply elem_of_nil in Hx.
Defined.






End Normalisation.

(** ** Chunks *)

Section Chunks.

Import Preprocessing.

Lemma elem_of_List_map {A B} (f : A -> B) (l : list A) (y : B) :
  y ∈ List.map f l <-> exists x, y = f x /\ x ∈ l.
Proof. change (List.map f l) with (f <$> l). apply list_elem_of_fmap. Qed.

Lemma chunk_loop (audio_data : list sample) (chunk_samples : Z)
    (indices : list Z) (acc : list (list sample)) :
  foldl
    (fun chunks i =>
       let chunk := Py.slice audio_data i (i + chunk_samples) in
       if Py.len chunk >? 0 then
         let chunk :=
           if Py.len chunk <? chunk_samples
           then np_pad_end chunk (chunk_samples - Py.len chunk)
           else chunk in
         chunks ++ [chunk]
       else chunks)
    acc indices
  = acc ++ concat (List.map (chunk_at audio_data chunk_samples) indices).
Proof.
  revert acc. induction indices as [|i indices IH]; intros acc; simpl.
  - by rewrite app_nil_r.
  - rewrite IH. unfold chunk_at at 2.
    destruct (Py.len (Py.slice audio_data i (i + chunk_samples)) >? 0).
    + by rewrite <- app_assoc.
    + reflexivity.
Qed.

Lemma piece_length (n : nat) (l : list sample) : length (piece n l) = n.
Proof.
  unfold piece. rewrite length_app, length_replicate, length_take. lia.
Qed.

Lemma chunk_at_piece (audio_data : list sample) (s : Z) (k : nat) :
  0 < s -> (k * Z.to_nat s < length audio_data)%nat ->
  chunk_at audio_data s (Z.of_nat k * s)
  = [piece (Z.to_nat s) (drop (k * Z.to_nat s) audio_data)].
Proof.
  intros Hs Hk. unfold chunk_at, Py.slice, Py.slice_index, Py.len.
  set (n := length audio_data) in *.
  assert (Hks : Z.of_nat k * s = Z.of_nat (k * Z.to_nat s)) by lia.
  destruct (Z.ltb_spec (Z.of_nat k * s) 0); [lia|].
  destruct (Z.ltb_spec (Z.of_nat k * s + s) 0); [lia|].
  rewrite (Z.min_l (Z.of_nat k * s)) by lia.
  replace (Z.to_nat (Z.of_nat k * s)) with (k * Z.to_nat s)%nat by lia.
  assert (Htake :
    take (Z.to_nat (Z.min (Z.of_nat k * s + s) (Z.of_nat n) - Z.of_nat k * s))
      (drop (k * Z.to_nat s) audio_data)
    = take (Z.to_nat s) (drop (k * Z.to_nat s) audio_data)).
  { destruct (Z.le_gt_cases (Z.of_nat k * s + s) (Z.of_nat n)).
    - rewrite Z.min_l by lia.
      replace (Z.of_nat k * s + s - Z.of_nat k * s) with s by lia.
      reflexivity.
    - rewrite Z.min_r by lia.
      rewrite !take_ge by (rewrite length_drop; lia). reflexivity. }
  rewrite Htake.
  set (c := take (Z.to_nat s) (drop (k * Z.to_nat s) audio_data)).
  assert (Hc : (0 < length c <= Z.to_nat s)%nat).
  { unfold c. rewrite length_take, length_drop. lia. }
  destruct (Z.gtb_spec (Z.of_nat (length c)) 0); [|lia].
  unfold piece. fold c. unfold np_pad_end.
  destruct (Z.ltb_spec (Z.of_nat (length c)) s).
  - do 3 f_equal. lia.
  - replace (Z.to_nat s - length c)%nat with 0%nat by lia.
    by rewrite app_nil_r.
Qed.

(** The pieces of an array, one after the other, are the array followed
    by the zeros that fill the last piece. *)
Lemma pieces_concat (s c : nat) (l : list sample) :
  (0 < s)%nat -> (length l <= c * s)%nat -> (c * s < length l + s)%nat ->
  concat (List.map (fun k => piece s (drop (k * s) l)) (List.seq 0 c))
  = l ++ replicate (c * s - length l) 0%Q.
Proof.
  intros Hs. revert l. induction c as [|c IH]; intros l Hle Hgt.
  - simpl in *. destruct l; [reflexivity|simpl in Hle; lia].
  - simpl List.seq. simpl List.map. simpl concat.
    rewrite <- seq_shift, List.map_map.
    rewrite (List.map_ext _ (fun k => piece s (drop (k * s) (drop s l)))).
    2:{ intros k. rewrite drop_drop. reflexivity. }
    simpl drop. destruct (Nat.le_gt_cases (length l) s) as [Hshort|Hlong].
    + destruct c as [|c']; [|exfalso; simpl in Hgt; lia].
      cbn [List.seq List.map concat]. rewrite app_nil_r, drop_0.
      unfold piece. rewrite take_ge by lia. do 2 f_equal. lia.
    + rewrite IH by (rewrite length_drop; simpl in Hle, Hgt; lia).
      rewrite drop_0. unfold piece at 1. rewrite length_take.
      replace (s - Nat.min s (length l))%nat with 0%nat by lia.
      cbn [replicate]. rewrite app_nil_r, app_assoc, take_drop, length_drop.
      f_equal. f_equal. simpl. lia.
Qed.

(** The number of rounds of the loop: the length divided by the size of
    a chunk, rounded up. *)
Lemma count_bounds (n s : Z) :
  0 < s -> 0 <= n ->
  let c := (n + s - 1) / s in
  0 <= c /\ n <= c * s /\ c * s < n + s.
Proof.
  intros Hs Hn c. subst c.
  pose proof (Z.div_mod (n + s - 1) s ltac:(lia)) as Hdm.
  pose proof (Z.mod_pos_bound (n + s - 1) s Hs) as Hmod.
  split; [apply Z.div_pos; lia|]. nia.
Qed.

Lemma chunks_at_pieces (audio_data : list sample) (s : Z) (ks : list nat) :
  0 < s ->
  (forall k, k ∈ ks -> (k * Z.to_nat s < length audio_data)%nat) ->
  concat (List.map (fun k => chunk_at audio_data s (Z.of_nat k * s)) ks)
  = List.map (fun k => piece (Z.to_nat s) (drop (k * Z.to_nat s) audio_data))
      ks.
Proof.
  intros Hs. induction ks as [|k ks IH]; intros Hall; [reflexivity|].
  simpl. rewrite chunk_at_piece; [|exact Hs|apply Hall; by left].
  simpl. f_equal. apply IH. intros k' Hk'. apply Hall. by right.
Qed.

(** What [chunk_audio] returns for a positive size of the chunks. *)
Lemma chunk_audio_pieces (audio_data : list sample)
    (sample_rate chunk_duration_ms : Z) :
  let s := chunk_samples_of sample_rate chunk_duration_ms in
  let c := Z.to_nat ((Py.len audio_data + s - 1) / s) in
  0 < s ->
  chunk_audio audio_data sample_rate chunk_duration_ms
  = Py.Ok (List.map (fun k => piece (Z.to_nat s)
                                (drop (k * Z.to_nat s) audio_data))
             (List.seq 0 c))
  /\ (length audio_data <= c * Z.to_nat s)%nat
  /\ (c * Z.to_nat s < length audio_data + Z.to_nat s)%nat.
Proof.
  intros s c Hs.
  destruct (count_bounds (Py.len audio_data) s Hs) as (Hc0 & Hc1 & Hc2).
  { unfold Py.len. lia. }
  assert (Hb1 : (length audio_data <= c * Z.to_nat s)%nat)
    by (subst c; unfold Py.len in *; nia).
  assert (Hb2 : (c * Z.to_nat s < length audio_data + Z.to_nat s)%nat)
    by (subst c; unfold Py.len in *; nia).
  split; [|by split].
  unfold chunk_audio. fold s. unfold range0.
  destruct (Z.eqb_spec s 0); [lia|].
  destruct (Z.ltb_spec 0 s); [|lia]. fold c. simpl Py.bind.
  rewrite chunk_loop. simpl app. f_equal.
  rewrite List.map_map. apply chunks_at_pieces; [exact Hs|].
  intros k Hk. apply list_elem_of_In, in_seq in Hk. nia.
Qed.

(** With a positive size, [chunk_audio] returns chunks of exactly that
    size, as many as the length divided by the size, rounded up. *)
Theorem chunk_audio_sizes (audio_data : list sample)
    (sample_rate chunk_duration_ms : Z) :
  let s := chunk_samples_of sample_rate chunk_duration_ms in
  0 < s ->
  exists chunks,
    chunk_audio audio_data sample_rate chunk_duration_ms = Py.Ok chunks
    /\ Py.len chunks = (Py.len audio_data + s - 1) / s
    /\ forall chunk, chunk ∈ chunks -> Py.len chunk = s.
Proof.
  intros s Hs.
  destruct (chunk_audio_pieces audio_data sample_rate chunk_duration_ms Hs)
    as (Heq & _ & _).
  eexists. split; [exact Heq|]. fold s. split.
  - unfold Py.len at 1. rewrite List.length_map, List.length_seq.
    destruct (count_bounds (Py.len audio_data) s Hs) as (Hc0 & _ & _);
      [unfold Py.len; lia|]. lia.
  - intros chunk (k & -> & _)%elem_of_List_map.
    unfold Py.len. rewrite piece_length. lia.
Qed.

(** With a positive size, the chunks of [chunk_audio], one after the
    other, are the samples of the input in their order, followed by
    fewer zeros than a chunk holds. *)
Theorem chunk_audio_content (audio_data : list sample)
    (sample_rate chunk_duration_ms : Z) :
  let s := chunk_samples_of sample_rate chunk_duration_ms in
  0 < s ->
  exists chunks (pad : nat),
    chunk_audio audio_data sample_rate chunk_duration_ms = Py.Ok chunks
    /\ Z.of_nat pad < s
    /\ concat chunks = audio_data ++ replicate pad 0%Q.
Proof.
  intros s Hs.
  destruct (chunk_audio_pieces audio_data sample_rate chunk_duration_ms Hs)
    as (Heq & Hb1 & Hb2).
  eexists. eexists. split; [exact Heq|]. fold s. split.
  2:{ apply pieces_concat; [lia|exact Hb1|exact Hb2]. }
  fold s in Hb1, Hb2. lia.
Qed.

(** A size of zero makes [chunk_audio] raise, whatever the input, and a
    negative size makes it return no chunk. *)
Theorem chunk_audio_degenerate (audio_data : list sample)
    (sample_rate chunk_duration_ms : Z) :
  let s := chunk_samples_of sample_rate chunk_duration_ms in
  (s = 0 ->
   chunk_audio audio_data sample_rate chunk_duration_ms
   = Py.Raise (Py.Exn Py.ValueError "range() arg 3 must not be zero"))
  /\ (s < 0 ->
      chunk_audio audio_data sample_rate chunk_duration_ms = Py.Ok []).
Proof.
  intros s. unfold chunk_audio. fold s. unfold range0. split.
  - intros ->. reflexivity.
  - intros Hs. destruct (Z.eqb_spec s 0); [lia|].
    destruct (Z.ltb_spec 0 s); [lia|].
    replace (Z.to_nat ((Py.len audio_data + s + 1) / s)) with 0%nat;
      [reflexivity|].
    assert ((Py.len audio_data + s + 1) / s <= 0); [|lia].
    pose proof (Z.div_mod (Py.len audio_data + s + 1) s ltac:(lia)) as Hdm.
    pose proof (Z.mod_neg_bound (Py.len audio_data + s + 1) s Hs) as Hmod.
    assert (0 <= Py.len audio_data) by (unfold Py.len; lia).
    nia.
Qed.

(** Five samples in chunks of two. *)
Lemma chunk_audio_sizes_witness :
  exists chunks,
    chunk_audio [1 # 1; 2 # 1; 3 # 1; 4 # 1; 5 # 1] 1000 2 = Py.Ok chunks
    /\ Py.len chunks = 3
    /\ forall chunk, chunk ∈ chunks -> Py.len chunk = 2.
Proof.
  apply (chunk_audio_sizes [1 # 1; 2 # 1; 3 # 1; 4 # 1; 5 # 1] 1000 2).
  reflexivity.
Defined.

(** Five samples in chunks of two: one zero is added. *)
Lemma chunk_audio_content_witness :
  exists chunks (pad : nat),
    chunk_audio [1 # 1; 2 # 1; 3 # 1; 4 # 1; 5 # 1] 1000 2 = Py.Ok chunks
    /\ Z.of_nat pad < 2
    /\ concat chunks
       = [1 # 1; 2 # 1; 3 # 1; 4 # 1; 5 # 1] ++ replicate pad 0%Q.
Proof.
  apply (chunk_audio_content [1 # 1; 2 # 1; 3 # 1; 4 # 1; 5 # 1] 1000 2).
  reflexivity.
Defined.

(** A chunk duration of zero, and a negative one. *)
Lemma chunk_audio_degenerate_witness :
  chunk_audio [1 # 1; 2 # 1] 16000 0
  = Py.Raise (Py.Exn Py.ValueError "range() arg 3 must not be zero")
  /\ chunk_audio [1 # 1; 2 # 1] 16000 (-250) = Py.Ok [].
Proof.
  split.
  - destruct (chunk_audio_degenerate [1 # 1; 2 # 1] 16000 0) as [H _].
    apply H. reflexivity.
  - destruct (chunk_audio_degenerate [1 # 1; 2 # 1] 16000 (-250)) as [_ H].
    apply H. reflexivity.
Defined.

End Chunks.

(** ** Preprocessing *)

Section Preprocess.

Import Preprocessing.

Ltac run_pre :=
  unfold Eff.try_except_Exception, Eff.try_except, Eff.bind,
    AudioUtils.import, AudioUtils.emit,
    Eff.modify, Eff.call, Eff.ret, Eff.raise, Eff.get.

Lemma slice_subset {A} (l : list A) (start stop : Z) (x : A) :
  x ∈ Py.slice l start stop -> x ∈ l.
Proof.
  unfold Py.slice. intros H%subseteq_take.
  rewrite <- (take_drop (Z.to_nat (Py.slice_index (Py.len l) start)) l).
  apply elem_of_app. by right.
Qed.

(** [remove_silence] returns samples of its input only. *)
Lemma remove_silence_subset (sig : Signal) (audio_data : list sample)
    (sample_rate : Z) (threshold_db : Q) (frame_length hop_length : Z)
    (x : sample) :
  x ∈ AudioUtils.remove_silence (complex sig) (medfilt sig) (hilbert sig)
        (abs_complex sig) (pow sig) audio_data sample_rate threshold_db
        frame_length hop_length ->
  x ∈ audio_data.
Proof.
  unfold AudioUtils.remove_silence.
  destruct (_ =? 0); [done|]. apply slice_subset.
Qed.

Lemma remove_silence_nil (sig : Signal) (sample_rate : Z) (threshold_db : Q)
    (frame_length hop_length : Z) :
  AudioUtils.remove_silence (complex sig) (medfilt sig) (hilbert sig)
    (abs_complex sig) (pow sig) [] sample_rate threshold_db frame_length
    hop_length
  = [].
Proof.
  destruct (AudioUtils.remove_silence _ _ _ _ _ _ _ _ _ _) as [|x l] eqn:E;
    [reflexivity|].
  assert (Hx : x ∈ @nil sample).
  { apply (remove_silence_subset sig [] sample_rate threshold_db
             frame_length hop_length).
    rewrite E. by left. }
  by apply elem_of_nil in Hx.
Qed.


(** Every failure of [preprocess_audio] reaches the caller as an
    [AudioProcessingError] that carries the message of its cause, after
    an error record in the log. *)
Theorem preprocess_audio_failure (env : Env) (sig : Signal)
    (file_path : string) (target_sample_rate : Z)
    (normalize remove_silence_flag : bool) (tr tr' : AudioUtils.trace)
    (e : Py.exn) :
  preprocess_audio env sig file_path target_sample_rate normalize
    remove_silence_flag tr
  = (Py.Raise e, tr') ->
  exists cause,
    e = Py.Exn Py.AudioProcessingError
          ("Failed to preprocess audio: " +:+ cause)
    /\ last tr'
       = Some (AudioUtils.Logged AudioUtils.ERROR
                 ("Audio preprocessing failed: " +:+ cause)).
Proof.
  unfold preprocess_audio, Eff.try_except_Exception.
  destruct (Eff.bind _ _ tr) as [[r|cause] tr0]; [discriminate|].
  run_pre. intros [= <- <-]. exists (Py.str_of cause).
  split; [reflexivity|]. by rewrite last_snoc.
Qed.

(** A file without samples: [preprocess_audio] fails on it when
    [normalize] is on, because the maximum of no samples is undefined,
    and returns no samples when neither [normalize] nor the trimming of
    silence is on. *)
Theorem preprocess_audio_empty (env : Env) (sig : Signal)
    (file_path : string) (target_sample_rate : Z)
    (remove_silence_flag : bool) (tr : AudioUtils.trace) :
  soundfile_importable env = true ->
  sf_read env file_path = Py.Ok (AudioUtils.Array1 [], target_sample_rate) ->
  fst (preprocess_audio env sig file_path target_sample_rate true
         remove_silence_flag tr)
  = Py.Raise
      (Py.Exn Py.AudioProcessingError
         ("Failed to preprocess audio: "
          +:+ "zero-size array to reduction operation "
          +:+ "maximum has no identity"))
  /\ fst (preprocess_audio env sig file_path target_sample_rate false false
            tr)
     = Py.Ok ([], target_sample_rate).
Proof.
  intros Hsf Hread. unfold preprocess_audio. run_pre.
  rewrite Hsf, Hread. cbn -[AudioUtils.remove_silence].
  rewrite Z.eqb_refl. split; reflexivity.
Qed.

End Preprocess.


(** On a file that cannot be decoded. *)
Lemma preprocess_audio_failure_witness :
  exists cause,
    Py.Exn Py.AudioProcessingError
      "Failed to preprocess audio: Error opening file"
    = Py.Exn Py.AudioProcessingError
        ("Failed to preprocess audio: " +:+ cause)
    /\ last [AudioUtils.SfRead "a.wav";
             AudioUtils.Logged AudioUtils.ERROR
               "Audio preprocessing failed: Error opening file"]
       = Some (AudioUtils.Logged AudioUtils.ERROR
                 ("Audio preprocessing failed: " +:+ cause)).
Proof.
  apply (preprocess_audio_failure (decoder stereo 16000 false) signal0
           "a.wav" 16000 true true []).
  reflexivity.
Defined.

(** On a file without samples. *)
Lemma preprocess_audio_empty_witness :
  fst (Preprocessing.preprocess_audio
         (decoder (AudioUtils.Array1 []) 16000 true) signal0 "a.wav" 16000
         true true [])
  = Py.Raise
      (Py.Exn Py.AudioProcessingError
         ("Failed to preprocess audio: "
          +:+ "zero-size array to reduction operation "
          +:+ "maximum has no identity"))
  /\ fst (Preprocessing.preprocess_audio
            (decoder (AudioUtils.Array1 []) 16000 true) signal0 "a.wav"
            16000 false false [])
     = Py.Ok ([], 16000).
Proof.
  apply (preprocess_audio_empty (decoder (AudioUtils.Array1 []) 16000 true)
           signal0 "a.wav" 16000 true []); reflexivity.
Defined.

(** ** What [remove_silence] keeps *)

Section Trimming.

Import AudioUtils.

Lemma np_where_ge (mask : list bool) (k : Z) :
  Forall (fun x => k <= x) (np_where_from mask k).
Proof.
  revert k. induction mask as [|b mask IH]; intros k; [constructor|].
  simpl.
  assert (H : Forall (fun x => k <= x) (np_where_from mask (k + 1))).
  { eapply Forall_impl; [apply IH|]. simpl. lia. }
  destruct b; [constructor; [lia|exact H]|exact H].
Qed.

Lemma last_Forall (P : Z -> Prop) (l : list Z) (d : Z) :
  l <> [] -> Forall P l -> P (List.last l d).
Proof.
  induction l as [|x l IH]; [done|]. intros _ H.
  inversion H as [|? ? Hx Hl]; subst.
  destruct l as [|y l]; [exact Hx|].
  apply IH; [done|exact Hl].
Qed.

(** Every position where the mask holds lies between the first and the
    last position found. *)
Lemma np_where_bounds (mask : list bool) (k : Z) (j : nat) :
  mask !! j = Some true ->
  k <= List.hd 0 (np_where_from mask k) <= k + Z.of_nat j
  /\ k + Z.of_nat j <= List.last (np_where_from mask k) 0.
Proof.
  revert k j. induction mask as [|b mask IH]; intros k j H; [done|].
  destruct j as [|j].
  - simpl in H. injection H as ->. simpl. split; [lia|].
    destruct (np_where_from mask (k + 1)) as [|y l] eqn:E; [lia|].
    assert (Hy : k + 1 <= List.last (y :: l) 0).
    { apply last_Forall; [done|]. rewrite <- E. apply np_where_ge. }
    lia.
  - simpl in H. destruct (IH (k + 1) j H) as [Hhd Hlast].
    assert (Hne : np_where_from mask (k + 1) <> []).
    { by apply (np_where_some _ _ j). }
    simpl np_where_from. destruct b.
    + rewrite last_cons_ne by exact Hne. simpl. lia.
    + lia.
Qed.

Variable complex : Type.
Variable medfilt : list Q -> Z -> list Q.
Variable hilbert : list Q -> list complex.
Variable abs_complex : complex -> Q.
Variable pow : Q -> Q -> Q.

Lemma slice_window {A} (l : list A) (start end_ : Z) :
  0 <= start -> 0 <= end_ <= Py.len l ->
  Py.slice l start end_
  = take (Z.to_nat end_ - Z.to_nat start) (drop (Z.to_nat start) l).
Proof.
  intros Hs He. unfold Py.slice, Py.slice_index.
  destruct (Z.ltb_spec start 0); [lia|].
  destruct (Z.ltb_spec end_ 0); [lia|].
  rewrite (Z.min_l end_) by lia.
  destruct (Z.le_gt_cases start (Py.len l)) as [Hle|Hgt].
  - rewrite (Z.min_l start) by lia. f_equal. lia.
  - rewrite (Z.min_r start) by lia.
    rewrite !drop_ge by (unfold Py.len in *; lia).
    by rewrite !take_nil.
Qed.

(** With a frame length of one sample or more, [remove_silence] returns
    a segment of its input that holds every sample whose envelope
    exceeds the threshold. *)
Theorem remove_silence_keeps_loud (audio_data : list sample)
    (sample_rate : Z) (threshold_db : Q) (frame_length hop_length : Z) :
  1 <= frame_length ->
  exists s e : nat,
    remove_silence complex medfilt hilbert abs_complex pow audio_data
      sample_rate threshold_db frame_length hop_length
    = take (e - s) (drop s audio_data)
    /\ forall i,
         above medfilt hilbert abs_complex pow audio_data threshold_db i ->
         (i < length audio_data)%nat ->
         (s <= i < e)%nat.
Proof.
  intros Hfl. unfold remove_silence, np_where.
  set (mask := List.map _ _).
  destruct (Z.eqb_spec (Py.len (np_where_from mask 0)) 0) as [E|E].
  - exists 0%nat, (length audio_data). split.
    + rewrite drop_0, Nat.sub_0_r. by rewrite firstn_all.
    + intros i _ Hi. lia.
  - assert (Hpos : 0 <= List.last (np_where_from mask 0) 0).
    { apply last_Forall; [|apply np_where_ge].
      intros Hnil. by rewrite Hnil in E. }
    set (start := Z.max 0 (List.hd 0 (np_where_from mask 0) - frame_length)).
    set (end_ := Z.min (Py.len audio_data)
                   (List.last (np_where_from mask 0) 0 + frame_length)).
    exists (Z.to_nat start), (Z.to_nat end_). split.
    + apply slice_window; unfold start, end_, Py.len; lia.
    + intros i Hi Hlen. apply above_mask in Hi. fold mask in Hi.
      destruct (np_where_bounds mask 0 i Hi) as [Hhd Hlast].
      unfold start, end_, Py.len. lia.
Qed.

(** With a frame length of zero, the last sample whose envelope exceeds
    the threshold is cut off: the segment returned ends before it. *)
Theorem remove_silence_zero_frame (audio_data : list sample)
    (sample_rate : Z) (threshold_db : Q) (hop_length : Z) (last : nat) :
  above medfilt hilbert abs_complex pow audio_data threshold_db last ->
  (forall i,
     above medfilt hilbert abs_complex pow audio_data threshold_db i ->
     (i <= last)%nat) ->
  exists s : nat,
    (s <= last)%nat
    /\ remove_silence complex medfilt hilbert abs_complex pow audio_data
         sample_rate threshold_db 0 hop_length
       = take (last - s) (drop s audio_data).
Proof.
  intros Hlast Hmax. unfold remove_silence, np_where.
  set (mask := List.map _ _).
  assert (Hl : mask !! last = Some true) by (by apply above_mask).
  assert (Hne : np_where_from mask 0 <> []).
  { by apply (np_where_some _ _ last). }
  destruct (Z.eqb_spec (Py.len (np_where_from mask 0)) 0) as [E|_].
  { destruct (np_where_from mask 0); [done|]. unfold Py.len in E.
    simpl in E. lia. }
  destruct (np_where_bounds mask 0 last Hl) as [Hhd _].
  rewrite (np_where_last mask 0 last Hl).
  2:{ intros j Hj. apply above_mask in Hj. by apply Hmax. }
  set (h := List.hd 0 (np_where_from mask 0)) in *.
  exists (Z.to_nat h). split; [lia|].
  rewrite slice_window by (unfold Py.len; lia).
  rewrite !Z.add_0_l, !Z.add_0_r, Z.sub_0_r, (Z.max_r 0 h) by lia.
  destruct (Z.le_gt_cases (Z.of_nat last) (Py.len audio_data)) as [Hle|Hgt].
  - rewrite Z.min_r by lia. by rewrite Nat2Z.id.
  - rewrite Z.min_l by lia. unfold Py.len in *. rewrite Nat2Z.id.
    rewrite !take_ge; [reflexivity| |]; rewrite length_drop; lia.
Qed.

End Trimming.

(** On the buffer with two loud samples, with a frame of one sample. *)
Lemma remove_silence_keeps_loud_witness :
  exists s e : nat,
    AudioUtils.remove_silence Q medfilt0 hilbert0 Qabs pow0 speech 16000
      (-40) 1 512
    = take (e - s) (drop s speech)
    /\ forall i,
         above medfilt0 hilbert0 Qabs pow0 speech (-40) i ->
         (i < length speech)%nat ->
         (s <= i < e)%nat.
Proof.
  apply (remove_silence_keeps_loud Q medfilt0 hilbert0 Qabs pow0 speech
           16000 (-40) 1 512).
  lia.
Defined.

(** On the buffer with two loud samples, the second at position 3. *)
Lemma remove_silence_zero_frame_witness :
  exists s : nat,
    (s <= 3)%nat
    /\ AudioUtils.remove_silence Q medfilt0 hilbert0 Qabs pow0 speech 16000
         (-40) 0 512
       = take (3 - s) (drop s speech).
Proof.
  apply (remove_silence_zero_frame Q medfilt0 hilbert0 Qabs pow0 speech
           16000 (-40) 512 3).
  - exists (1 # 4)%Q. split; reflexivity.
  - intros i (x & Hx & Hgt).
    destruct i as [|[|[|[|i]]]]; [lia..|].
    exfalso. unfold AudioUtils.envelope_of, medfilt0, hilbert0 in Hx.
    simpl in Hx.
    destruct i as [|[|[|i]]]; simpl in Hx; try discriminate;
      injection Hx as <-; by vm_compute in Hgt.
Defined.

(** ** The outcomes of a conversion *)

Section ConversionOutcome.

Import AudioUtils.

Ltac run_eff :=
  unfold Eff.try_except_Exception, Eff.try_except, Eff.bind, emit,
    Eff.modify, Eff.call, Eff.ret, Eff.raise, Eff.get.

(** [convert_to_wav] either returns the output path, the given one or
    the one in the temporary directory, or raises a conversion error
    "Failed to convert audio: ..." after logging the same cause as an
    error; it raises nothing else.  The fallback [_convert_with_scipy]
    raises nothing but a conversion error "Scipy conversion
    failed: ...". *)
Theorem convert_to_wav_outcome (env : Env) (input_path : string)
    (output_path : option string) (sample_rate : Z) (mono : bool)
    (tr : trace) :
  match convert_to_wav env input_path output_path sample_rate mono tr with
  | (Py.Ok (path, _), _) => path = output_path_of env input_path output_path
  | (Py.Raise e, tr') =>
      exists cause,
        e = Py.Exn Py.AudioProcessingError
              ("Failed to convert audio: " +:+ cause)
        /\ last tr' = Some (Logged ERROR
                              ("Audio conversion failed: " +:+ cause))
  end
  /\ match
       _convert_with_scipy env input_path
         (output_path_of env input_path output_path) sample_rate mono tr
     with
     | (Py.Ok _, _) => True
     | (Py.Raise e, _) =>
         exists cause,
           e = Py.Exn Py.AudioProcessingError
                 ("Scipy conversion failed: " +:+ cause)
     end.
Proof.
  split.
  - unfold convert_to_wav. fold (output_path_of env input_path output_path).
    set (out := output_path_of env input_path output_path).
    unfold subprocess_run. run_eff.
    destruct (process env _) as [|seconds returncode stderr].
    + simpl.
      destruct (_convert_with_scipy env input_path out sample_rate mono _)
        as [[[]|e] tr2].
      * destruct (get_audio_duration_total env out tr2) as (d & tr3 & ->).
        reflexivity.
      * eexists. split; [reflexivity|]. by rewrite last_snoc.
    + destruct (Qlt_le_dec (Py.float 60) seconds); simpl.
      * eexists. split; [reflexivity|]. by rewrite last_snoc.
      * destruct (negb (returncode =? 0)); simpl.
        -- eexists. split; [reflexivity|]. by rewrite last_snoc.
        -- match goal with
           | |- context [get_audio_duration env out ?t] =>
               destruct (get_audio_duration_total env out t)
                 as (d & tr3 & ->)
           end.
           reflexivity.
  - unfold _convert_with_scipy, Eff.try_except_Exception.
    destruct (Eff.bind _ _ tr) as [[[]|e] tr']; [exact I|].
    by eexists.
Qed.

End ConversionOutcome.

(** ** The life of a service *)

(** A loaded transcription service holds a model. *)
Lemma whisper_loaded_has_model (self : WhisperService.t) :
  whisper_reachable self ->
  WhisperService._model_loaded self = true ->
  is_Some (WhisperService.model self).
Proof.
  induction 1 as [env|self c _ IH]; [discriminate|].
  destruct c as [env force_reload|]; simpl.
  - unfold WhisperService.load_model. run_service.
    destruct (WhisperService._model_loaded self && negb force_reload) eqn:E.
    + simpl. apply IH.
    + destruct (String.eqb (WhisperService.device self) "auto"); simpl;
        destruct (WhisperService.whisper_load_model env _); simpl;
        try (intros _; by eexists); exact IH.
  - unfold WhisperService.unload_model. run_service.
    destruct (WhisperService.model self) eqn:E; simpl; [discriminate|].
    rewrite E. exact IH.
Qed.

Lemma sentiment_loaded_has_model (self : SentimentService.t) :
  sentiment_reachable self ->
  SentimentService._model_loaded self = true ->
  is_Some (SentimentService.model self)
  /\ is_Some (SentimentService.classifier self).
Proof.
  induction 1 as [env|self c _ IH]; [discriminate|].
  destruct c as [env force_reload|]; simpl.
  - unfold SentimentService.load_model. run_service.
    destruct (SentimentService._model_loaded self && negb force_reload) eqn:E.
    + simpl. apply IH.
    + destruct (String.eqb (SentimentService.device self) "auto"); simpl;
        (destruct (SentimentService.tokenizer_from_pretrained env _); simpl;
         [|exact IH]);
        (destruct (SentimentService.model_from_pretrained env _) as [m|];
         simpl; [|exact IH]);
        (destruct (SentimentService.model_to env m _); simpl;
         [|intros Hl; destruct (IH Hl); split; [by eexists|done]]);
        (destruct (SentimentService.pipeline env m _ _); simpl;
         [intros _; split; by eexists
         |intros Hl; destruct (IH Hl); split; [by eexists|done]]).
  - unfold SentimentService.unload_model. run_service.
    destruct (SentimentService.model self) eqn:E; simpl; [discriminate|].
    rewrite E. exact IH.
Qed.

(** A classification service without a model has no classifier. *)
Lemma sentiment_no_model_no_classifier (self : SentimentService.t) :
  sentiment_reachable self ->
  SentimentService.model self = None ->
  SentimentService.classifier self = None.
Proof.
  induction 1 as [env|self c _ IH]; [done|].
  destruct c as [env force_reload|]; simpl.
  - unfold SentimentService.load_model. run_service.
    destruct (SentimentService._model_loaded self && negb force_reload) eqn:E.
    + simpl. apply IH.
    + destruct (String.eqb (SentimentService.device self) "auto"); simpl;
        (destruct (SentimentService.tokenizer_from_pretrained env _); simpl;
         [|exact IH]);
        (destruct (SentimentService.model_from_pretrained env _) as [m|];
         simpl; [|exact IH]);
        (destruct (SentimentService.model_to env m _); simpl;
         [|discriminate]);
        (destruct (SentimentService.pipeline env m _ _); simpl;
         discriminate).
  - unfold SentimentService.unload_model. run_service.
    destruct (SentimentService.model self) eqn:E; simpl; [done|].
    rewrite E. exact IH.
Qed.

(** After [unload_model], a service that was made by loads and unloads
    of a new one reports [not_loaded], holds no model, and a second
    [unload_model] changes nothing. *)
Theorem unload_model_not_loaded :
  (forall self env,
     whisper_reachable self ->
     exists self',
       WhisperService.unload_model self = (Py.Ok tt, self')
       /\ WhisperService.model self' = None
       /\ WhisperService.get_model_info env self'
          = WhisperService.status_not_loaded
       /\ WhisperService.unload_model self' = (Py.Ok tt, self'))
  /\ (forall self env,
        sentiment_reachable self ->
        exists self',
          SentimentService.unload_model self = (Py.Ok tt, self')
          /\ SentimentService.model self' = None
          /\ SentimentService.classifier self' = None
          /\ SentimentService.get_model_info env self'
             = SentimentService.status_not_loaded
          /\ SentimentService.unload_model self' = (Py.Ok tt, self')).
Proof.
  split.
  - intros self env Hr.
    pose proof (whisper_loaded_has_model self Hr) as Hinv.
    unfold WhisperService.unload_model, WhisperService.get_model_info.
    run_service.
    destruct (WhisperService.model self) eqn:E; simpl.
    + eexists. split; [reflexivity|]. simpl. by split_and!.
    + exists self. rewrite E. split; [reflexivity|]. split; [reflexivity|].
      destruct (WhisperService._model_loaded self); [|done].
      destruct (Hinv eq_refl) as [? ?]. discriminate.
  - intros self env Hr.
    pose proof (sentiment_loaded_has_model self Hr) as Hinv.
    pose proof (sentiment_no_model_no_classifier self Hr) as Hc.
    unfold SentimentService.unload_model, SentimentService.get_model_info.
    run_service.
    destruct (SentimentService.model self) eqn:E; simpl.
    + eexists. split; [reflexivity|]. simpl. by split_and!.
    + exists self. rewrite E. split; [reflexivity|]. split; [reflexivity|].
      split; [by apply Hc|].
      destruct (SentimentService._model_loaded self) eqn:El; [|done].
      destruct (Hinv eq_refl) as [[? ?] _]. discriminate.
Qed.

(** On the two services after a first load. *)
Lemma unload_model_not_loaded_witness :
  (exists self',
     WhisperService.unload_model whisper_loaded = (Py.Ok tt, self')
     /\ WhisperService.model self' = None
     /\ WhisperService.get_model_info (whisper_env true) self'
        = WhisperService.status_not_loaded
     /\ WhisperService.unload_model self' = (Py.Ok tt, self'))
  /\ (exists self',
        SentimentService.unload_model sentiment_loaded = (Py.Ok tt, self')
        /\ SentimentService.model self' = None
        /\ SentimentService.classifier self' = None
        /\ SentimentService.get_model_info (sentiment_env true) self'
           = SentimentService.status_not_loaded
        /\ SentimentService.unload_model self' = (Py.Ok tt, self')).
Proof.
  destruct unload_model_not_loaded as [HW HS]. split.
  - apply HW.
    apply (whisper_next _ (whisper_load (whisper_env true) false)).
    apply whisper_new.
  - apply HS.
    apply (sentiment_next _ (sentiment_load (sentiment_env true) false)).
    apply sentiment_new.
Defined.

(** A [load_model] that returns leaves a service on which every later
    [load_model] without [force_reload] returns at once and changes
    nothing, whatever the libraries would do. *)
Theorem load_model_once :
  (forall env force_reload self self',
     WhisperService.load_model env force_reload self = (Py.Ok tt, self') ->
     WhisperService._model_loaded self' = true
     /\ forall env',
          WhisperService.load_model env' false self' = (Py.Ok tt, self'))
  /\ (forall env force_reload self self',
        SentimentService.load_model env force_reload self = (Py.Ok tt, self') ->
        SentimentService._model_loaded self' = true
        /\ forall env',
             SentimentService.load_model env' false self' = (Py.Ok tt, self')).
Proof.
  split.
  - intros env force_reload self self' H.
    assert (Hl : WhisperService._model_loaded self' = true).
    { revert H. unfold WhisperService.load_model. run_service.
      destruct (WhisperService._model_loaded self && negb force_reload) eqn:E.
      - intros [= <-]. by apply andb_true_iff in E as [? _].
      - destruct (String.eqb (WhisperService.device self) "auto"); simpl;
          destruct (WhisperService.whisper_load_model env _); simpl;
          try discriminate; by intros [= <-]. }
    split; [exact Hl|]. intros env'.
    unfold WhisperService.load_model. run_service. by rewrite Hl.
  - intros env force_reload self self' H.
    assert (Hl : SentimentService._model_loaded self' = true).
    { revert H. unfold SentimentService.load_model. run_service.
      destruct (SentimentService._model_loaded self && negb force_reload)
        eqn:E.
      - intros [= <-]. by apply andb_true_iff in E as [? _].
      - destruct (String.eqb (SentimentService.device self) "auto"); simpl;
          (destruct (SentimentService.tokenizer_from_pretrained env _);
           simpl; [|discriminate]);
          (destruct (SentimentService.model_from_pretrained env _) as [m|];
           simpl; [|discriminate]);
          (destruct (SentimentService.model_to env m _); simpl;
           [|discriminate]);
          (destruct (SentimentService.pipeline env m _ _); simpl;
           [|discriminate]); by intros [= <-]. }
    split; [exact Hl|]. intros env'.
    unfold SentimentService.load_model. run_service. by rewrite Hl.
Qed.

(** The loaded services, asked to load where no model can be fetched. *)
Lemma load_model_once_witness :
  WhisperService.load_model (whisper_env false) false whisper_loaded
  = (Py.Ok tt, whisper_loaded)
  /\ SentimentService.load_model (sentiment_env false) false sentiment_loaded
     = (Py.Ok tt, sentiment_loaded).
Proof.
  destruct load_model_once as [HW HS]. split.
  - apply (HW (whisper_env true) false
             (WhisperService.__init__ (whisper_env true) None)).
    reflexivity.
  - apply (HS (sentiment_env true) false
             (SentimentService.__init__ (sentiment_env true) None)).
    reflexivity.
Defined.

(** ** The device of a service *)

Lemma resolved_device_not_auto (cuda : bool) (device : string) :
  String.eqb (resolved_device cuda device) "auto" = false.
Proof.
  unfold resolved_device.
  destruct (String.eqb device "auto") eqn:E; [by destruct cuda|exact E].
Qed.

Lemma whisper_load_device (env : WhisperService.Env) (force_reload : bool)
    (self : WhisperService.t) :
  WhisperService.device
    (snd (WhisperService.load_model env force_reload self))
  = if WhisperService._model_loaded self && negb force_reload
    then WhisperService.device self
    else resolved_device (WhisperService.cuda_is_available env)
           (WhisperService.device self).
Proof.
  unfold WhisperService.load_model, resolved_device. run_service.
  destruct (WhisperService._model_loaded self && negb force_reload);
    [reflexivity|].
  destruct (String.eqb (WhisperService.device self) "auto"); simpl;
    by destruct (WhisperService.whisper_load_model env _).
Qed.

Lemma sentiment_load_device (env : SentimentService.Env)
    (force_reload : bool) (self : SentimentService.t) :
  SentimentService.device
    (snd (SentimentService.load_model env force_reload self))
  = if SentimentService._model_loaded self && negb force_reload
    then SentimentService.device self
    else resolved_device (SentimentService.cuda_is_available env)
           (SentimentService.device self).
Proof.
  unfold SentimentService.load_model, resolved_device. run_service.
  destruct (SentimentService._model_loaded self && negb force_reload);
    [reflexivity|].
  destruct (String.eqb (SentimentService.device self) "auto"); simpl;
    (destruct (SentimentService.tokenizer_from_pretrained env _); simpl;
     [|reflexivity]);
    (destruct (SentimentService.model_from_pretrained env _) as [m|];
     simpl; [|reflexivity]);
    (destruct (SentimentService.model_to env m _); simpl; [|reflexivity]);
    by destruct (SentimentService.pipeline env m _ _).
Qed.

(** A [load_model] that gets past its first test settles the device,
    also when the load then fails: [auto] becomes [cuda] or [cpu] by
    what is available at that moment, another name stays, and no later
    [load_model] changes the device again, whatever is available
    then. *)
Theorem load_model_settles_device :
  (forall env env' force_reload force_reload' self,
     WhisperService._model_loaded self && negb force_reload = false ->
     let self1 := snd (WhisperService.load_model env force_reload self) in
     WhisperService.device self1
     = resolved_device (WhisperService.cuda_is_available env)
         (WhisperService.device self)
     /\ WhisperService.device self1 <> "auto"
     /\ WhisperService.device
          (snd (WhisperService.load_model env' force_reload' self1))
        = WhisperService.device self1)
  /\ (forall env env' force_reload force_reload' self,
        SentimentService._model_loaded self && negb force_reload = false ->
        let self1 := snd (SentimentService.load_model env force_reload self) in
        SentimentService.device self1
        = resolved_device (SentimentService.cuda_is_available env)
            (SentimentService.device self)
        /\ SentimentService.device self1 <> "auto"
        /\ SentimentService.device
             (snd (SentimentService.load_model env' force_reload' self1))
           = SentimentService.device self1).
Proof.
  split; intros env env' force_reload force_reload' self H self1.
  - assert (H1 : WhisperService.device self1
                 = resolved_device (WhisperService.cuda_is_available env)
                     (WhisperService.device self)).
    { unfold self1. by rewrite whisper_load_device, H. }
    split_and!; [exact H1| |].
    + rewrite H1. apply String.eqb_neq, resolved_device_not_auto.
    + rewrite whisper_load_device.
      destruct (WhisperService._model_loaded self1 && negb force_reload');
        [reflexivity|].
      unfold resolved_device at 1.
      by rewrite H1, resolved_device_not_auto.
  - assert (H1 : SentimentService.device self1
                 = resolved_device (SentimentService.cuda_is_available env)
                     (SentimentService.device self)).
    { unfold self1. by rewrite sentiment_load_device, H. }
    split_and!; [exact H1| |].
    + rewrite H1. apply String.eqb_neq, resolved_device_not_auto.
    + rewrite sentiment_load_device.
      destruct (SentimentService._model_loaded self1 && negb force_reload');
        [reflexivity|].
      unfold resolved_device at 1.
      by rewrite H1, resolved_device_not_auto.
Qed.

(** A failed first load on a machine without CUDA leaves the device
    [cpu]. *)
Lemma load_model_settles_device_witness :
  WhisperService.device
    (snd (WhisperService.load_model (whisper_env false) false
            (WhisperService.__init__ (whisper_env false) None)))
  = "cpu"
  /\ SentimentService.device
       (snd (SentimentService.load_model (sentiment_env false) false
               (SentimentService.__init__ (sentiment_env false) None)))
     = "cpu".
Proof.
  destruct load_model_settles_device as [HW HS]. split.
  - apply (HW (whisper_env false) (whisper_env false) false false
             (WhisperService.__init__ (whisper_env false) None) eq_refl).
  - apply (HS (sentiment_env false) (sentiment_env false) false false
             (SentimentService.__init__ (sentiment_env false) None) eq_refl).
Defined.

(** ** The dominant emotion *)

Section Dominant.

Import SentimentService.

Lemma keys_of_complete (rs : list raw) :
  Forall complete rs ->
  keys_of rs = Py.Ok (List.map (fun r => (score_of r, r)) rs).
Proof.
  induction 1 as [|r rs [_ [v Hv]] _ IH]; [reflexivity|].
  simpl. unfold item_score, score_of. rewrite Hv, IH. reflexivity.
Qed.

Lemma insert_desc_perm (x : Q * raw) (l : list (Q * raw)) :
  insert_desc x l ≡ₚ x :: l.
Proof.
  induction l as [|y l IH]; [reflexivity|].
  simpl. destruct (Qlt_le_dec _ _); [|reflexivity].
  rewrite IH. apply Permutation_swap.
Qed.

Lemma sort_desc_perm (ks : list (Q * raw)) :
  List.fold_right insert_desc [] ks ≡ₚ ks.
Proof.
  induction ks as [|k ks IH]; [reflexivity|].
  simpl. rewrite insert_desc_perm. by rewrite IH.
Qed.

(** Sorting keeps the dictionaries of the answer. *)
Lemma sorted_by_score_perm (rs : list raw) :
  Forall complete rs ->
  exists rs', sorted_by_score rs = Py.Ok rs' /\ rs' ≡ₚ rs.
Proof.
  intros H. unfold sorted_by_score. rewrite (keys_of_complete rs H). simpl.
  eexists. split; [reflexivity|].
  change (@List.map (Q * raw) raw) with (@fmap list _ (Q * raw) raw).
  rewrite sort_desc_perm.
  change (@List.map raw (Q * raw)) with (@fmap list _ raw (Q * raw)).
  rewrite <- list_fmap_compose. simpl.
  rewrite <- (list_fmap_id rs) at 2. reflexivity.
Qed.

Lemma dict_set_new (d : dict) (k : string) (v : Q) :
  k ∉ d.*1 -> dict_set d k v = d ++ [(k, v)].
Proof.
  induction d as [|[k' v'] d IH]; intros Hk; [reflexivity|].
  simpl. destruct (String.eqb_spec k' k) as [->|Hne].
  - exfalso. apply Hk. by left.
  - rewrite IH; [reflexivity|]. intros Hin. apply Hk. by right.
Qed.

(** With distinct labels, the comprehension keeps one entry per
    dictionary, in their order. *)
Lemma scores_of_distinct (rs : list raw) (d : dict) :
  Forall complete rs ->
  NoDup (d.*1 ++ (entry_of <$> rs).*1) ->
  scores_of rs d = Py.Ok (d ++ (entry_of <$> rs)).
Proof.
  revert d. induction rs as [|r rs IH]; intros d Hc Hnd.
  - simpl. by rewrite app_nil_r.
  - inversion Hc as [|? ? [[k Hk] [v Hv]] Hc']; subst.
    simpl. unfold item_label, item_score. rewrite Hk, Hv. simpl.
    assert (He : entry_of r = (k, v)).
    { unfold entry_of, score_of. by rewrite Hk, Hv. }
    rewrite !fmap_cons, He in Hnd. simpl in Hnd. rewrite He.
    change (list_fmap raw (string * Q)%type entry_of rs)
      with (entry_of <$> rs).
    apply NoDup_app in Hnd as (Hd & Hdis & Hrs).
    apply NoDup_cons in Hrs as [Hk' Hrs].
    rewrite dict_set_new by (intros Hin; apply (Hdis k Hin); by left).
    rewrite IH; [by rewrite <- app_assoc|exact Hc'|].
    rewrite fmap_app. simpl. apply NoDup_app. split_and!.
    + apply NoDup_app. split_and!; [exact Hd| |apply NoDup_singleton].
      intros x Hx ->%list_elem_of_singleton. apply (Hdis k Hx). by left.
    + intros x [Hx| ->%list_elem_of_singleton]%elem_of_app Hin.
      * apply (Hdis x Hx). by right.
      * by apply Hk'.
    + exact Hrs.
Qed.

(** [max] returns an entry of the dictionary whose value no other entry
    exceeds. *)
Lemma dict_max_spec (d : dict) (best : string * Q) :
  dict_max d best ∈ best :: d
  /\ (snd best <= snd (dict_max d best))%Q
  /\ (forall x, x ∈ d -> (snd x <= snd (dict_max d best))%Q).
Proof.
  revert best. induction d as [|[k v] d IH]; intros best.
  - simpl. split_and!; [by left|apply Qle_refl|].
    intros x Hx. by apply elem_of_nil in Hx.
  - simpl. destruct (Qlt_le_dec (snd best) v) as [Hlt|Hle].
    + destruct (IH (k, v)) as (Hin & Hb & Hall). split_and!.
      * right. exact Hin.
      * apply Qle_trans with v; [by apply Qlt_le_weak|exact Hb].
      * intros x [->|Hx]%elem_of_cons; [exact Hb|by apply Hall].
    + destruct (IH best) as (Hin & Hb & Hall). split_and!.
      * apply elem_of_cons in Hin as [->|Hin]; [by left|by do 2 right].
      * exact Hb.
      * intros x [->|Hx]%elem_of_cons; [|by apply Hall].
        simpl. by apply Qle_trans with (snd best).
Qed.

Lemma entry_labels (rs : list raw) :
  Forall complete rs ->
  Some <$> (entry_of <$> rs).*1 = raw_label <$> rs.
Proof.
  induction 1 as [|r rs [[k Hk] _] _ IH]; [reflexivity|].
  rewrite !fmap_cons, IH. unfold entry_of at 1. simpl. by rewrite Hk.
Qed.

(** The scores that [analyze] extracts from a non-empty answer whose
    dictionaries are complete and carry distinct labels. *)
Lemma extract_scores_distinct (out : output) (rs : list raw) :
  answer_of out = Some rs ->
  rs <> [] ->
  Forall complete rs ->
  NoDup (raw_label <$> rs) ->
  exists rs', extract_scores out = Py.Ok (entry_of <$> rs')
              /\ rs' ≡ₚ rs.
Proof.
  intros Hout Hne Hc Hnd.
  destruct (sorted_by_score_perm rs Hc) as (rs' & Hs & Hp).
  exists rs'. split; [|exact Hp].
  assert (Hc' : Forall complete rs') by (by rewrite Hp).
  assert (Hsc : scores_of rs' [] = Py.Ok (entry_of <$> rs')).
  { rewrite scores_of_distinct; [reflexivity|exact Hc'|]. simpl.
    apply (NoDup_fmap (@Some string)).
    rewrite (entry_labels rs' Hc'). by rewrite Hp. }
  destruct rs as [|first rest]; [done|].
  inversion Hc as [|? ? [_ [v Hv]] _]; subst.
  destruct out as [l|[|l ?]]; simpl in Hout; try discriminate;
    injection Hout as ->; unfold extract_scores; rewrite Hv, Hs; exact Hsc.
Qed.

End Dominant.

(** With the model loaded (or loaded by the call), a text that is not
    blank and an answer of complete dictionaries with distinct labels,
    [analyze] returns the highest score of the answer and the label
    that [EMOTION_MAPPING] gives to the raw label carrying it, neutral
    when the mapping lacks it; the service is as the load left it. *)
Theorem analyze_dominant (env : SentimentService.Env)
    (self self' : SentimentService.t) (text : string)
    (return_all_scores : bool) (c : SentimentService.Classifier)
    (out : SentimentService.output) (rs : list SentimentService.raw) :
  ensure_loaded env self = (Py.Ok tt, self') ->
  whitespace_only text = false ->
  SentimentService.classifier self' = Some c ->
  c text = Py.Ok out ->
  answer_of out = Some rs ->
  rs <> [] ->
  Forall complete rs ->
  NoDup (SentimentService.raw_label <$> rs) ->
  exists r k v,
    r ∈ rs
    /\ SentimentService.raw_label r = Some k
    /\ SentimentService.raw_score r = Some v
    /\ (forall r' v',
          r' ∈ rs -> SentimentService.raw_score r' = Some v' -> (v' <= v)%Q)
    /\ SentimentService.analyze env text return_all_scores self
       = (Py.Ok {| SentimentService.label := SentimentService.map_label k;
                   SentimentService.score := v |}, self').
Proof.
  intros Hload Hb Hcl Hans Hout Hne Hc Hnd.
  destruct (extract_scores_distinct out rs Hout Hne Hc Hnd)
    as (rs' & Hex & Hp).
  rewrite <- is_blank_whitespace_only in Hb.
  unfold SentimentService.analyze.
  unfold Eff.bind at 1. unfold Eff.get.
  unfold Eff.bind at 1. rewrite ensure_loaded_eq, Hload, Hb.
  unfold SentimentService.call_classifier. run_service.
  rewrite Hcl, Hans, Hex.
  destruct rs' as [|first rest].
  { apply Permutation_nil_l in Hp. by subst. }
  simpl.
  destruct (dict_max_spec (entry_of <$> rest) (entry_of first))
    as (Hin & Hbest & Hall).
  destruct (SentimentService.dict_max _ _) as [k v] eqn:Hmax.
  rewrite <- fmap_cons in Hin.
  apply list_elem_of_fmap in Hin as (r & Hr & Hrin).
  assert (Hcr : complete r).
  { rewrite <- Hp in Hc. by apply (proj1 (Forall_forall _ _) Hc). }
  destruct Hcr as [[k' Hk'] [v' Hv']].
  unfold entry_of, score_of in Hr. rewrite Hk', Hv' in Hr. simpl in Hr.
  injection Hr as -> ->.
  exists r, k', v'. split_and!; try done.
  - by rewrite <- Hp.
  - intros r' x Hr' Hx. rewrite <- Hp in Hr'.
    apply elem_of_cons in Hr' as [->|Hr'].
    + unfold entry_of, score_of in Hbest. simpl in Hbest.
      by rewrite Hx in Hbest.
    + assert (Hin' : entry_of r' ∈ entry_of <$> rest).
      { apply list_elem_of_fmap. by exists r'. }
      specialize (Hall _ Hin').
      unfold entry_of, score_of in Hall. simpl in Hall.
      by rewrite Hx in Hall.
Qed.

(** On the answer with joy at 0.9 and disgust at 0.1. *)
Lemma analyze_dominant_witness :
  exists r k v,
    r ∈ joy_and_disgust
    /\ SentimentService.raw_label r = Some k
    /\ SentimentService.raw_score r = Some v
    /\ (forall r' v',
          r' ∈ joy_and_disgust ->
          SentimentService.raw_score r' = Some v' -> (v' <= v)%Q)
    /\ SentimentService.analyze (sentiment_env true) "I am happy" true
         sentiment_loaded
       = (Py.Ok {| SentimentService.label := SentimentService.map_label k;
                   SentimentService.score := v |}, sentiment_loaded).
Proof.
  apply (analyze_dominant (sentiment_env true) sentiment_loaded
           sentiment_loaded "I am happy" true
           (fun _ => Py.Ok (SentimentService.Nested [joy_and_disgust]))
           (SentimentService.Nested [joy_and_disgust]));
    try reflexivity; try done.
  - repeat constructor; by eexists.
  - apply (bool_decide_unpack _). vm_compute. exact I.
Defined.



(** ** What the analysis raises *)

(** Neither entry point changes the service beyond the load that it
    makes first.  [analyze] raises the [ValueError] for a blank text
    and nothing else but a [RuntimeError]: the one of the failed load,
    or one that wraps what the classification raised.
    [analyze_with_all_scores] raises nothing but a [RuntimeError]. *)
Theorem analysis_errors (env : SentimentService.Env)
    (self : SentimentService.t) (text : string) (return_all_scores : bool) :
  snd (SentimentService.analyze env text return_all_scores self)
  = snd (ensure_loaded env self)
  /\ snd (SentimentService.analyze_with_all_scores env text self)
     = snd (ensure_loaded env self)
  /\ match fst (SentimentService.analyze env text return_all_scores self) with
     | Py.Ok _ =>
         fst (ensure_loaded env self) = Py.Ok tt
         /\ whitespace_only text = false
     | Py.Raise e =>
         (fst (ensure_loaded env self) = Py.Raise e
          /\ Py.exn_class_of e = Py.RuntimeError)
         \/ (fst (ensure_loaded env self) = Py.Ok tt
             /\ whitespace_only text = true
             /\ e = Py.Exn Py.ValueError "Input text cannot be empty")
         \/ (fst (ensure_loaded env self) = Py.Ok tt
             /\ whitespace_only text = false
             /\ exists cause,
                  e = Py.Exn Py.RuntimeError
                        ("Sentiment analysis error: " +:+ cause))
     end
  /\ match fst (SentimentService.analyze_with_all_scores env text self) with
     | Py.Ok _ => fst (ensure_loaded env self) = Py.Ok tt
     | Py.Raise e => Py.exn_class_of e = Py.RuntimeError
     end.
Proof.
  assert (Hc : forall e self',
             ensure_loaded env self = (Py.Raise e, self') ->
             Py.exn_class_of e = Py.RuntimeError).
  { intros e self' Hload. unfold ensure_loaded in Hload.
    destruct (negb (SentimentService._model_loaded self)); [|discriminate].
    by destruct (sentiment_load_failure _ _ _ _ _ Hload). }
  split_and!;
    unfold SentimentService.analyze, SentimentService.analyze_with_all_scores;
    unfold Eff.bind at 1; unfold Eff.get;
    unfold Eff.bind at 1; rewrite ensure_loaded_eq;
    rewrite is_blank_whitespace_only;
    destruct (ensure_loaded env self) as [[[]|e] self'] eqn:Hload;
    try reflexivity;
    try (simpl; by eauto);
    destruct (whitespace_only text) eqn:Hb;
    try reflexivity;
    try (simpl; by eauto);
    unfold SentimentService.call_classifier; run_service;
    (destruct (SentimentService.classifier self') as [c|]; simpl;
     [destruct (c text) as [out|e]; simpl|]);
    try reflexivity; try (do 2 right; by eauto).
  - destruct (SentimentService.extract_scores out) as [d|e]; [|done].
    destruct d as [|? ?]; [done|].
    by destruct (SentimentService.dict_max _ _).
  - by destruct (SentimentService.first_of out).
  - destruct (SentimentService.extract_scores out) as [d|e]; simpl.
    + destruct d as [|? ?]; [done|].
      by destruct (SentimentService.dict_max _ _).
    + do 2 right. by eauto.
  - by destruct (SentimentService.first_of out).
Qed.

(** [analyze_complete] returns nothing for a blank text: it raises what
    [analyze] raises, the error of a failed load or else the
    [ValueError], and never the all-zero distribution. *)
Theorem analyze_complete_blank (env : SentimentService.Env)
    (self : SentimentService.t) (text : string) :
  whitespace_only text = true ->
  SentimentService.analyze_complete env text self
  = match ensure_loaded env self with
    | (Py.Ok _, self') =>
        (Py.Raise (Py.Exn Py.ValueError "Input text cannot be empty"), self')
    | (Py.Raise e, self') => (Py.Raise e, self')
    end.
Proof.
  intros Hb. rewrite <- is_blank_whitespace_only in Hb.
  unfold SentimentService.analyze_complete, SentimentService.analyze.
  unfold Eff.bind at 1 2. unfold Eff.get.
  unfold Eff.bind at 1. rewrite ensure_loaded_eq, Hb.
  by destruct (ensure_loaded env self) as [[[]|e] self'].
Qed.

(** On the loaded service and a text of one space. *)
Lemma analyze_complete_blank_witness :
  SentimentService.analyze_complete (sentiment_env true) " " sentiment_loaded
  = (Py.Raise (Py.Exn Py.ValueError "Input text cannot be empty"),
     sentiment_loaded).
Proof.
  exact (analyze_complete_blank (sentiment_env true) sentiment_loaded " "
           eq_refl).
Defined.

(** ** A flat answer of the classifier *)

Lemma ensure_loaded_ok (env : SentimentService.Env)
    (self self' : SentimentService.t) :
  ensure_loaded env self = (Py.Ok tt, self') ->
  SentimentService._model_loaded self' = true.
Proof.
  unfold ensure_loaded.
  destruct (SentimentService._model_loaded self) eqn:El; simpl.
  - by intros [= <-].
  - unfold SentimentService.load_model. run_service. rewrite El. simpl.
    destruct (String.eqb (SentimentService.device self) "auto"); simpl;
      (destruct (SentimentService.tokenizer_from_pretrained env _);
       simpl; [|discriminate]);
      (destruct (SentimentService.model_from_pretrained env _) as [m|];
       simpl; [|discriminate]);
      (destruct (SentimentService.model_to env m _); simpl;
       [|discriminate]);
      (destruct (SentimentService.pipeline env m _ _); simpl;
       [|discriminate]); by intros [= <-].
Qed.

(** When the classifier answers with a flat list of dictionaries, the
    form that [analyze] accepts, [analyze_with_all_scores] takes the
    first dictionary for the list of results and raises a
    [RuntimeError]; so [analyze_complete] raises a [RuntimeError] on
    every such answer, whatever [analyze] makes of it. *)
Theorem flat_answer_fails (env : SentimentService.Env)
    (self self' : SentimentService.t) (text : string)
    (c : SentimentService.Classifier)
    (first : SentimentService.raw) (rest : list SentimentService.raw) :
  ensure_loaded env self = (Py.Ok tt, self') ->
  whitespace_only text = false ->
  SentimentService.classifier self' = Some c ->
  c text = Py.Ok (SentimentService.Flat (first :: rest)) ->
  is_Some (SentimentService.raw_label first)
  \/ is_Some (SentimentService.raw_score first) ->
  SentimentService.analyze_with_all_scores env text self
  = (Py.Raise
       (Py.Exn Py.RuntimeError
          ("Full sentiment analysis error: "
           +:+ "'str' object has no attribute 'get'")), self')
  /\ exists e,
       SentimentService.analyze_complete env text self = (Py.Raise e, self')
       /\ Py.exn_class_of e = Py.RuntimeError.
Proof.
  intros Hload Hb Hcl Hans Hkey.
  pose proof (ensure_loaded_ok env self self' Hload) as Hl.
  rewrite <- is_blank_whitespace_only in Hb.
  assert (Hfirst : SentimentService.first_of
                     (SentimentService.Flat (first :: rest))
                   = Py.Raise (Py.Exn Py.OtherException
                                 "'str' object has no attribute 'get'")).
  { simpl. destruct Hkey as [[k Hk]|[v Hv]]; rewrite ?Hk, ?Hv; [done|].
    by destruct (SentimentService.raw_label first). }
  assert (Hall : forall s s1,
             ensure_loaded env s = (Py.Ok tt, s1) ->
             SentimentService.classifier s1 = Some c ->
             SentimentService.analyze_with_all_scores env text s
             = (Py.Raise
                  (Py.Exn Py.RuntimeError
                     ("Full sentiment analysis error: "
                      +:+ "'str' object has no attribute 'get'")), s1)).
  { intros s s1 Hs Hc1. unfold SentimentService.analyze_with_all_scores.
    unfold Eff.bind at 1. unfold Eff.get.
    unfold Eff.bind at 1. rewrite ensure_loaded_eq, Hs, Hb.
    unfold SentimentService.call_classifier. run_service.
    by rewrite Hc1, Hans, Hfirst. }
  split; [by apply Hall|].
  assert (Hself' : ensure_loaded env self' = (Py.Ok tt, self')).
  { unfold ensure_loaded. by rewrite Hl. }
  unfold SentimentService.analyze_complete.
  unfold Eff.bind at 1.
  destruct (SentimentService.analyze env text true self) as [[r|e] s1] eqn:Ha.
  - assert (Hs1 : s1 = self').
    { revert Ha. unfold SentimentService.analyze.
      unfold Eff.bind at 1. unfold Eff.get.
      unfold Eff.bind at 1. rewrite ensure_loaded_eq, Hload, Hb.
      unfold SentimentService.call_classifier. run_service.
      rewrite Hcl, Hans.
      destruct (SentimentService.extract_scores _) as [d|e]; simpl;
        [|discriminate].
      destruct d as [|? ?]; [by intros [= _ <-]|].
      destruct (SentimentService.dict_max _ _). by intros [= _ <-]. }
    subst s1. unfold Eff.bind. rewrite (Hall self' self' Hself' Hcl).
    by eexists.
  - revert Ha. unfold SentimentService.analyze.
    unfold Eff.bind at 1. unfold Eff.get.
    unfold Eff.bind at 1. rewrite ensure_loaded_eq, Hload, Hb.
    unfold SentimentService.call_classifier. run_service.
    rewrite Hcl, Hans.
    destruct (SentimentService.extract_scores _) as [d|e']; simpl.
    + destruct d as [|? ?]; [discriminate|].
      by destruct (SentimentService.dict_max _ _).
    + intros [= <- <-]. by eexists.
Qed.

(** On the answer [[{label: joy, score: 0.9}, {label: disgust,
    score: 0.1}]], not nested. *)
Lemma flat_answer_fails_witness :
  SentimentService.analyze_with_all_scores (sentiment_env true) "I am happy"
    (answering (SentimentService.Flat joy_and_disgust))
  = (Py.Raise
       (Py.Exn Py.RuntimeError
          ("Full sentiment analysis error: "
           +:+ "'str' object has no attribute 'get'")),
     answering (SentimentService.Flat joy_and_disgust))
  /\ exists e,
       SentimentService.analyze_complete (sentiment_env true) "I am happy"
         (answering (SentimentService.Flat joy_and_disgust))
       = (Py.Raise e, answering (SentimentService.Flat joy_and_disgust))
       /\ Py.exn_class_of e = Py.RuntimeError.
Proof.
  apply (flat_answer_fails (sentiment_env true) _ _ "I am happy"
           (fun _ => Py.Ok (SentimentService.Flat joy_and_disgust))
           {| SentimentService.raw_label := Some "joy";
              SentimentService.raw_score := Some (9 # 10) |}
           [{| SentimentService.raw_label := Some "disgust";
               SentimentService.raw_score := Some (1 # 10) |}]);
    try reflexivity.
  left. by eexists.
Defined.

(** ** Transcription *)

Lemma rstrip_idempotent (s : string) : Str.rstrip (Str.rstrip s) = Str.rstrip s.
Proof.
  induction s as [|c s IH]; [reflexivity|].
  simpl. destruct (Str.rstrip s) as [|a r] eqn:E.
  - destruct (Str.isspace c) eqn:Ec; [reflexivity|]. simpl. by rewrite Ec.
  - change (Str.rstrip (String c (String a r))) with
      (match Str.rstrip (String a r) with
       | EmptyString =>
           if Str.isspace c then EmptyString else String c EmptyString
       | r' => String c r'
       end).
    by rewrite IH.
Qed.

Lemma rstrip_head (c : ascii) (s : string) :
  Str.isspace c = false ->
  exists r, Str.rstrip (String c s) = String c r.
Proof.
  intros Hc. simpl. destruct (Str.rstrip s); rewrite ?Hc; by eexists.
Qed.

Lemma lstrip_head (s : string) :
  match Str.lstrip s with
  | EmptyString => True
  | String c _ => Str.isspace c = false
  end.
Proof.
  induction s as [|c s IH]; [exact I|].
  simpl. destruct (Str.isspace c) eqn:E; [exact IH|exact E].
Qed.

(** A stripped text has no white space left to strip. *)
Lemma strip_idempotent (s : string) : Str.strip (Str.strip s) = Str.strip s.
Proof.
  unfold Str.strip. pose proof (lstrip_head s) as H.
  destruct (Str.lstrip s) as [|c t]; [reflexivity|].
  destruct (rstrip_head c t H) as [r Hr].
  assert (Hl : Str.lstrip (Str.rstrip (String c t))
               = Str.rstrip (String c t)).
  { rewrite Hr. simpl. by rewrite H. }
  rewrite Hl. apply rstrip_idempotent.
Qed.

Lemma whisper_ensure_loaded_eq (env : WhisperService.Env)
    (s : Transcription.state) :
  (if negb (WhisperService._model_loaded (Transcription.service s))
   then Transcription.on_service (WhisperService.load_model env false)
   else Eff.ret tt) s
  = (fst (whisper_ensure_loaded env (Transcription.service s)),
     {| Transcription.service :=
          snd (whisper_ensure_loaded env (Transcription.service s));
        Transcription.files := Transcription.files s |}).
Proof.
  unfold whisper_ensure_loaded, Transcription.on_service.
  destruct (negb (WhisperService._model_loaded (Transcription.service s))).
  - by destruct (WhisperService.load_model env false _).
  - by destruct s.
Qed.

Lemma whisper_ensure_loaded_ok (env : WhisperService.Env)
    (self self' : WhisperService.t) :
  whisper_ensure_loaded env self = (Py.Ok tt, self') ->
  WhisperService._model_loaded self' = true.
Proof.
  unfold whisper_ensure_loaded.
  destruct (WhisperService._model_loaded self) eqn:El; simpl.
  - by intros [= <-].
  - unfold WhisperService.load_model. run_service. rewrite El. simpl.
    destruct (String.eqb (WhisperService.device self) "auto"); simpl;
      destruct (WhisperService.whisper_load_model env _); simpl;
      try discriminate; by intros [= <-].
Qed.

Lemma whisper_ensure_loaded_raise (env : WhisperService.Env)
    (self self' : WhisperService.t) (e : Py.exn) :
  whisper_ensure_loaded env self = (Py.Raise e, self') ->
  Py.exn_class_of e = Py.RuntimeError.
Proof.
  unfold whisper_ensure_loaded.
  destruct (negb (WhisperService._model_loaded self)); [|discriminate].
  intros H. by destruct (whisper_load_failure _ _ _ _ _ H).
Qed.

(** [transcribe] leaves the files as they are, and the service as the
    first load leaves it. *)
Lemma transcribe_state (env : Transcription.Env) (audio_path : string)
    (language : option string) (verbose : bool) (s : Transcription.state) :
  snd (Transcription.transcribe env audio_path language verbose s)
  = {| Transcription.service :=
         snd (whisper_ensure_loaded (Transcription.whisper env)
                (Transcription.service s));
       Transcription.files := Transcription.files s |}.
Proof.
  unfold Transcription.transcribe.
  unfold Eff.bind at 1. unfold Eff.get at 1.
  unfold Eff.bind at 1. rewrite whisper_ensure_loaded_eq.
  destruct (whisper_ensure_loaded _ _) as [[[]|e] self']; [|reflexivity].
  simpl. run_service. simpl.
  destruct (bool_decide _); simpl; [|reflexivity].
  destruct (WhisperService.model self') as [m|]; simpl; [|reflexivity].
  by destruct (Transcription.model_transcribe env m _ _ _).
Qed.

(** [transcribe] makes the load first and tests the path next: a path
    that does not exist is reported by a [FileNotFoundError], which is
    not wrapped into a [RuntimeError], once the model is loaded, and
    by the error of the load when the load fails. *)
Theorem transcribe_missing_file (env : Transcription.Env)
    (audio_path : string) (language : option string) (verbose : bool)
    (s : Transcription.state) :
  audio_path ∉ Transcription.files s ->
  Transcription.transcribe env audio_path language verbose s
  = match whisper_ensure_loaded (Transcription.whisper env)
            (Transcription.service s) with
    | (Py.Ok _, self') =>
        (Py.Raise (Py.Exn Py.FileNotFoundError
                     ("Audio file not found: " +:+ audio_path)),
         {| Transcription.service := self';
            Transcription.files := Transcription.files s |})
    | (Py.Raise e, self') =>
        (Py.Raise e,
         {| Transcription.service := self';
            Transcription.files := Transcription.files s |})
    end.
Proof.
  intros Hin. unfold Transcription.transcribe.
  unfold Eff.bind at 1. unfold Eff.get at 1.
  unfold Eff.bind at 1. rewrite whisper_ensure_loaded_eq.
  destruct (whisper_ensure_loaded _ _) as [[[]|e'] self']; [|reflexivity].
  simpl. run_service. simpl.
  by rewrite bool_decide_eq_false_2.
Qed.

(** On a loaded service and a path that does not exist. *)
Lemma transcribe_missing_file_witness :
  Transcription.transcribe (transcription_env true) "absent.wav" None false
    studio
  = (Py.Raise (Py.Exn Py.FileNotFoundError
                 "Audio file not found: absent.wav"), studio).
Proof.
  apply (transcribe_missing_file (transcription_env true) "absent.wav" None
           false studio).
  apply (bool_decide_unpack _). vm_compute. exact I.
Defined.

(** On a loaded service and an existing file, what the model returns
    becomes the result: the text without the white space around it,
    the language of the model, else the language asked for, else
    [unknown], a confidence when the model reports log-probabilities,
    and the duration; what the model raises becomes a [RuntimeError]
    "Transcription error: ...".  Service and files stay as they are. *)
Theorem transcribe_result (env : Transcription.Env) (audio_path : string)
    (language : option string) (verbose : bool) (s : Transcription.state)
    (m : WhisperService.Whisper) :
  WhisperService._model_loaded (Transcription.service s) = true ->
  WhisperService.model (Transcription.service s) = Some m ->
  audio_path ∈ Transcription.files s ->
  match
    Transcription.model_transcribe env m audio_path verbose
      (Transcription.given language)
  with
  | Py.Ok r =>
      exists res,
        Transcription.transcribe env audio_path language verbose s
        = (Py.Ok res, s)
        /\ Transcription.text res
           = Str.strip (default EmptyString (Transcription.raw_text r))
        /\ Str.strip (Transcription.text res) = Transcription.text res
        /\ Transcription.language res
           = match Transcription.raw_language r,
                   Transcription.given language with
             | Some l, _ => l
             | None, Some l => l
             | None, None => "unknown"
             end
        /\ (is_Some (Transcription.confidence res)
            <-> is_Some (Transcription.raw_log_probs r))
        /\ Transcription.duration res = Transcription.raw_duration r
  | Py.Raise e =>
      Transcription.transcribe env audio_path language verbose s
      = (Py.Raise (Py.Exn Py.RuntimeError
                     ("Transcription error: " +:+ Py.str_of e)), s)
  end.
Proof.
  intros Hl Hm Hin.
  assert (Heq :
    Transcription.transcribe env audio_path language verbose s
    = match
        Transcription.model_transcribe env m audio_path verbose
          (Transcription.given language)
      with
      | Py.Ok r =>
          (Py.Ok
             {| Transcription.text :=
                  Str.strip (default EmptyString (Transcription.raw_text r));
                Transcription.language :=
                  default (default "unknown" (Transcription.given language))
                    (Transcription.raw_language r);
                Transcription.confidence :=
                  match Transcription.raw_log_probs r with
                  | Some log_probs =>
                      Some (Transcription.exp_mean env log_probs)
                  | None => None
                  end;
                Transcription.duration := Transcription.raw_duration r |},
           s)
      | Py.Raise e =>
          (Py.Raise (Py.Exn Py.RuntimeError
                       ("Transcription error: " +:+ Py.str_of e)), s)
      end).
  { unfold Transcription.transcribe.
    unfold Eff.bind at 1. unfold Eff.get at 1.
    unfold Eff.bind at 1. rewrite whisper_ensure_loaded_eq.
    unfold whisper_ensure_loaded. rewrite Hl. simpl.
    run_service. simpl. rewrite bool_decide_eq_true_2 by exact Hin.
    simpl. rewrite Hm.
    destruct (Transcription.model_transcribe env m _ _ _); by destruct s. }
  destruct (Transcription.model_transcribe env m _ _ _) as [r|e];
    [|exact Heq].
  eexists. split; [exact Heq|]. simpl. split_and!; try reflexivity.
  - apply strip_idempotent.
  - destruct (Transcription.raw_log_probs r); split; intros [? ?];
      by eauto.
Qed.

(** The model hears a sentence with spaces around it and reports no
    language; English was asked for. *)
Lemma transcribe_result_witness :
  exists res,
    Transcription.transcribe (transcription_env true) "talk.wav" (Some "en")
      false studio
    = (Py.Ok res, studio)
    /\ Transcription.text res = "hello world"
    /\ Str.strip (Transcription.text res) = Transcription.text res
    /\ Transcription.language res = "en"
    /\ (is_Some (Transcription.confidence res) <-> is_Some (@None (list Q)))
    /\ Transcription.duration res = Some (3 # 2).
Proof.
  apply (transcribe_result (transcription_env true) "talk.wav" (Some "en")
           false studio {| WhisperService.num_parameters := 71825920 |});
    first [reflexivity | apply (bool_decide_unpack _); vm_compute; exact I].
Defined.

(** [transcribe_numpy] leaves no file behind: whether the transcription
    returns or raises, the files are those that existed before the
    call, given that the staged file has a new name; the service is as
    the first load leaves it, and nothing but a [RuntimeError] is
    raised. *)
Theorem transcribe_numpy_cleans_up (env : Transcription.Env)
    (audio_data : AudioUtils.ndarray) (sample_rate : Z)
    (language : option string) (s : Transcription.state) :
  (forall name,
     Transcription.temporary_name env (Transcription.files s) = Py.Ok name ->
     name ∉ Transcription.files s) ->
  snd (Transcription.transcribe_numpy env audio_data sample_rate language s)
  = {| Transcription.service :=
         snd (whisper_ensure_loaded (Transcription.whisper env)
                (Transcription.service s));
       Transcription.files := Transcription.files s |}
  /\ match
       fst (Transcription.transcribe_numpy env audio_data sample_rate
              language s)
     with
     | Py.Ok _ => True
     | Py.Raise e => Py.exn_class_of e = Py.RuntimeError
     end.
Proof.
  intros Hfresh.
  destruct (Transcription.transcribe_numpy env audio_data sample_rate
              language s) as [r s'] eqn:H.
  simpl. revert H. unfold Transcription.transcribe_numpy.
  unfold Eff.bind at 1. unfold Eff.get at 1.
  unfold Eff.bind at 1. rewrite whisper_ensure_loaded_eq.
  destruct (whisper_ensure_loaded _ _) as [[[]|e] self'] eqn:Hload.
  2:{ simpl. intros [= <- <-]. split; [reflexivity|].
      by apply (whisper_ensure_loaded_raise _ _ _ _ Hload). }
  pose proof (whisper_ensure_loaded_ok _ _ _ Hload) as Hl.
  simpl fst. simpl snd.
  unfold Eff.try_except_Exception, Transcription.NamedTemporaryFile.
  unfold Eff.bind at 1. unfold Eff.bind at 1. unfold Eff.get at 1.
  unfold Eff.bind at 1. unfold Eff.call at 1. simpl Transcription.files.
  destruct (Transcription.temporary_name env (Transcription.files s))
    as [name|e] eqn:Hname; [|intros [= <- <-]; by split].
  specialize (Hfresh name eq_refl).
  unfold Eff.bind at 1. unfold Eff.modify at 1. unfold Eff.ret at 1.
  simpl.
  unfold Transcription.try_finally.
  unfold Eff.bind at 1. unfold Eff.call at 1.
  assert (Hrm : forall (self : WhisperService.t),
             Transcription.mk self
               (({[name]} ∪ Transcription.files s) ∖ {[name]})
             = Transcription.mk self (Transcription.files s)).
  { intros self. f_equal. apply set_eq. intros x.
    rewrite elem_of_difference, elem_of_union, elem_of_singleton.
    split; [by intros [[->|?] ?]|].
    intros Hx. split; [by right|]. by intros ->. }
  assert (Hin : name ∈ ({[name]} : gset string) ∪ Transcription.files s).
  { apply elem_of_union_l. by apply elem_of_singleton. }
  destruct (Transcription.wavfile_write env name sample_rate audio_data)
    as [[]|e].
  - unfold Eff.bind at 1.
    pose proof (transcribe_state env name language false
                  {| Transcription.service := self';
                     Transcription.files :=
                       {[name]} ∪ Transcription.files s |}) as Hst.
    destruct (Transcription.transcribe env name language false _)
      as [[res|e] s2] eqn:Ht; simpl in Hst; subst s2;
      unfold whisper_ensure_loaded; rewrite Hl; simpl;
      unfold Transcription.os_remove; run_service; simpl;
      rewrite bool_decide_eq_true_2 by exact Hin; simpl;
      rewrite Hrm; intros [= <- <-]; by split.
  - unfold Transcription.os_remove. run_service. simpl.
    rewrite bool_decide_eq_true_2 by exact Hin. simpl.
    rewrite Hrm. intros [= <- <-]. by split.
Qed.

(** With a model that fails on every file. *)
Lemma transcribe_numpy_cleans_up_witness :
  snd (Transcription.transcribe_numpy (transcription_env false)
         (AudioUtils.Array1 [1 # 2; 1 # 4]) 16000 None studio)
  = studio
  /\ match
       fst (Transcription.transcribe_numpy (transcription_env false)
              (AudioUtils.Array1 [1 # 2; 1 # 4]) 16000 None studio)
     with
     | Py.Ok _ => True
     | Py.Raise e => Py.exn_class_of e = Py.RuntimeError
     end.
Proof.
  apply (transcribe_numpy_cleans_up (transcription_env false)
           (AudioUtils.Array1 [1 # 2; 1 # 4]) 16000 None studio).
  intros name [= <-]. apply (bool_decide_unpack _). vm_compute. exact I.
Defined.

(** On a loaded service, [transcribe_numpy] stages the samples and
    hands the staged path to the model, without verbose output: a
    failure to write the samples becomes a [RuntimeError] "NumPy
    transcription error: ...", what the model raises is wrapped twice,
    and what the model returns becomes the result as in
    [transcribe]. *)
Theorem transcribe_numpy_delegates (env : Transcription.Env)
    (audio_data : AudioUtils.ndarray) (sample_rate : Z)
    (language : option string) (s : Transcription.state)
    (m : WhisperService.Whisper) (name : string) :
  WhisperService._model_loaded (Transcription.service s) = true ->
  WhisperService.model (Transcription.service s) = Some m ->
  Transcription.temporary_name env (Transcription.files s) = Py.Ok name ->
  fst (Transcription.transcribe_numpy env audio_data sample_rate language s)
  = match Transcription.wavfile_write env name sample_rate audio_data with
    | Py.Raise e =>
        Py.Raise (Py.Exn Py.RuntimeError
                    ("NumPy transcription error: " +:+ Py.str_of e))
    | Py.Ok _ =>
        match
          Transcription.model_transcribe env m name false
            (Transcription.given language)
        with
        | Py.Raise e =>
            Py.Raise
              (Py.Exn Py.RuntimeError
                 ("NumPy transcription error: "
                  +:+ ("Transcription error: " +:+ Py.str_of e)))
        | Py.Ok r =>
            Py.Ok
              {| Transcription.text :=
                   Str.strip (default EmptyString (Transcription.raw_text r));
                 Transcription.language :=
                   default (default "unknown" (Transcription.given language))
                     (Transcription.raw_language r);
                 Transcription.confidence :=
                   match Transcription.raw_log_probs r with
                   | Some log_probs =>
                       Some (Transcription.exp_mean env log_probs)
                   | None => None
                   end;
                 Transcription.duration := Transcription.raw_duration r |}
        end
    end.
Proof.
  intros Hl Hm Hname. unfold Transcription.transcribe_numpy.
  unfold Eff.bind at 1. unfold Eff.get at 1.
  unfold Eff.bind at 1. rewrite whisper_ensure_loaded_eq.
  unfold whisper_ensure_loaded. rewrite Hl. simpl fst. simpl snd.
  unfold Eff.try_except_Exception, Transcription.NamedTemporaryFile.
  unfold Eff.bind at 1. unfold Eff.bind at 1. unfold Eff.get at 1.
  unfold Eff.bind at 1. unfold Eff.call at 1. simpl Transcription.files.
  rewrite Hname.
  unfold Eff.bind at 1. unfold Eff.modify at 1. unfold Eff.ret at 1.
  simpl.
  unfold Transcription.try_finally.
  unfold Eff.bind at 1. unfold Eff.call at 1.
  assert (Hin : name ∈ ({[name]} : gset string) ∪ Transcription.files s).
  { apply elem_of_union_l. by apply elem_of_singleton. }
  destruct (Transcription.wavfile_write env name sample_rate audio_data)
    as [[]|e].
  - unfold Eff.bind at 1. unfold Transcription.transcribe.
    unfold Eff.bind at 1. unfold Eff.get at 1.
    unfold Eff.bind at 1. rewrite whisper_ensure_loaded_eq.
    unfold whisper_ensure_loaded. simpl. rewrite Hl. simpl.
    unfold Transcription.os_remove. run_service. simpl.
    rewrite !bool_decide_eq_true_2 by exact Hin. simpl. rewrite Hm.
    destruct (Transcription.model_transcribe env m _ _ _); simpl;
      by rewrite bool_decide_eq_true_2 by exact Hin.
  - unfold Transcription.os_remove. run_service. simpl.
    by rewrite bool_decide_eq_true_2 by exact Hin.
Qed.

(** With a model that fails on every file: the error is wrapped twice. *)
Lemma transcribe_numpy_delegates_witness :
  fst (Transcription.transcribe_numpy (transcription_env false)
         (AudioUtils.Array1 [1 # 2; 1 # 4]) 16000 None studio)
  = Py.Raise
      (Py.Exn Py.RuntimeError
         "NumPy transcription error: Transcription error: cannot decode").
Proof.
  apply (transcribe_numpy_delegates (transcription_env false)
           (AudioUtils.Array1 [1 # 2; 1 # 4]) 16000 None studio
           {| WhisperService.num_parameters := 71825920 |} "/tmp/tmp0.wav");
    reflexivity.
Defined.
